(** * Syntria: AI provider abstraction and schedule automation pipeline

    A shallow embedding of the parts of [src/lib/api.ts] (the AI provider
    classes and their factory) and of [server/index.ts] (schedule
    generation, calendar event derivation and the calendar synchronisation
    handler), together with the properties of the specification that
    concern them; and of the rest of [server/index.ts] (the risk score, the
    entity and audit stores, the two-week plan and its calendar file, the
    health check, the two agents, the OAuth endpoints and the prompt of the
    schedule request), with properties read off the code.

    Conventions of the embedding.
    - A JavaScript string is the list of its UTF-16 code units, each a
      number of type [N].
    - A JavaScript exception is a value of type [exn]; code that may throw
      returns [result A], and code that also reads or writes the token
      store or calls the remote calendar runs in the monad [M].
    - The services the program talks to (the model back ends, the Ollama
      reachability probe, the calendar insert operation) are functions
      supplied by the caller of the embedded code.
    - A JSON number is kept as an exact decimal, without the rounding of
      doubles.
    - The host time zone is the function [localTZA] that gives its offset
      from UTC at a time, as in the ECMAScript specification; where a
      property needs a zone without clock changes, it says so. *)

From Stdlib Require Import ZArith NArith List String Ascii Lia Bool.
From Stdlib Require Import DecimalString DecimalN QArith.
From stdpp Require Import base option list gmap.

Set Warnings "-register-all".
Local Open Scope Z_scope.

(** ** JavaScript strings *)

Module JSStr.

Abbreviation str := (list N).

(** The code units of an ASCII literal. *)
Definition js (s : string) : str :=
  map N_of_ascii (list_ascii_of_string s).

Definition LF : N := 10%N.
Definition DQUOTE : N := 34%N.
Definition BACKTICK : N := 96%N.
Definition LBRACE : N := 123%N.
Definition RBRACE : N := 125%N.

(** [WhiteSpace] and [LineTerminator] of ECMAScript: what [trim] removes
    and what the regular expression class [\s] matches. *)
Definition isWhiteSpace (c : N) : bool :=
  ((9 <=? c) && (c <=? 13) || (c =? 32) || (c =? 160) || (c =? 5760)
   || (8192 <=? c) && (c <=? 8202) || (c =? 8232) || (c =? 8233)
   || (c =? 8239) || (c =? 8287) || (c =? 12288) || (c =? 65279))%N.

(** The class [\d]. *)
Definition isDigit (c : N) : bool := ((48 <=? c) && (c <=? 57))%N.

Fixpoint trimStart (s : str) : str :=
  match s with
  | [] => []
  | c :: s' => if isWhiteSpace c then trimStart s' else s
  end.

Definition trimEnd (s : str) : str := rev (trimStart (rev s)).

(** [String.prototype.trim] *)
Definition trim (s : str) : str := trimEnd (trimStart s).

(** [stripPrefix p s] is the rest of [s] after its prefix [p]. *)
Fixpoint stripPrefix (p s : str) : option str :=
  match p, s with
  | [], _ => Some s
  | _ :: _, [] => None
  | a :: p', c :: s' => if (a =? c)%N then stripPrefix p' s' else None
  end.

(** [String.prototype.startsWith] *)
Definition startsWith (s p : str) : bool :=
  match stripPrefix p s with Some _ => true | None => false end.

(** [String.prototype.includes] *)
Fixpoint includes (s p : str) : bool :=
  match s with
  | [] => startsWith [] p
  | _ :: s' => startsWith s p || includes s' p
  end.

(** [s.replace(re, '')] for a regular expression [re] with the [g] flag
    that never matches the empty string.  [m t] is the match of [re]
    anchored at the start of [t], given as the text that follows it.  The
    scan goes left to right; at a match the matched code units are skipped
    ([skip] counts those still to drop) and the scan resumes after them. *)
Fixpoint removeMatches (m : str -> option str) (skip : nat) (s : str) : str :=
  match s with
  | [] => []
  | c :: s' =>
      match skip with
      | S k => removeMatches m k s'
      | O =>
          match m s with
          | Some rest => removeMatches m (length s' - length rest) s'
          | None => c :: removeMatches m O s'
          end
      end
  end.

(** The optional line feed [\n?] (greedy). *)
Definition optLF (s : str) : str :=
  match s with
  | c :: s' => if (c =? LF)%N then s' else s
  | [] => []
  end.

Definition fence : str := [BACKTICK; BACKTICK; BACKTICK].
Definition fenceJson : str := fence ++ js "json".

(** The anchored match of [/```json\n?/]. *)
Definition reFenceJson (s : str) : option str :=
  optLF <$> stripPrefix fenceJson s.

(** The anchored match of [/```\n?/]. *)
Definition reFence (s : str) : option str :=
  optLF <$> stripPrefix fence s.

(** The anchored match of [/```\n?$/]: the fence, at most one line feed,
    then the end of the input (there is no [m] flag). *)
Definition reFenceEnd (s : str) : option str :=
  match stripPrefix fence s with
  | Some [] => Some []
  | Some [c] => if (c =? LF)%N then Some [] else None
  | _ => None
  end.

(** [upToLast d s] is the longest prefix of [s] that ends with [d]. *)
Fixpoint upToLast (d : N) (s : str) : option str :=
  match s with
  | [] => None
  | c :: s' =>
      match upToLast d s' with
      | Some r => Some (c :: r)
      | None => if (c =? d)%N then Some [c] else None
      end
  end.

(** [s.match(/\{[\s\S]*\}/)]: the text of the leftmost match, which starts
    at the first opening brace and, the star being greedy, ends at the last
    closing brace after it; [None] is JavaScript's [null]. *)
Fixpoint matchBraces (s : str) : option str :=
  match s with
  | [] => None
  | c :: s' =>
      if (c =? LBRACE)%N then
        match upToLast RBRACE s' with
        | Some r => Some (c :: r)
        | None => matchBraces s'
        end
      else matchBraces s'
  end.

(** Case-insensitive comparison of a code unit with a lower-case ASCII
    letter, as done by the [i] flag. *)
Definition eqCI (lower c : N) : bool := ((c =? lower) || (c =? lower - 32))%N.

Fixpoint stripPrefixCI (p s : str) : option str :=
  match p, s with
  | [], _ => Some s
  | _ :: _, [] => None
  | a :: p', c :: s' => if eqCI a c then stripPrefixCI p' s' else None
  end.

Fixpoint takeWhile (f : N -> bool) (s : str) : str :=
  match s with
  | c :: s' => if f c then c :: takeWhile f s' else []
  | [] => []
  end.

Fixpoint dropWhile (f : N -> bool) (s : str) : str :=
  match s with
  | c :: s' => if f c then dropWhile f s' else s
  | [] => []
  end.

(** The match of [/(\d+)\s*hour/i] anchored at the start of [s]; the result
    is the capture group.  Both quantifiers are greedy, and giving back any
    of what they took cannot help: the next code unit would be a digit or
    white space where [\s*hour] or [hour] has to start. *)
Definition reHoursAt (s : str) : option str :=
  match takeWhile isDigit s with
  | [] => None
  | ds =>
      match stripPrefixCI (js "hour") (dropWhile isWhiteSpace (dropWhile isDigit s)) with
      | Some _ => Some ds
      | None => None
      end
  end.

(** [s.match(/(\d+)\s*hour/i)]: capture group 1 of the leftmost match. *)
Fixpoint matchHours (s : str) : option str :=
  match s with
  | [] => None
  | _ :: s' =>
      match reHoursAt s with
      | Some ds => Some ds
      | None => matchHours s'
      end
  end.

(** [text] contains the digits [ds], then white space, then the word
    [hour] in any case: what [/(\d+)\s*hour/i] looks for. *)
Definition mentionsHours (text ds : str) : Prop :=
  exists pre ws h rest : str,
    text = pre ++ ds ++ ws ++ h ++ rest
    /\ ds <> [] /\ forallb isDigit ds = true
    /\ forallb isWhiteSpace ws = true
    /\ stripPrefixCI (js "hour") h = Some [].

(** [text] mentions hours with the digits [ds] right after [pre]. *)
Definition mentionsHoursAt (text pre ds : str) : Prop :=
  exists ws h rest : str,
    text = pre ++ ds ++ ws ++ h ++ rest
    /\ ds <> [] /\ forallb isDigit ds = true
    /\ forallb isWhiteSpace ws = true
    /\ stripPrefixCI (js "hour") h = Some [].

(** [ds] are the digits of the first mention of hours in [text]: of the
    mention that starts leftmost. *)
Definition firstHours (text ds : str) : Prop :=
  exists pre : str,
    mentionsHoursAt text pre ds
    /\ forall pre' ds' : str,
         mentionsHoursAt text pre' ds' -> (length pre <= length pre')%nat.

(** [parseInt] on a run of decimal digits. *)
Definition parseDigits (ds : str) : Z :=
  fold_left (fun acc c => 10 * acc + (Z.of_N c - 48)) ds 0.

(** The decimal digits of a natural number. *)
Definition digitsOf (n : N) : str :=
  js (NilZero.string_of_uint (N.to_uint n)).

End JSStr.

(** ** JSON values and [JSON.parse] *)

Module JSON.
Import JSStr.

(** A value as [JSON.parse] builds it.  A number [JNum m e] is the decimal
    [m * 10^e] kept exactly, with [m] free of trailing zeros; the rounding
    of IEEE doubles is not part of the model.  An object keeps its members
    in source order; a repeated key takes its last value. *)
Inductive json : Type :=
  | JNull
  | JBool (b : bool)
  | JNum (m e : Z)
  | JStr (s : str)
  | JArr (items : list json)
  | JObj (members : list (str * json)).

(** JSON white space: tab, line feed, carriage return, space. *)
Definition isJsonWS (c : N) : bool :=
  ((c =? 9) || (c =? 10) || (c =? 13) || (c =? 32))%N.

Definition skipWS (s : str) : str := dropWhile isJsonWS s.

Definition hexVal (c : N) : option N :=
  if isDigit c then Some (c - 48)%N
  else if ((97 <=? c) && (c <=? 102))%N then Some (c - 87)%N
  else if ((65 <=? c) && (c <=? 70))%N then Some (c - 55)%N
  else None.

Definition unescape (c : N) : option N :=
  if (c =? 34)%N then Some 34%N            (* quotation mark *)
  else if (c =? 92)%N then Some 92%N       (* reverse solidus *)
  else if (c =? 47)%N then Some 47%N       (* solidus *)
  else if (c =? 98)%N then Some 8%N        (* b: backspace *)
  else if (c =? 102)%N then Some 12%N      (* f: form feed *)
  else if (c =? 110)%N then Some 10%N      (* n: line feed *)
  else if (c =? 114)%N then Some 13%N      (* r: carriage return *)
  else if (c =? 116)%N then Some 9%N       (* t: tab *)
  else None.

(** The characters of a string literal after its opening quote, up to and
    including the closing quote. *)
Fixpoint parseChars (s : str) : option (str * str) :=
  match s with
  | [] => None
  | c :: s' =>
      if (c =? 34)%N then Some ([], s')
      else if (c =? 92)%N then
        match s' with
        | [] => None
        | x :: s'' =>
            if (x =? 117)%N then
              match s'' with
              | h1 :: h2 :: h3 :: h4 :: s5 =>
                  match hexVal h1, hexVal h2, hexVal h3, hexVal h4 with
                  | Some a, Some b, Some c', Some d =>
                      match parseChars s5 with
                      | Some (r, rest) =>
                          Some ((a * 4096 + b * 256 + c' * 16 + d)%N :: r, rest)
                      | None => None
                      end
                  | _, _, _, _ => None
                  end
              | _ => None
              end
            else
              match unescape x with
              | Some u =>
                  match parseChars s'' with
                  | Some (r, rest) => Some (u :: r, rest)
                  | None => None
                  end
              | None => None
              end
        end
      else if (c <? 32)%N then None
      else
        match parseChars s' with
        | Some (r, rest) => Some (c :: r, rest)
        | None => None
        end
  end.

Definition isZeroDigit (c : N) : bool := (c =? 48)%N.

(** The decimal denoted by the digits [ds] scaled by [10^e], without
    trailing zeros in the mantissa. *)
Definition mkNum (neg : bool) (ds : str) (e : Z) : json :=
  let sig := rev (dropWhile isZeroDigit (rev ds)) in
  let m := parseDigits sig in
  if m =? 0 then JNum 0 0
  else JNum (if neg then - m else m)
            (e + Z.of_nat (length ds) - Z.of_nat (length sig)).

(** The optional exponent part; the result is the exponent and the rest. *)
Definition parseExp (s : str) : option (Z * str) :=
  match s with
  | c :: s' =>
      if eqCI 101 c then
        let '(neg, s1) :=
          match s' with
          | x :: s'' =>
              if (x =? 45)%N then (true, s'')
              else if (x =? 43)%N then (false, s'')
              else (false, s')
          | [] => (false, s')
          end in
        match takeWhile isDigit s1 with
        | [] => None
        | ds => Some (if neg then - parseDigits ds else parseDigits ds,
                      dropWhile isDigit s1)
        end
      else Some (0, s)
  | [] => Some (0, s)
  end.

(** The optional fraction part; the result is its digits and the rest. *)
Definition parseFrac (s : str) : option (str * str) :=
  match s with
  | c :: s' =>
      if (c =? 46)%N then
        match takeWhile isDigit s' with
        | [] => None
        | ds => Some (ds, dropWhile isDigit s')
        end
      else Some ([], s)
  | [] => Some ([], s)
  end.

(** A number literal: an optional minus sign; a single zero or a digit run
    without leading zero; an optional fraction (a point and digits); an
    optional exponent ([e] or [E], an optional sign, digits). *)
Definition parseNumber (s : str) : option (json * str) :=
  let '(neg, s1) :=
    match s with
    | c :: s' => if (c =? 45)%N then (true, s') else (false, s)
    | [] => (false, s)
    end in
  let ints := takeWhile isDigit s1 in
  let s2 := dropWhile isDigit s1 in
  match ints with
  | [] => None
  | d :: more =>
      if isZeroDigit d && negb (length more =? 0)%nat then None
      else
        '(fr, s3) ← parseFrac s2;
        '(ex, s4) ← parseExp s3;
        Some (mkNum neg (ints ++ fr) (ex - Z.of_nat (length fr)), s4)
  end.

Definition parseLiteral (lit : str) (v : json) (s : str) : option (json * str) :=
  (fun rest => (v, rest)) <$> stripPrefix lit s.

(** Recursive descent; [fuel] bounds the nesting of calls, and a step that
    runs out of it fails.  [parseElements] and [parseMembers] read what
    follows an opening bracket or a comma. *)
Fixpoint parseValue (fuel : nat) (s : str) : option (json * str) :=
  match fuel with
  | O => None
  | S fuel' =>
      match skipWS s with
      | [] => None
      | c :: s' =>
          if (c =? 123)%N then
            match skipWS s' with
            | x :: s'' =>
                if (x =? 125)%N then Some (JObj [], s'')
                else '(kv, rest) ← parseMembers fuel' (x :: s''); Some (JObj kv, rest)
            | [] => None
            end
          else if (c =? 91)%N then
            match skipWS s' with
            | x :: s'' =>
                if (x =? 93)%N then Some (JArr [], s'')
                else '(l, rest) ← parseElements fuel' (x :: s''); Some (JArr l, rest)
            | [] => None
            end
          else if (c =? 34)%N then
            '(t, rest) ← parseChars s'; Some (JStr t, rest)
          else if (c =? 116)%N then parseLiteral (js "true") (JBool true) (c :: s')
          else if (c =? 102)%N then parseLiteral (js "false") (JBool false) (c :: s')
          else if (c =? 110)%N then parseLiteral (js "null") JNull (c :: s')
          else parseNumber (c :: s')
      end
  end
with parseElements (fuel : nat) (s : str) : option (list json * str) :=
  match fuel with
  | O => None
  | S fuel' =>
      '(v, rest) ← parseValue fuel' s;
      match skipWS rest with
      | c :: rest' =>
          if (c =? 44)%N then
            '(l, rest'') ← parseElements fuel' rest'; Some (v :: l, rest'')
          else if (c =? 93)%N then Some ([v], rest')
          else None
      | [] => None
      end
  end
with parseMembers (fuel : nat) (s : str) : option (list (str * json) * str) :=
  match fuel with
  | O => None
  | S fuel' =>
      match skipWS s with
      | q :: s' =>
          if (q =? 34)%N then
            '(k, s1) ← parseChars s';
            match skipWS s1 with
            | c :: s2 =>
                if (c =? 58)%N then
                  '(v, rest) ← parseValue fuel' s2;
                  match skipWS rest with
                  | d :: rest' =>
                      if (d =? 44)%N then
                        '(kv, rest'') ← parseMembers fuel' rest';
                        Some ((k, v) :: kv, rest'')
                      else if (d =? 125)%N then Some ([(k, v)], rest')
                      else None
                  | [] => None
                  end
                else None
            | [] => None
            end
          else None
      | [] => None
      end
  end.

(** [JSON.parse]; [None] stands for the [SyntaxError] it throws.  Every
    nested call of the parser is preceded by the consumption of at least
    one code unit at most one call earlier, so twice the length of the text
    is fuel enough. *)
Definition parse (s : str) : option json :=
  match parseValue (2 * length s + 2) s with
  | Some (v, rest) =>
      match skipWS rest with
      | [] => Some v
      | _ :: _ => None
      end
  | None => None
  end.

End JSON.

(** ** Exceptions *)

Module Exn.
Import JSStr JSON.

(** The exceptions the embedded code can raise.  [Error] also stands for
    the errors of the HTTP and Google client libraries, which the program
    inspects through their message only. *)
Inductive exn : Type :=
  | Error (message : str)
  | SyntaxError (text : str)      (* [JSON.parse] of [text] *)
  | TypeError (what : str)
  | RangeError (what : str).      (* [toISOString] of an invalid date *)

Inductive result (A : Type) : Type :=
  | Ok (a : A)
  | Throw (e : exn).
Arguments Ok {A} a.
Arguments Throw {A} e.

#[export] Instance result_ret : MRet result := fun _ a => Ok a.
#[export] Instance result_bind : MBind result := fun _ _ f m =>
  match m with
  | Ok a => f a
  | Throw e => Throw e
  end.

(** [try { body } catch (e) { handler }] *)
Definition try_catch {A} (body : result A) (handler : exn -> result A) : result A :=
  match body with
  | Ok a => Ok a
  | Throw e => handler e
  end.

(** [JSON.parse] with its exception. *)
Definition JSON_parse (text : str) : result json :=
  match parse text with
  | Some v => Ok v
  | None => Throw (SyntaxError text)
  end.

(** [x || d] for a string that may be undefined. *)
Definition orElse (x : option str) (d : str) : str :=
  match x with
  | Some (c :: s) => c :: s
  | _ => d
  end.

End Exn.

(** ** The AI providers of [src/lib/api.ts] *)

Module Api.
Import JSStr JSON Exn.

(** The [options] argument of [generateText] and [generateJSON].  Every
    field may be missing; an [options] that is itself missing reads as the
    record with no field set. *)
Record GenerationOptions : Type := {
  model : option str;
  temperature : option Q;
  top_p : option Q;
  maxTokens : option Z;
  systemPrompt : option str
}.

Definition noOptions : GenerationOptions :=
  {| model := None; temperature := None; top_p := None;
     maxTokens := None; systemPrompt := None |}.

(** [x || d] for a number that may be undefined: zero is falsy. *)
Definition orElseQ (x : option Q) (d : Q) : Q :=
  match x with
  | Some v => if Qeq_bool v 0 then d else v
  | None => d
  end.

Definition orElseZ (x : option Z) (d : Z) : Z :=
  match x with
  | Some v => if v =? 0 then d else v
  | None => d
  end.

(** What the [catch] clauses read from an error of the HTTP client. *)
Record HttpError : Type := {
  code : option str;
  status : option Z;
  errMessage : str
}.

(** The outcome of a request: the text field the caller extracts from the
    response body (possibly missing), or the error the client raises. *)
Inductive HttpResult : Type :=
  | HttpOk (text : option str)
  | HttpFail (err : HttpError).

Record OllamaRequest : Type := {
  o_url : str;
  o_model : str;
  o_prompt : str;
  o_temperature : Q;
  o_top_p : Q
}.

Record GroqRequest : Type := {
  g_url : str;
  g_apiKey : str;
  g_model : str;
  g_system : str;
  g_user : str;
  g_temperature : Q;
  g_max_tokens : Z
}.

(** The services behind the providers. *)
Class Backends : Type := {
  (** [POST <baseUrl>/api/generate] *)
  ollamaGenerate : OllamaRequest -> HttpResult;
  (** whether [GET <baseUrl>/api/tags] answers within two seconds *)
  ollamaTags : str -> bool;
  (** [POST https://api.groq.com/openai/v1/chat/completions] *)
  groqChat : GroqRequest -> HttpResult;
  (** [generateContent] of the Gemini SDK for an API key, a model name and
      a prompt: the reply text, or the message of the error raised *)
  geminiGenerateContent : str -> str -> str -> str + str
}.

Record OllamaProvider : Type := { ollama_baseUrl : str }.
Record GroqProvider : Type := { groq_apiKey : str }.
Record GeminiProvider : Type := { gemini_apiKey : str; gemini_modelName : str }.
Inductive MockProvider : Type := mkMockProvider.

Definition groq_baseUrl : str := js "https://api.groq.com/openai/v1".
Definition gemini_defaultModel : str := js "gemini-2.0-flash-exp".

(** The suffix that asks the model for bare JSON. *)
Definition jsonInstruction : str :=
  [LF; LF] ++ js "Return ONLY valid JSON, no markdown or extra text.".

(** The fence removal shared by every [generateJSON] and by the server's
    own parsing of model replies. *)
Definition stripFences (jsonText : str) : str :=
  if startsWith jsonText fenceJson then
    removeMatches reFenceEnd 0 (removeMatches reFenceJson 0 jsonText)
  else if startsWith jsonText fence then
    removeMatches reFenceEnd 0 (removeMatches reFence 0 jsonText)
  else jsonText.

(** The response extraction of [generateJSON]: everything after the call of
    [generateText].  The three classes differ in the provider name of the
    last message only. *)
Definition extractJSON (provider : str) (text : str) : result json :=
  let jsonText := stripFences (trim text) in
  try_catch (JSON_parse jsonText) (fun _ =>
    match matchBraces jsonText with
    | Some jsonMatch => JSON_parse jsonMatch
    | None =>
        Throw (Error (js "Failed to parse JSON from " ++ provider ++ js " response"))
    end).

(** The interface [AIProvider]. *)
Class AIProvider (P : Type) : Type := {
  generateText : P -> str -> GenerationOptions -> result str;
  generateJSON : P -> str -> GenerationOptions -> result json
}.

Definition mockText : str :=
  js "This is a demo response. Please set up an AI provider (Ollama, Groq, or Gemini) to get real AI responses.".

Definition mockJSON : json :=
  JObj [ (js "executiveSummary",
          JStr (js "This is a demo response. Please set up an AI provider to get real AI responses."));
         (js "northStar", JStr (js "Demo metric"));
         (js "strategicRecommendations",
          JArr [JStr (js "Demo recommendation 1"); JStr (js "Demo recommendation 2")]) ].

Definition noProviderMessage : str :=
  js "No AI provider available. Please set up one of:" ++ [LF]
  ++ js "1. Ollama (free, no API key): Install from https://ollama.ai and run "
  ++ [DQUOTE] ++ js "ollama serve" ++ [DQUOTE] ++ [LF]
  ++ js "2. Groq (free tier): Get API key from https://console.groq.com and set GROQ_API_KEY"
  ++ [LF]
  ++ js "3. Gemini: Set GEMINI_API_KEY in .env.local".

(** The variables of [process.env] the factory reads. *)
Record ProcessEnv : Type := {
  OLLAMA_BASE_URL : option str;
  GROQ_API_KEY : option str;
  GEMINI_API_KEY : option str
}.

(** A string that may be undefined is truthy when it is defined and not
    empty; [isSet] gives it back then.  So is a variable of the environment
    set, a session identifier given, a token or a link present. *)
Definition isSet (v : option str) : option str :=
  match v with
  | Some (c :: s) => Some (c :: s)
  | _ => None
  end.

(** A variable that is undefined or empty is not set. *)
Definition unset (v : option str) : Prop := v = None \/ v = Some [].

(** The address of the Ollama daemon. *)
Definition ollamaBaseUrl (env : ProcessEnv) : str :=
  orElse (OLLAMA_BASE_URL env) (js "http://localhost:11434").

(** The providers the factory can return. *)
Inductive SomeProvider : Type :=
  | IsOllama (p : OllamaProvider)
  | IsGroq (p : GroqProvider)
  | IsGemini (p : GeminiProvider)
  | IsMock (p : MockProvider).

Section Providers.
Context {net : Backends}.

Definition Ollama_generateText (p : OllamaProvider) (prompt : str)
    (options : GenerationOptions) : result str :=
  match ollamaGenerate
          {| o_url := ollama_baseUrl p ++ js "/api/generate";
             o_model := orElse (model options) (js "llama3.2:3b");
             o_prompt := prompt;
             o_temperature := orElseQ (temperature options) (7 # 10);
             o_top_p := orElseQ (top_p options) (9 # 10) |} with
  | HttpOk text => Ok (orElse text [])
  | HttpFail err =>
      match code err with
      | Some c =>
          if decide (c = js "ECONNREFUSED") then
            Throw (Error (js "Ollama is not running. Please install and start Ollama: https://ollama.ai"))
          else Throw (Error (js "Ollama error: " ++ errMessage err))
      | None => Throw (Error (js "Ollama error: " ++ errMessage err))
      end
  end.

Definition Ollama_generateJSON (p : OllamaProvider) (prompt : str)
    (options : GenerationOptions) : result json :=
  text ← Ollama_generateText p (prompt ++ jsonInstruction) options;
  extractJSON (js "Ollama") text.

(** [isAvailable] catches every error of the probe. *)
Definition Ollama_isAvailable (p : OllamaProvider) : bool :=
  ollamaTags (ollama_baseUrl p).

Definition Groq_generateText (p : GroqProvider) (prompt : str)
    (options : GenerationOptions) : result str :=
  match groqChat
          {| g_url := groq_baseUrl ++ js "/chat/completions";
             g_apiKey := groq_apiKey p;
             g_model := orElse (model options) (js "llama-3.1-8b-instant");
             g_system := orElse (systemPrompt options) (js "You are a helpful AI assistant.");
             g_user := prompt;
             g_temperature := orElseQ (temperature options) (7 # 10);
             g_max_tokens := orElseZ (maxTokens options) 2048 |} with
  | HttpOk text => Ok (orElse text [])
  | HttpFail err =>
      match status err with
      | Some st =>
          if st =? 401 then
            Throw (Error (js "Invalid Groq API key. Get a free key at https://console.groq.com"))
          else Throw (Error (js "Groq error: " ++ errMessage err))
      | None => Throw (Error (js "Groq error: " ++ errMessage err))
      end
  end.

Definition Groq_generateJSON (p : GroqProvider) (prompt : str)
    (options : GenerationOptions) : result json :=
  text ← Groq_generateText p (prompt ++ jsonInstruction) options;
  extractJSON (js "Groq") text.

Definition Gemini_generateText (p : GeminiProvider) (prompt : str)
    (options : GenerationOptions) : result str :=
  match geminiGenerateContent (gemini_apiKey p) (gemini_modelName p) prompt with
  | inr text => Ok text
  | inl message => Throw (Error (js "Gemini error: " ++ message))
  end.

Definition Gemini_generateJSON (p : GeminiProvider) (prompt : str)
    (options : GenerationOptions) : result json :=
  text ← Gemini_generateText p prompt options;
  extractJSON (js "Gemini") text.

Definition Mock_generateText (p : MockProvider) (prompt : str)
    (options : GenerationOptions) : result str :=
  Ok mockText.

Definition Mock_generateJSON (p : MockProvider) (prompt : str)
    (options : GenerationOptions) : result json :=
  Ok mockJSON.

#[export] Instance OllamaProvider_AIProvider : AIProvider OllamaProvider :=
  {| generateText := Ollama_generateText; generateJSON := Ollama_generateJSON |}.
#[export] Instance GroqProvider_AIProvider : AIProvider GroqProvider :=
  {| generateText := Groq_generateText; generateJSON := Groq_generateJSON |}.
#[export] Instance GeminiProvider_AIProvider : AIProvider GeminiProvider :=
  {| generateText := Gemini_generateText; generateJSON := Gemini_generateJSON |}.
#[export] Instance MockProvider_AIProvider : AIProvider MockProvider :=
  {| generateText := Mock_generateText; generateJSON := Mock_generateJSON |}.

(** A returned provider answers through the class it was built from. *)
#[export] Instance SomeProvider_AIProvider : AIProvider SomeProvider :=
  {| generateText p :=
       match p with
       | IsOllama o => generateText o
       | IsGroq g => generateText g
       | IsGemini g => generateText g
       | IsMock m => generateText m
       end;
     generateJSON p :=
       match p with
       | IsOllama o => generateJSON o
       | IsGroq g => generateJSON g
       | IsGemini g => generateJSON g
       | IsMock m => generateJSON m
       end |}.

(** [getAIProvider]: Ollama when its probe answers, else Groq when its key
    is set, else Gemini when its key is set, else an error. *)
Definition getAIProvider (env : ProcessEnv) : result SomeProvider :=
  let ollama := {| ollama_baseUrl := ollamaBaseUrl env |} in
  if Ollama_isAvailable ollama then Ok (IsOllama ollama)
  else
    match isSet (GROQ_API_KEY env) with
    | Some key => Ok (IsGroq {| groq_apiKey := key |})
    | None =>
        match isSet (GEMINI_API_KEY env) with
        | Some key =>
            Ok (IsGemini {| gemini_apiKey := key; gemini_modelName := gemini_defaultModel |})
        | None => Throw (Error noProviderMessage)
        end
    end.

(** [getAIProviderWithFallback] *)
Definition getAIProviderWithFallback (env : ProcessEnv) : result SomeProvider :=
  try_catch (getAIProvider env) (fun _ => Ok (IsMock mkMockProvider)).

End Providers.

End Api.

(** ** JavaScript values and dates as [server/index.ts] uses them *)

Module JSValue.
Import JSStr JSON Exn.

(** The value of the last member named [k], if any. *)
Definition lookupLast (k : str) (members : list (str * json)) : option json :=
  fold_left (fun acc kv => if decide (kv.1 = k) then Some kv.2 else acc) members None.

(** [v.k] for a property name [k] that is neither an array index nor
    [length]; [None] is [undefined].  Only an object has such a property
    of its own, and so has the copy [{...v}] of any value [v]. *)
Definition prop (k : str) (v : json) : option json :=
  match v with
  | JObj members => lookupLast k members
  | _ => None
  end.

(** Truthiness of a value that may be undefined. *)
Definition truthy (v : option json) : bool :=
  match v with
  | None | Some JNull => false
  | Some (JBool b) => b
  | Some (JNum m _) => negb (m =? 0)
  | Some (JStr s) => negb (length s =? 0)%nat
  | Some (JArr _) | Some (JObj _) => true
  end.

(** [a || b] *)
Definition orValue (a b : option json) : option json :=
  if truthy a then a else b.

Definition zeros (n : Z) : str := repeat 48%N (Z.to_nat n).

(** [Number.prototype.toString] for the decimal [m * 10^e] whose digits are
    those of [m]. *)
Definition numberToString (m e : Z) : str :=
  if m =? 0 then js "0"
  else
    let ds := digitsOf (Z.abs_N m) in
    let k := Z.of_nat (length ds) in
    let n := k + e in
    (if m <? 0 then js "-" else [])
    ++ (if (k <=? n) && (n <=? 21) then ds ++ zeros (n - k)
        else if (0 <? n) && (n <=? 21) then
          take (Z.to_nat n) ds ++ js "." ++ drop (Z.to_nat n) ds
        else if (-6 <? n) && (n <=? 0) then js "0." ++ zeros (- n) ++ ds
        else
          match ds with
          | d :: rest =>
              d :: (match rest with [] => [] | _ :: _ => js "." ++ rest end)
                ++ js "e" ++ (if n - 1 <? 0 then js "-" else js "+")
                ++ digitsOf (Z.abs_N (n - 1))
          | [] => []
          end).

(** [v.toString()] for a truthy [v].  An array joins the strings of its
    elements with commas, [null] giving the empty string; an object gives
    ["[object Object]"] unless a member of its own named [toString] hides
    the inherited method, in which case the call throws. *)
Fixpoint toString (v : json) : result str :=
  match v with
  | JNull => Ok (js "null")
  | JBool b => Ok (if b then js "true" else js "false")
  | JNum m e => Ok (numberToString m e)
  | JStr s => Ok s
  | JArr items =>
      (fix join (l : list json) : result str :=
         match l with
         | [] => Ok []
         | x :: rest =>
             s ← (match x with JNull => Ok [] | _ => toString x end);
             match rest with
             | [] => Ok s
             | _ :: _ => r ← join rest; Ok (s ++ js "," ++ r)
             end
         end) items
  | JObj members =>
      match lookupLast (js "toString") members with
      | Some _ => Throw (TypeError (js "toString is not a function"))
      | None => Ok (js "[object Object]")
      end
  end.

(** The message the program reads from a caught error.  Only errors made
    with [new Error] or raised by the client libraries reach a handler that
    reads it; for the built-in errors the text carried stands for the
    engine's wording. *)
Definition message (e : exn) : str :=
  match e with
  | Error m => m
  | SyntaxError t => t
  | TypeError w => w
  | RangeError w => w
  end.

End JSValue.

Module JSDate.
Import JSStr Exn.

Definition msPerHour : Z := 3600000.
Definition msPerDay : Z := 86400000.
Definition maxTimeValue : Z := 8640000000000000.

(** A [Date] object is its time value in milliseconds since the epoch;
    [None] is the invalid date. *)
Abbreviation Date := (option Z).

Definition TimeClip (t : Z) : Date :=
  if Z.abs t <=? maxTimeValue then Some t else None.

(** The host clock and time zone.  [localTZA t isUTC] is the offset of
    local time from UTC in milliseconds at the time [t], as the abstract
    operation LocalTZA of ECMAScript has it: [t] is a UTC time value when
    [isUTC] is [true] and a local time value otherwise (a local time that
    a clock change skips or repeats being read with the offset in force
    before the change). *)
Record Host : Type := {
  now : Z;
  localTZA : Z -> bool -> Z;
  timeZone : str
}.

(** The abstract operations LocalTime and UTC. *)
Definition LocalTime (h : Host) (t : Z) : Z := t + localTZA h t true.
Definition UTC (h : Host) (t : Z) : Z := t - localTZA h t false.

(** A host whose zone keeps one offset from UTC ([tz] milliseconds east):
    no daylight saving time, no other clock change. *)
Definition fixedOffset (h : Host) (tz : Z) : Prop :=
  forall (t : Z) (isUTC : bool), localTZA h t isUTC = tz.

(** [d.setDate(d.getDate() + k)]: the same local time of day, [k] local
    calendar days later. *)
Definition addDays (h : Host) (d : Date) (k : Z) : Date :=
  t ← d; TimeClip (UTC h (LocalTime h t + k * msPerDay)).

(** [d.setHours(d.getHours() + n)]: [n] hours later on the local clock. *)
Definition addHours (h : Host) (d : Date) (n : Z) : Date :=
  t ← d; TimeClip (UTC h (LocalTime h t + n * msPerHour)).

(** [d.toISOString()]; the string is represented by the time value it
    spells out. *)
Definition toISOString (d : Date) : result Z :=
  match d with
  | Some t => Ok t
  | None => Throw (RangeError (js "Invalid time value"))
  end.

(** [iso.split('T')[0]]: the calendar date [YYYY-MM-DD] of a UTC timestamp,
    represented by its number of days since the epoch. *)
Definition isoDate (iso : Z) : Z := iso / msPerDay.

(** [new Date(date + 'T09:00:00')]: nine o'clock local time on a day. *)
Definition nineOClock (h : Host) (day : Z) : Date :=
  TimeClip (UTC h (day * msPerDay + 9 * msPerHour)).

End JSDate.

(** ** Schedule generation and calendar synchronisation, [server/index.ts] *)

Module Server.
Import JSStr JSON Exn JSValue JSDate Api.

(** A message of the customer chat. *)
Record ChatMessage : Type := { role : str; content : str }.

(** An element of the generated plan: the object [{...item, date, status}]
    built from the element [item] of the model's array.  The two members
    added last hide the members of [item] with the same names. *)
Record PlanItem : Type := {
  source : json;
  date : Z;
  status : str
}.

(** [item.k] for a plan item and a name other than [date] and [status]. *)
Definition itemProp (k : str) (item : PlanItem) : option json :=
  prop k (source item).

(** An element of [calendarEvents]. *)
Record CalendarEvent : Type := {
  title : option json;
  description : option json;
  start : Z;
  end_ : Z;
  ev_date : Z;
  priority : option json;
  category : option json
}.

(** The credential bundle the OAuth exchange returns. *)
Record Credentials : Type := {
  access_token : option str;
  refresh_token : option str;
  expiry_date : option Z
}.

(** The request body of [calendar.events.insert]. *)
Record InsertRequest : Type := {
  summary : option json;
  req_description : option json;
  startDateTime : Z;
  endDateTime : Z;
  req_timeZone : str
}.

(** What an insert call does: it answers with a response whose [htmlLink]
    may be missing, or it raises an error with a message. *)
Inductive InsertOutcome : Type :=
  | Inserted (htmlLink : option str)
  | InsertFailed (errorMessage : str).

(** The Google side of the server.  [getToken] is the exchange of an
    authorisation code, [None] when it fails; [useCredentials] stands for
    [oauth2Client.setCredentials] followed by [google.calendar], which may
    raise an error with a message; [eventsInsert] sees the calls made so
    far, the access token in use and the request. *)
Record Google : Type := {
  GOOGLE_CLIENT_ID : str;
  GOOGLE_CLIENT_SECRET : str;
  oauth2Client : bool;
  generateAuthUrl : str;
  getToken : str -> option Credentials;
  useCredentials : str -> option str;
  eventsInsert : list (str * InsertRequest) -> str -> InsertRequest -> InsertOutcome
}.

(** The mutable state: the token store, and the insert calls made.  The
    store is the object [tokenStore], created as [{}] and used as a map from
    session identifiers to credentials; the map holds the members of its
    own. *)
Record World : Type := {
  tokenStore : gmap str Credentials;
  insertCalls : list (str * InsertRequest)
}.

(** The world after further insert calls. *)
Definition world_with_calls (w : World) (calls : list (str * InsertRequest)) : World :=
  {| tokenStore := tokenStore w; insertCalls := insertCalls w ++ calls |}.

(** Computations that read and write the world and may throw. *)
Definition M (A : Type) : Type := World -> result A * World.

#[export] Instance M_ret : MRet M := fun _ a w => (Ok a, w).
#[export] Instance M_bind : MBind M := fun _ _ f m w =>
  match m w with
  | (Ok a, w') => f a w'
  | (Throw e, w') => (Throw e, w')
  end.

Definition throwM {A} (e : exn) : M A := fun w => (Throw e, w).

Definition liftM {A} (r : result A) : M A := fun w => (r, w).

Definition tryM {A} (body : M A) (handler : exn -> M A) : M A := fun w =>
  match body w with
  | (Ok a, w') => (Ok a, w')
  | (Throw e, w') => handler e w'
  end.

(** The names a plain object inherits from [Object.prototype]. *)
Definition inheritedNames : list str :=
  [ js "constructor"; js "hasOwnProperty"; js "isPrototypeOf";
    js "propertyIsEnumerable"; js "toLocaleString"; js "toString"; js "valueOf";
    js "__proto__"; js "__defineGetter__"; js "__defineSetter__";
    js "__lookupGetter__"; js "__lookupSetter__" ].

(** What an inherited property reads as where a credential is expected: a
    function (for [__proto__], the prototype object), which is truthy and
    has none of the fields of a credential. *)
Definition inheritedValue : Credentials :=
  {| access_token := None; refresh_token := None; expiry_date := None |}.

(** [tokenStore[sessionId]]: the member of the store's own with that name,
    else the property the store inherits under that name, else
    [undefined]. *)
Definition readToken (sessionId : str) : M (option Credentials) := fun w =>
  (Ok (match tokenStore w !! sessionId with
       | Some tokens => Some tokens
       | None =>
           if decide (sessionId ∈ inheritedNames) then Some inheritedValue else None
       end), w).

(** [tokenStore[sessionId] = tokens], for the identifier of a new session *)
Definition writeToken (sessionId : str) (tokens : Credentials) : M unit := fun w =>
  (Ok tt, {| tokenStore := <[sessionId := tokens]> (tokenStore w);
             insertCalls := insertCalls w |}).

(** [delete tokenStore[sessionId]] *)
Definition deleteToken (sessionId : str) : M unit := fun w =>
  (Ok tt, {| tokenStore := delete sessionId (tokenStore w);
             insertCalls := insertCalls w |}).

(** The link an insert contributes to the result, if any. *)
Definition linkOf (o : InsertOutcome) : option str :=
  match o with
  | Inserted link => isSet link
  | InsertFailed _ => None
  end.

(** The links of the inserts that succeeded, in call order. *)
Definition successLinks (outcomes : list InsertOutcome) : list str :=
  omap linkOf outcomes.

(** The integer a JSON number stands for. *)
Definition integerOf (v : option json) : option Z :=
  match v with
  | Some (JNum m e) => if 0 <=? e then Some (m * 10 ^ e) else None
  | _ => None
  end.

Section Handlers.
Context (host : Host) {net : Backends} (google : Google).
Context (env_GEMINI_API_KEY : option str).
(** The prompt of the schedule request, built from the strategy and the
    chat; building it may throw on a strategy of an unexpected shape. *)
Context (schedulePrompt : json -> list ChatMessage -> result str).

(** The redirects of the OAuth callback: to the workbench with an error
    reason, or with the new session. *)
Inductive Redirect : Type :=
  | RedirectError (reason : str)
  | RedirectSuccess (session : str).

(** The identifier of a new session, made from the clock and from
    [random], the nine characters taken from the random generator. *)
Definition newSessionId (random : str) : str :=
  js "session_" ++ digitsOf (Z.to_N (now host)) ++ js "_" ++ random.

(** [GET /api/auth/google/callback] *)
Definition authCallback (code : option str) (random : str) : M Redirect :=
  if negb (oauth2Client google) then mret (RedirectError (js "oauth_not_configured"))
  else
    match isSet code with
    | None => mret (RedirectError (js "no_code"))
    | Some c =>
        match getToken google c with
        | Some tokens =>
            let sessionId := newSessionId random in
            _ ← writeToken sessionId tokens;
            mret (RedirectSuccess sessionId)
        | None => mret (RedirectError (js "auth_failed"))
        end
    end.

(** [await calendar.events.insert(...)]: the call is recorded. *)
Definition insertEvent (accessToken : str) (req : InsertRequest) : M (option str) := fun w =>
  let w' := {| tokenStore := tokenStore w;
               insertCalls := insertCalls w ++ [(accessToken, req)] |} in
  match eventsInsert google (insertCalls w) accessToken req with
  | Inserted link => (Ok link, w')
  | InsertFailed msg => (Throw (Error msg), w')
  end.

(** [plan.map(...)] needs an array: [null] has no property to read, and
    no other value has the method. *)
Definition asArray (v : json) : result (list json) :=
  match v with
  | JArr items => Ok items
  | JNull => Throw (TypeError (js "Cannot read properties of null (reading 'map')"))
  | _ => Throw (TypeError (js "plan.map is not a function"))
  end.

(** [l.map((item, index) => f item index)] for a callback that may throw. *)
Fixpoint mapWithIndex {A B} (f : A -> Z -> result B) (index : Z) (l : list A)
    : result (list B) :=
  match l with
  | [] => Ok []
  | item :: rest =>
      b ← f item index;
      bs ← mapWithIndex f (index + 1) rest;
      Ok (b :: bs)
  end.

(** The start date of a plan: tomorrow. *)
Definition planStart : Date := addDays host (TimeClip (now host)) 1.

(** The callback that dates an element of the plan. *)
Definition datedItem (startDate : Date) (item : json) (index : Z) : result PlanItem :=
  let date := addDays host startDate index in
  iso ← toISOString date;
  Ok {| source := item; date := isoDate iso; status := js "planned" |}.

(** [generateScheduleFromStrategyAndChat] *)
Definition generateScheduleFromStrategyAndChat (strategyData : json)
    (customerMessages : list ChatMessage) : result (list PlanItem) :=
  match isSet env_GEMINI_API_KEY with
  | None => Throw (Error (js "GEMINI_API_KEY is required"))
  | Some apiKey =>
      let startDate := planStart in
      prompt ← schedulePrompt strategyData customerMessages;
      try_catch
        (text ← (match geminiGenerateContent apiKey gemini_defaultModel prompt with
                 | inr text => Ok text
                 | inl msg => Throw (Error msg)
                 end);
         let jsonText := stripFences (trim text) in
         plan ← JSON_parse jsonText;
         items ← asArray plan;
         mapWithIndex (datedItem startDate) 0 items)
        (fun error => Throw error)
  end.

(** The hours of an event: those of the first [<digits> hour] in the text
    of a truthy [duration], else two. *)
Definition durationHours (duration : option json) : result Z :=
  match duration with
  | Some d =>
      if truthy duration then
        text ← toString d;
        match matchHours text with
        | Some digits => Ok (parseDigits digits)
        | None => Ok 2
        end
      else Ok 2
  | None => Ok 2
  end.

(** The callback that derives a calendar event from a plan item. *)
Definition calendarEventOf (item : PlanItem) : result CalendarEvent :=
  let date := nineOClock host (date item) in
  hours ← durationHours (itemProp (js "duration") item);
  let endDate := addHours host date hours in
  startIso ← toISOString date;
  endIso ← toISOString endDate;
  Ok {| title := itemProp (js "task") item;
        description := orValue (itemProp (js "description") item) (itemProp (js "task") item);
        start := startIso;
        end_ := endIso;
        ev_date := Server.date item;
        priority := orValue (itemProp (js "priority") item) (Some (JStr (js "medium")));
        category := orValue (itemProp (js "category") item) (Some (JStr (js "Task"))) |}.

(** [plan.map(item => ...)] of the handler. *)
Definition calendarEventsOf (plan : list PlanItem) : result (list CalendarEvent) :=
  mapWithIndex (fun item _ => calendarEventOf item) 0 plan.

Definition insertRequestOf (event : CalendarEvent) : InsertRequest :=
  {| summary := title event;
     req_description := description event;
     startDateTime := start event;
     endDateTime := end_ event;
     req_timeZone := timeZone host |}.

(** The outcomes of the inserts for [calendarEvents], made in order after
    the calls [calls]. *)
Fixpoint insertOutcomes (calls : list (str * InsertRequest)) (accessToken : str)
    (calendarEvents : list CalendarEvent) : list InsertOutcome :=
  match calendarEvents with
  | [] => []
  | event :: rest =>
      eventsInsert google calls accessToken (insertRequestOf event)
      :: insertOutcomes (calls ++ [(accessToken, insertRequestOf event)]) accessToken rest
  end.

(** The loop of [createEventsInGoogleCalendar]: one insert per event, in
    order; an error of an insert is caught and logged, nothing else. *)
Fixpoint createLoop (accessToken : str) (calendarEvents : list CalendarEvent)
    (created : Z) (eventLinks : list str) : M (Z * list str) :=
  match calendarEvents with
  | [] => mret (created, eventLinks)
  | event :: rest =>
      '(created', eventLinks') ←
        tryM (link ← insertEvent accessToken (insertRequestOf event);
              match isSet link with
              | Some l => mret (created + 1, eventLinks ++ [l])
              | None => mret (created, eventLinks)
              end)
             (fun _ => mret (created, eventLinks));
      createLoop accessToken rest created' eventLinks'
  end.

(** [createEventsInGoogleCalendar] *)
Definition createEventsInGoogleCalendar (calendarEvents : list CalendarEvent)
    (accessToken : str) : M (Z * list str) :=
  tryM
    (if negb (oauth2Client google) then
       throwM (Error (js "OAuth2 client not initialized"))
     else
       match useCredentials google accessToken with
       | Some msg => throwM (Error msg)
       | None => createLoop accessToken calendarEvents 0 []
       end)
    (fun error => throwM error).

(** What the handler knows after trying to create the events. *)
Record Materialized : Type := {
  eventsCreated : Z;
  eventLinks : list str;
  needsAuth : bool
}.

(** The creation step of the handler: from [let eventsCreated = 0] to the
    end of the conditional on the session's tokens. *)
Definition materialize (sessionId : option str) (calendarEvents : list CalendarEvent)
    : M Materialized :=
  let none := {| eventsCreated := 0; eventLinks := []; needsAuth := false |} in
  match isSet sessionId with
  | None => mret {| eventsCreated := 0; eventLinks := []; needsAuth := true |}
  | Some sid =>
      stored ← readToken sid;
      match stored with
      | None => mret {| eventsCreated := 0; eventLinks := []; needsAuth := true |}
      | Some tokens =>
          tryM
            (match isSet (access_token tokens) with
             | Some accessToken =>
                 '(created, links) ← createEventsInGoogleCalendar calendarEvents accessToken;
                 mret {| eventsCreated := created; eventLinks := links; needsAuth := false |}
             | None => mret none
             end)
            (fun apiError =>
               if includes (message apiError) (js "invalid_grant")
                  || includes (message apiError) (js "expired")
               then _ ← deleteToken sid;
                    mret {| eventsCreated := 0; eventLinks := []; needsAuth := true |}
               else mret none)
      end
  end.

(** The responses of the synchronisation handler. *)
Inductive Response : Type :=
  (** status 400 *)
  | BadRequest (error : str)
  (** status 500 from the outer [catch] *)
  | ServerError (error : exn)
  (** [success: true] with [eventsCreated] and [eventLinks] *)
  | EventsCreated (plan : list PlanItem) (calendarEvents : list CalendarEvent)
      (created : Z) (links : list str)
  (** status 500, [success: false]: OAuth is not configured *)
  | OAuthNotConfigured (plan : list PlanItem) (calendarEvents : list CalendarEvent)
  (** [success: false, needsAuth: true] with the authorisation URL *)
  | AuthorizationNeeded (authUrl : str) (plan : list PlanItem)
      (calendarEvents : list CalendarEvent)
  (** the fallback, [success: true] with the plan only *)
  | PlanOnly (plan : list PlanItem) (calendarEvents : list CalendarEvent).

(** The answer chosen from the outcome of the creation step. *)
Definition respond (plan : list PlanItem) (calendarEvents : list CalendarEvent)
    (m : Materialized) : Response :=
  if 0 <? eventsCreated m then
    EventsCreated plan calendarEvents (eventsCreated m) (eventLinks m)
  else if needsAuth m then
    if (length (GOOGLE_CLIENT_ID google) =? 0)%nat
       || (length (GOOGLE_CLIENT_SECRET google) =? 0)%nat
       || negb (oauth2Client google)
    then OAuthNotConfigured plan calendarEvents
    else AuthorizationNeeded (generateAuthUrl google) plan calendarEvents
  else PlanOnly plan calendarEvents.

(** The body of a request. *)
Record SyncRequest : Type := {
  strategyData : option json;
  customerMessages : option (list ChatMessage);
  sessionId : option str
}.

(** [POST /api/pm/automation/sync-calendar] *)
Definition syncCalendar (body : SyncRequest) : M Response :=
  tryM
    (match strategyData body with
     | Some strategy =>
         if truthy (Some strategy) then
           match customerMessages body with
           | Some (msg :: msgs) =>
               plan ← liftM (generateScheduleFromStrategyAndChat strategy (msg :: msgs));
               calendarEvents ← liftM (calendarEventsOf plan);
               m ← materialize (sessionId body) calendarEvents;
               mret (respond plan calendarEvents m)
           | _ =>
               mret (BadRequest (js "Customer chat messages are required. Please have a conversation with the customer chatbot first."))
           end
         else mret (BadRequest (js "Strategy data is required. Please generate a strategy first."))
     | None => mret (BadRequest (js "Strategy data is required. Please generate a strategy first."))
     end)
    (fun error => mret (ServerError error)).

End Handlers.

End Server.

(** ** Further JavaScript idioms of [server/index.ts] *)

Module JSObject.
Import JSStr JSON Exn JSValue.

(** [v === s] for a string [s] and a value that may be undefined. *)
Definition isString (s : str) (v : option json) : bool :=
  match v with
  | Some (JStr t) => bool_decide (t = s)
  | _ => false
  end.

(** [a || d] for a default [d] that is defined. *)
Definition orDefault (a : option json) (d : json) : json :=
  match a with
  | Some v => if truthy a then v else d
  | None => d
  end.

(** The string a template literal puts for a value that may be undefined. *)
Definition stringOf (v : option json) : result str :=
  match v with
  | Some x => toString x
  | None => Ok (js "undefined")
  end.

(** The JSON number of an integer that is not negative. *)
Definition jsonInt (n : Z) : json := mkNum false (digitsOf (Z.to_N n)) 0.

(** The members [{...items}] copies from an array-like value: one for each
    index. *)
Fixpoint indexed {A} (f : A -> json) (i : N) (items : list A) : list (str * json) :=
  match items with
  | [] => []
  | x :: rest => (digitsOf i, f x) :: indexed f (i + 1) rest
  end.

(** The members that the spread [{...v}] copies from a value.  Inside an
    object literal the members written later hide those written earlier,
    which [lookupLast] accounts for on the concatenation. *)
Definition spread (v : json) : list (str * json) :=
  match v with
  | JObj members => members
  | JArr items => indexed (fun x => x) 0 items
  | JStr s => indexed (fun c => JStr [c]) 0 s
  | _ => []
  end.

(** [s.split(sep)] for a separator of one code unit. *)
Fixpoint splitOn (sep : N) (s : str) : list str :=
  match s with
  | [] => [[]]
  | c :: rest =>
      if (c =? sep)%N then [] :: splitOn sep rest
      else
        match splitOn sep rest with
        | line :: lines => (c :: line) :: lines
        | [] => [[c]]
        end
  end.

End JSObject.

(** ** The prompt of the schedule request, [server/index.ts] *)

Module SchedulePrompt.
Import JSStr JSON Exn JSValue Server JSObject.

(** The string [Array.prototype.join] puts for an element. *)
Definition elementString (x : option json) : result str :=
  match x with
  | None | Some JNull => Ok []
  | Some v => toString v
  end.

(** [items.join(sep)] for elements that may be undefined. *)
Fixpoint join (sep : str) (items : list (option json)) : result str :=
  match items with
  | [] => Ok []
  | x :: rest =>
      s ← elementString x;
      match rest with
      | [] => Ok s
      | _ :: _ => r ← join sep rest; Ok (s ++ sep ++ r)
      end
  end.

(** [v.join(sep)]: only an array has the method. *)
Definition joinOf (v : json) (sep : str) : result str :=
  match v with
  | JArr items => join sep (Some <$> items)
  | _ => Throw (TypeError (js "join is not a function"))
  end.

(** [v.substring(0, n)]: only a string has the method. *)
Definition substringOf (v : json) (n : nat) : result str :=
  match v with
  | JStr s => Ok (take n s)
  | _ => Throw (TypeError (js "substring is not a function"))
  end.

(** [r => typeof r === 'string' ? r : r.risk] *)
Definition riskText (r : json) : result (option json) :=
  match r with
  | JStr _ => Ok (Some r)
  | JNull => Throw (TypeError (js "Cannot read properties of null"))
  | _ => Ok (prop (js "risk") r)
  end.

(** [risks.map(...)]: only an array has the method. *)
Definition riskTexts (risks : json) : result (list (option json)) :=
  match risks with
  | JArr items => mapWithIndex (fun r _ => riskText r) 0 items
  | _ => Throw (TypeError (js "map is not a function"))
  end.

(** [texts.join(sep)] for strings. *)
Fixpoint joinStrings (sep : str) (texts : list str) : str :=
  match texts with
  | [] => []
  | [s] => s
  | s :: rest => s ++ sep ++ joinStrings sep rest
  end.

(** The contents of the messages of the customer, joined by blank lines. *)
Definition customerInsights (customerMessages : list ChatMessage) : str :=
  joinStrings [LF; LF]
    (content <$> List.filter (fun msg => bool_decide (role msg = js "assistant"))
                   customerMessages).

Definition promptHead : str :=
  js "You are a product management expert. Create a detailed 2-week (14-day) action plan for a product manager based on their strategy and customer insights.".

Definition promptTail : str :=
  js "Create a comprehensive 14-day schedule that:" ++ [LF]
  ++ js "1. Addresses the strategic recommendations" ++ [LF]
  ++ js "2. Incorporates customer insights and needs" ++ [LF]
  ++ js "3. Builds toward the North Star metric" ++ [LF]
  ++ js "4. Mitigates identified risks" ++ [LF]
  ++ js "5. Follows the suggested timeline" ++ [LF]
  ++ [LF]
  ++ js "Generate a JSON array with 14 items, one for each day. Each item should have:" ++ [LF]
  ++ js "- day: number (1-14)" ++ [LF]
  ++ js "- task: string (specific, actionable task title)" ++ [LF]
  ++ js "- description: string (detailed description of what to accomplish)" ++ [LF]
  ++ js "- duration: string (e.g., " ++ [DQUOTE] ++ js "2 hours" ++ [DQUOTE] ++ js ", "
  ++ [DQUOTE] ++ js "3 hours" ++ [DQUOTE] ++ js ", " ++ [DQUOTE] ++ js "half day"
  ++ [DQUOTE] ++ js ")" ++ [LF]
  ++ js "- priority: " ++ [DQUOTE] ++ js "high" ++ [DQUOTE] ++ js " | " ++ [DQUOTE]
  ++ js "medium" ++ [DQUOTE] ++ js " | " ++ [DQUOTE] ++ js "low" ++ [DQUOTE] ++ [LF]
  ++ js "- category: string (e.g., " ++ [DQUOTE] ++ js "Research" ++ [DQUOTE] ++ js ", "
  ++ [DQUOTE] ++ js "Development" ++ [DQUOTE] ++ js ", " ++ [DQUOTE]
  ++ js "Customer Validation" ++ [DQUOTE] ++ js ", " ++ [DQUOTE] ++ js "Planning"
  ++ [DQUOTE] ++ js ")" ++ [LF]
  ++ [LF]
  ++ js "Return ONLY a valid JSON array, no markdown or extra text. Make it actionable and realistic.".

(** The prompt of [generateScheduleFromStrategyAndChat], from the reading
    of the strategy to the end of the template; [strategyData] is truthy. *)
Definition schedulePrompt (strategyData : json) (customerMessages : list ChatMessage)
    : result str :=
  let northStar := orDefault (prop (js "northStar") strategyData) (JStr []) in
  let strategicRecommendations :=
    orDefault (prop (js "strategicRecommendations") strategyData) (JArr []) in
  let marketOpportunity :=
    orDefault (prop (js "marketOpportunity") strategyData) (JStr []) in
  let risks := orDefault (prop (js "risksAndChallenges") strategyData) (JArr []) in
  let timeline := orDefault (prop (js "timelineAndMilestones") strategyData) (JStr []) in
  let customerInsights := customerInsights customerMessages in
  northStarText ← toString northStar;
  recommendations ← joinOf strategicRecommendations (js ", ");
  opportunity ← substringOf marketOpportunity 500;
  timelineText ← substringOf timeline 300;
  riskList ← (texts ← riskTexts risks; join (js ", ") texts);
  Ok (promptHead ++ [LF]
      ++ [LF]
      ++ js "STRATEGY CONTEXT:" ++ [LF]
      ++ js "- North Star Metric: " ++ northStarText ++ [LF]
      ++ js "- Strategic Recommendations: " ++ recommendations ++ [LF]
      ++ js "- Market Opportunity: " ++ opportunity ++ [LF]
      ++ js "- Timeline: " ++ timelineText ++ [LF]
      ++ js "- Risks: " ++ riskList ++ [LF]
      ++ [LF]
      ++ js "CUSTOMER INSIGHTS FROM CHAT:" ++ [LF]
      ++ take 1000 customerInsights ++ [LF]
      ++ [LF]
      ++ promptTail).

End SchedulePrompt.

(** ** Risk scoring, [server/index.ts] *)

Module Risk.
Import JSStr JSON Exn JSValue Api JSObject.

Inductive RiskLevel : Type := HIGH | MEDIUM | LOW.

(** The body of the answer of the risk endpoint; [error] is there when the
    rule-based score stands in for a failed analysis. *)
Record RiskScore : Type := {
  riskLevel : RiskLevel;
  reasons : list str;
  score : Z;
  error : option str
}.

(** [calculateFallbackScore]; [data] is the request body, an object or an
    array as the body parser hands it over. *)
Definition calculateFallbackScore (data : json) : RiskScore :=
  let score := 20 in
  let score := if truthy (prop (js "hasPII") data) then score + 30 else score in
  let score := if negb (truthy (prop (js "hasControls") data)) then score + 25 else score in
  let score := if negb (isString (js "USA") (prop (js "country") data))
               then score + 15 else score in
  {| riskLevel := if 70 <? score then HIGH else if 40 <? score then MEDIUM else LOW;
     reasons := [js "Rule-based fallback"];
     score := score;
     error := None |}.

(** Whether the line matches digits followed by a full stop at its start. *)
Definition isNumbered (l : str) : bool :=
  match takeWhile isDigit l, dropWhile isDigit l with
  | _ :: _, c :: _ => (c =? 46)%N
  | _, _ => false
  end.

(** The class of the marker expression: hyphen, digit, plus sign, full
    stop. *)
Definition isMarker (c : N) : bool :=
  ((c =? 45) || isDigit c || (c =? 43) || (c =? 46))%N.

(** The replacement of one marker and the white space after it at the
    start of the line by nothing. *)
Definition stripMarker (l : str) : str :=
  match l with
  | c :: rest => if isMarker c then dropWhile isWhiteSpace rest else l
  | [] => []
  end.

(** The reasons read from the reply of the model. *)
Definition reasonsOf (text : str) : list str :=
  take 5
    (List.filter (fun r => negb (length r =? 0)%nat)
       (map (fun l => stripMarker (trim l))
          (List.filter (fun l => startsWith (trim l) (js "-") || isNumbered (trim l))
             (splitOn LF text)))).

(** The level read from the reply of the model. *)
Definition levelOf (text : str) : RiskLevel :=
  if includes text (js "HIGH") then HIGH
  else if includes text (js "MEDIUM") then MEDIUM
  else LOW.

Section Endpoint.
(** The analysis by the model: everything between the opening of the [try]
    block and the reply text, for an API key and the request body. *)
Context (riskAnalysis : str -> json -> result str).
Context (env_GEMINI_API_KEY : option str).

(** [POST /api/risk-score] *)
Definition riskScore (data : json) : RiskScore :=
  match isSet env_GEMINI_API_KEY with
  | None => calculateFallbackScore data
  | Some apiKey =>
      match riskAnalysis apiKey data with
      | Ok text =>
          let riskLevel := levelOf text in
          let reasons := reasonsOf text in
          {| riskLevel := riskLevel;
             reasons := match reasons with
                        | [] => [js "Analysis complete based on submitted documents"]
                        | _ :: _ => reasons
                        end;
             score := match riskLevel with HIGH => 85 | MEDIUM => 55 | LOW => 25 end;
             error := None |}
      | Throw err =>
          let score := calculateFallbackScore data in
          {| riskLevel := riskLevel score;
             reasons := reasons score;
             score := Risk.score score;
             error := Some (js "Gemini failed: " ++ message err) |}
      end
  end.

End Endpoint.

End Risk.

(** ** The in-memory entities and audit trail, [server/index.ts] *)

Module Registry.
Import JSStr JSON Exn JSValue JSObject.

(** The two arrays of the server. *)
Record Store : Type := {
  entities : list json;
  auditEvents : list json
}.

(** An answer with a JSON body, or the status 404. *)
Inductive Reply : Type :=
  | Json (body : json)
  | NotFound (error : str).

(** [e => e.id === id] *)
Definition hasId (id : str) (e : json) : bool :=
  isString id (prop (js "id") e).

(** [l.findIndex(p)]; [None] is the index -1. *)
Fixpoint findIndex (p : json -> bool) (l : list json) : option nat :=
  match l with
  | [] => None
  | x :: rest => if p x then Some O else S <$> findIndex p rest
  end.

Section Endpoints.
(** The text of [new Date(t).toISOString()]. *)
Context (isoString : Z -> str).

(** [GET /api/entities/:id] *)
Definition getEntity (id : str) (s : Store) : Reply :=
  match List.find (hasId id) (entities s) with
  | Some entity => Json entity
  | None => NotFound (js "Entity not found")
  end.

(** [POST /api/entities] at the clock reading [now]. *)
Definition createEntity (now : Z) (body : json) (s : Store) : json * Store :=
  let entity :=
    JObj ([ (js "id", JStr (js "entity-" ++ digitsOf (Z.to_N now)));
            (js "createdAt", JStr (isoString now));
            (js "lastUpdated", JStr (isoString now)) ]
          ++ spread body) in
  (entity, {| entities := entities s ++ [entity]; auditEvents := auditEvents s |}).

(** [PUT /api/entities/:id] at the clock reading [now]. *)
Definition updateEntity (now : Z) (id : str) (body : json) (s : Store) : Reply * Store :=
  match findIndex (hasId id) (entities s) with
  | None => (NotFound (js "Entity not found"), s)
  | Some index =>
      let old := default JNull (entities s !! index) in
      let entity :=
        JObj (spread old ++ spread body ++ [(js "lastUpdated", JStr (isoString now))]) in
      (Json entity,
       {| entities := <[index := entity]> (entities s); auditEvents := auditEvents s |})
  end.

(** [POST /api/audit] at the clock reading [now]. *)
Definition createAudit (now : Z) (body : json) (s : Store) : json * Store :=
  let event :=
    JObj ([ (js "id", JStr (js "audit-" ++ digitsOf (Z.to_N now)));
            (js "timestamp", JStr (isoString now));
            (js "entityName",
             orDefault (prop (js "entityId") body) (JStr (js "Unknown"))) ]
          ++ spread body) in
  (event, {| entities := entities s; auditEvents := auditEvents s ++ [event] |}).

End Endpoints.

End Registry.

(** ** The two-week plan and its calendar file, [server/index.ts] *)

Module Planner.
Import JSStr JSON Exn JSValue JSDate Api Server JSObject.

(** An element of the array handed to [createEvents]: the title, the
    description, the local calendar day of the start (as a day number;
    [None] when the date is invalid) with its hour and minute, and the
    hours of the duration. *)
Record EventAttributes : Type := {
  ics_title : json;
  ics_description : str;
  ics_startDay : option Z;
  ics_startHour : Z;
  ics_startMinute : Z;
  ics_hours : Z
}.

Section TwoWeekPlan.
Context (host : Host) {net : Backends}.
Context (env_GEMINI_API_KEY : option str).
(** The prompt of the plan request, built from the goal, the strategy and
    the constraints. *)
Context (planPrompt : str -> str -> list str -> str).
(** [createEvents] of the calendar library: the message of its error, if
    any, and the text of the file, if any. *)
Context (createEvents : list EventAttributes -> option str * option str).

(** One turn of the loop of the plan without AI. *)
Definition fallbackItem (goal : str) (startDate : Date) (i : Z) : result PlanItem :=
  let date := addDays host startDate (i - 1) in
  iso ← toISOString date;
  Ok {| source :=
          JObj [ (js "day", jsonInt i);
                 (js "task",
                  JStr (js "Work on: " ++ goal ++ js " (Day " ++ digitsOf (Z.to_N i) ++ js ")"));
                 (js "description",
                  JStr (js "Day " ++ digitsOf (Z.to_N i) ++ js " tasks and milestones")) ];
        date := isoDate iso;
        status := js "planned" |}.

(** What that turn gives for a start date [t] in range: the item of day
    [i]. *)
Definition fallbackItemAt (goal : str) (t : Z) (i : Z) : PlanItem :=
  {| source :=
       JObj [ (js "day", jsonInt i);
              (js "task",
               JStr (js "Work on: " ++ goal ++ js " (Day " ++ digitsOf (Z.to_N i) ++ js ")"));
              (js "description",
               JStr (js "Day " ++ digitsOf (Z.to_N i) ++ js " tasks and milestones")) ];
     date := isoDate t + (i - 1);
     status := js "planned" |}.

(** The loop from [i] for [turns] turns. *)
Fixpoint fallbackLoop (goal : str) (startDate : Date) (turns : nat) (i : Z)
    : result (list PlanItem) :=
  match turns with
  | O => Ok []
  | S k =>
      item ← fallbackItem goal startDate i;
      rest ← fallbackLoop goal startDate k (i + 1);
      Ok (item :: rest)
  end.

(** The plan without AI: days 1 to 14. *)
Definition fallbackPlan (goal : str) (startDate : Date) : result (list PlanItem) :=
  fallbackLoop goal startDate 14 1.

(** [generateTwoWeekPlan] *)
Definition generateTwoWeekPlan (goal strategy : str) (startDate : Date)
    (constraints : list str) : result (list PlanItem) :=
  match isSet env_GEMINI_API_KEY with
  | None => fallbackPlan goal startDate
  | Some apiKey =>
      try_catch
        (let prompt := planPrompt goal strategy constraints in
         text ← (match geminiGenerateContent apiKey gemini_defaultModel prompt with
                 | inr text => Ok text
                 | inl msg => Throw (Error msg)
                 end);
         let jsonText := stripFences (trim text) in
         plan ← JSON_parse jsonText;
         items ← asArray plan;
         mapWithIndex (datedItem host startDate) 0 items)
        (fun _ => fallbackPlan goal startDate)
  end.

(** [new Date(day)] for the text of a calendar day: midnight UTC. *)
Definition dateOfDay (day : Z) : Date := TimeClip (day * msPerDay).

(** [d.setHours(0, 0, 0, 0)]: midnight local time of the local day. *)
Definition startOfDay (d : Date) : Date :=
  t ← d; TimeClip (UTC host (LocalTime host t / msPerDay * msPerDay)).

(** The local calendar day of a date, which [getFullYear], [getMonth] and
    [getDate] spell out. *)
Definition localDay (d : Date) : option Z :=
  t ← d; Some (LocalTime host t / msPerDay).

(** The callback of [plan.map] in [createICSFile]. *)
Definition eventAttributesOf (goal : str) (item : PlanItem) : result EventAttributes :=
  let date := startOfDay (dateOfDay (date item)) in
  durationHours ← (match itemProp (js "duration") item with
                   | Some duration =>
                       if truthy (Some duration) then
                         text ← toString duration;
                         match matchHours text with
                         | Some durationMatch => Ok (parseDigits durationMatch)
                         | None => Ok 2
                         end
                       else Ok 2
                   | None => Ok 2
                   end);
  title ← (match itemProp (js "task") item with
           | Some task =>
               if truthy (Some task) then Ok task
               else day ← stringOf (itemProp (js "day") item);
                    Ok (JStr (js "Day " ++ day ++ js ": Work on " ++ goal))
           | None =>
               day ← stringOf (itemProp (js "day") item);
               Ok (JStr (js "Day " ++ day ++ js ": Work on " ++ goal))
           end);
  text ← stringOf (orValue (itemProp (js "description") item)
                     (orValue (itemProp (js "task") item) (Some (JStr []))));
  Ok {| ics_title := title;
        ics_description := text ++ [LF; LF] ++ js "Goal: " ++ goal;
        ics_startDay := localDay date;
        ics_startHour := 9;
        ics_startMinute := 0;
        ics_hours := durationHours |}.

(** [createICSFile] *)
Definition createICSFile (plan : list PlanItem) (goal : str) : result str :=
  events ← mapWithIndex (fun item _ => eventAttributesOf goal item) 0 plan;
  match createEvents events with
  | (Some errorMessage, _) =>
      Throw (Error (js "Failed to create calendar file: " ++ errorMessage))
  | (None, value) => Ok (orElse value [])
  end.

End TwoWeekPlan.

End Planner.

(** ** The health check and the two agents, [server/index.ts] *)

Module Agents.
Import JSStr JSON Exn JSValue JSDate Api JSObject.

Inductive KeyProvider : Type := Gemini | OpenAI | NoProvider.

(** The body of the health answer. *)
Record Health : Type := {
  ok : bool;
  provider : KeyProvider;
  hasKey : bool;
  keyLength : nat
}.

(** The [data] of a strategy answer. *)
Record StrategyData : Type := {
  executiveSummary : json;
  northStar : json;
  marketOpportunity : json;
  competitiveLandscape : json;
  strategicRecommendations : json;
  icps : json;
  successMetrics : json;
  goToMarketConsiderations : json;
  risksAndChallenges : json;
  timelineAndMilestones : json;
  constraints : json;
  prd : json
}.

(** The answers of an agent endpoint, [A] being the [data] of its success
    answer. *)
Inductive AgentResponse (A : Type) : Type :=
  (** status 400: no API key *)
  | KeyRequired
  (** status 400: no message *)
  | MessageRequired
  (** [success: true] with the data and the time stamp of the trace *)
  | AgentOk (data : A) (timestamp : Z)
  (** status 500 from the inner [catch], built from the message of the
      error *)
  | AgentFailed (aiError : exn)
  (** status 500 from the outer [catch] *)
  | AgentError (error : exn).
Arguments KeyRequired {A}.
Arguments MessageRequired {A}.
Arguments AgentOk {A} data timestamp.
Arguments AgentFailed {A} aiError.
Arguments AgentError {A} error.

Definition defaultPrd : str :=
  js "# Product Brief" ++ [LF; LF] ++ js "## Vision" ++ [LF; LF] ++ js "...".

Section Endpoints.
Context (host : Host) {net : Backends}.
Context (env_GEMINI_API_KEY env_OPENAI_API_KEY : option str).
(** The prompts, built from the request body inside the inner [try]. *)
Context (strategyPrompt advisoryPrompt : json -> result str).

(** [GET /api/health] *)
Definition health : Health :=
  let provider :=
    match isSet env_GEMINI_API_KEY with
    | Some _ => Gemini
    | None =>
        match isSet env_OPENAI_API_KEY with
        | Some _ => OpenAI
        | None => NoProvider
        end
    end in
  {| ok := true;
     provider := provider;
     hasKey := match provider with NoProvider => false | _ => true end;
     keyLength := length (orElse env_GEMINI_API_KEY []) |}.

(** [process.env.GEMINI_API_KEY || process.env.OPENAI_API_KEY] *)
Definition apiKey : option str :=
  match isSet env_GEMINI_API_KEY with
  | Some key => Some key
  | None => isSet env_OPENAI_API_KEY
  end.

(** [model.generateContent(prompt)] followed by [result.response.text()],
    on the client built from [process.env.GEMINI_API_KEY || '']. *)
Definition generateContent (prompt : str) : result str :=
  match geminiGenerateContent (orElse env_GEMINI_API_KEY []) gemini_defaultModel prompt with
  | inr text => Ok text
  | inl msg => Throw (Error msg)
  end.

(** The object literal [data] of the strategy answer. *)
Definition strategyData (body aiData : json) : result StrategyData :=
  match aiData with
  | JNull =>
      Throw (TypeError (js "Cannot read properties of null (reading 'executiveSummary')"))
  | _ =>
      let market := prop (js "market") body in
      let segment := prop (js "segment") body in
      northStar ←
        (match prop (js "northStar") aiData with
         | Some v =>
             if truthy (Some v) then Ok v
             else m ← stringOf (orValue market (Some (JStr (js "product"))));
                  s ← stringOf (orValue segment (Some (JStr (js "customers"))));
                  Ok (JStr (js "Build the leading " ++ m ++ js " solution for " ++ s))
         | None =>
             m ← stringOf (orValue market (Some (JStr (js "product"))));
             s ← stringOf (orValue segment (Some (JStr (js "customers"))));
             Ok (JStr (js "Build the leading " ++ m ++ js " solution for " ++ s))
         end);
      Ok {| executiveSummary := orDefault (prop (js "executiveSummary") aiData) (JStr []);
            northStar := northStar;
            marketOpportunity := orDefault (prop (js "marketOpportunity") aiData) (JStr []);
            competitiveLandscape :=
              orDefault (prop (js "competitiveLandscape") aiData) (JStr []);
            strategicRecommendations :=
              orDefault (prop (js "strategicRecommendations") aiData) (JArr []);
            icps := orDefault (prop (js "icps") aiData) (JArr []);
            successMetrics := orDefault (prop (js "successMetrics") aiData) (JArr []);
            goToMarketConsiderations :=
              orDefault (prop (js "goToMarketConsiderations") aiData) (JArr []);
            risksAndChallenges := orDefault (prop (js "risksAndChallenges") aiData) (JArr []);
            timelineAndMilestones :=
              orDefault (prop (js "timelineAndMilestones") aiData) (JStr []);
            constraints :=
              orDefault (prop (js "constraints") aiData)
                (orDefault (prop (js "constraints") body) (JArr []));
            prd := orDefault (prop (js "prd") aiData) (JStr defaultPrd) |}
  end.

(** [POST /api/pm/strategy] *)
Definition strategy (body : json) : AgentResponse StrategyData :=
  match body with
  | JNull => AgentError (TypeError (js "Cannot destructure null"))
  | _ =>
      match apiKey with
      | None => KeyRequired
      | Some _ =>
          match
            (prompt ← strategyPrompt body;
             text ← generateContent prompt;
             let jsonText := stripFences (trim text) in
             aiData ← JSON_parse jsonText;
             data ← strategyData body aiData;
             timestamp ← toISOString (TimeClip (now host));
             Ok (AgentOk data timestamp))
          with
          | Ok response => response
          | Throw aiError => AgentFailed aiError
          end
      end
  end.

(** [POST /api/pm/customer-advisory] *)
Definition customerAdvisory (body : json) : AgentResponse str :=
  match body with
  | JNull => AgentError (TypeError (js "Cannot destructure null"))
  | _ =>
      match apiKey with
      | None => KeyRequired
      | Some _ =>
          if negb (truthy (prop (js "message") body)) then MessageRequired
          else
            match
              (prompt ← advisoryPrompt body;
               text ← generateContent prompt;
               timestamp ← toISOString (TimeClip (now host));
               Ok (AgentOk (trim text) timestamp))
            with
            | Ok response => response
            | Throw aiError => AgentFailed aiError
            end
      end
  end.

End Endpoints.

End Agents.

(** ** The authorisation endpoint, [server/index.ts] *)

Module OAuth.
Import JSStr Server.

(** The answers of the endpoint: the URL, or the status 500. *)
Inductive AuthUrlReply : Type :=
  | AuthUrl (authUrl : str)
  | NotConfigured (error : str).

(** [GET /api/auth/google] *)
Definition authUrlEndpoint (google : Google) : AuthUrlReply :=
  if (length (GOOGLE_CLIENT_ID google) =? 0)%nat
     || (length (GOOGLE_CLIENT_SECRET google) =? 0)%nat
     || negb (oauth2Client google)
  then NotConfigured (js "Google OAuth not configured. Please set GOOGLE_CLIENT_ID and GOOGLE_CLIENT_SECRET in .env.local")
  else AuthUrl (generateAuthUrl google).

End OAuth.

(** ** Sample inputs *)

Module Samples.
Import JSStr JSON Exn Api.

Definition dq : str := [DQUOTE].

(** The text of an object with the member [a] equal to 1. *)
Definition sampleObject : str := js "{" ++ dq ++ js "a" ++ dq ++ js ":1}".

Definition proseWithObject : str :=
  js "Sure, here it is: " ++ sampleObject ++ js " Hope this helps.".

Definition proseWithArray : str := js "Here is the list: [1,2]".

(** The text of an object whose member [a] is a string made of a fence. *)
Definition fenceInString : str :=
  js "{" ++ dq ++ js "a" ++ dq ++ js ":" ++ dq ++ fence ++ dq ++ js "}".

Definition refused : HttpError :=
  {| code := Some (js "ECONNREFUSED"); status := None;
     errMessage := js "connect ECONNREFUSED" |}.

(** No service answers. *)
Definition netDown : Backends :=
  {| ollamaGenerate := fun _ => HttpFail refused;
     ollamaTags := fun _ => false;
     groqChat := fun _ => HttpFail refused;
     geminiGenerateContent := fun _ _ _ => inl (js "fetch failed") |}.

(** The local Ollama daemon answers. *)
Definition netLocal : Backends :=
  {| ollamaGenerate := fun _ => HttpOk (Some (js "[1]"));
     ollamaTags := fun _ => true;
     groqChat := fun _ => HttpFail refused;
     geminiGenerateContent := fun _ _ _ => inl (js "fetch failed") |}.

(** Models that answer with the prompt they were given. *)
Definition netEcho : Backends :=
  {| ollamaGenerate := fun req => HttpOk (Some (o_prompt req));
     ollamaTags := fun _ => false;
     groqChat := fun req => HttpOk (Some (g_user req));
     geminiGenerateContent := fun _ _ prompt => inr prompt |}.

Definition envAllKeys : ProcessEnv :=
  {| OLLAMA_BASE_URL := None;
     GROQ_API_KEY := Some (js "gsk_key");
     GEMINI_API_KEY := Some (js "AIza_key") |}.

Definition envGeminiOnly : ProcessEnv :=
  {| OLLAMA_BASE_URL := None;
     GROQ_API_KEY := Some [];
     GEMINI_API_KEY := Some (js "AIza_key") |}.

Definition envNoKeys : ProcessEnv :=
  {| OLLAMA_BASE_URL := None; GROQ_API_KEY := None; GEMINI_API_KEY := None |}.

(** A host at the epoch, in UTC. *)
Definition hostEpoch : JSDate.Host :=
  {| JSDate.now := 0; JSDate.localTZA := fun _ _ => 0; JSDate.timeZone := js "UTC" |}.

(** A reply with one element, numbered day 5. *)
Definition replyDay5 : str := js "[{" ++ dq ++ js "day" ++ dq ++ js ":5}]".

(** A reply with two elements, numbered 1 and 2, the first with a duration. *)
Definition replyTwoDays : str :=
  js "[{" ++ dq ++ js "day" ++ dq ++ js ":1," ++ dq ++ js "task" ++ dq ++ js ":"
  ++ dq ++ js "Interview users" ++ dq ++ js "," ++ dq ++ js "duration" ++ dq
  ++ js ":" ++ dq ++ js "about 3 hours" ++ dq ++ js "},{" ++ dq ++ js "day" ++ dq
  ++ js ":2," ++ dq ++ js "task" ++ dq ++ js ":" ++ dq ++ js "Write summary" ++ dq
  ++ js "}]".

Definition netReplying (reply : str) : Backends :=
  {| ollamaGenerate := fun _ => HttpFail refused;
     ollamaTags := fun _ => false;
     groqChat := fun _ => HttpFail refused;
     geminiGenerateContent := fun _ _ _ => inr reply |}.

Definition somePrompt (strategy : json) (chat : list Server.ChatMessage) : result str :=
  Ok (js "Create a 14-day action plan.").

Definition someChat : list Server.ChatMessage :=
  [ {| Server.role := js "assistant"; Server.content := js "I need exports." |} ].

Definition planDay5 : list Server.PlanItem :=
  [ {| Server.source := JObj [(js "day", JNum 5 0)];
       Server.date := 1; Server.status := js "planned" |} ].

Definition planTwoDays : list Server.PlanItem :=
  [ {| Server.source :=
         JObj [(js "day", JNum 1 0); (js "task", JStr (js "Interview users"));
               (js "duration", JStr (js "about 3 hours"))];
       Server.date := 1; Server.status := js "planned" |};
    {| Server.source :=
         JObj [(js "day", JNum 2 0); (js "task", JStr (js "Write summary"))];
       Server.date := 2; Server.status := js "planned" |} ].

Definition eventsTwoDays : list Server.CalendarEvent :=
  [ {| Server.title := Some (JStr (js "Interview users"));
       Server.description := Some (JStr (js "Interview users"));
       Server.start := 118800000; Server.end_ := 129600000; Server.ev_date := 1;
       Server.priority := Some (JStr (js "medium"));
       Server.category := Some (JStr (js "Task")) |};
    {| Server.title := Some (JStr (js "Write summary"));
       Server.description := Some (JStr (js "Write summary"));
       Server.start := 205200000; Server.end_ := 212400000; Server.ev_date := 2;
       Server.priority := Some (JStr (js "medium"));
       Server.category := Some (JStr (js "Task")) |} ].

(** Fourteen events, one a day. *)
Definition fourteenEvents : list Server.CalendarEvent :=
  (fun d : nat =>
     {| Server.title := Some (JStr (js "Task"));
        Server.description := Some (JStr (js "Task"));
        Server.start := Z.of_nat d * 86400000 + 32400000;
        Server.end_ := Z.of_nat d * 86400000 + 39600000;
        Server.ev_date := Z.of_nat d;
        Server.priority := Some (JStr (js "medium"));
        Server.category := Some (JStr (js "Task")) |}) <$> seq 1 14.

(** A calendar service whose third and tenth insert fail with an expired
    grant and whose other inserts answer with a link. *)
Definition googleExpiring : Server.Google :=
  {| Server.GOOGLE_CLIENT_ID := js "client-id";
     Server.GOOGLE_CLIENT_SECRET := js "client-secret";
     Server.oauth2Client := true;
     Server.generateAuthUrl := js "https://accounts.google.com/o/oauth2/v2/auth";
     Server.getToken := fun _ => None;
     Server.useCredentials := fun _ => None;
     Server.eventsInsert := fun calls _ _ =>
       if decide (length calls = 2%nat \/ length calls = 9%nat)
       then Server.InsertFailed (js "invalid_grant")
       else Server.Inserted
              (Some (js "https://www.google.com/calendar/event?eid="
                     ++ digitsOf (N.of_nat (length calls)))) |}.

Definition sampleSession : str := js "session_1700000000000_k3x9q2w1z".

Definition sampleTokens : Server.Credentials :=
  {| Server.access_token := Some (js "ya29.access");
     Server.refresh_token := Some (js "1//refresh");
     Server.expiry_date := Some 1700003600000 |}.

(** A store holding the credential of one session; no insert made yet. *)
Definition sampleWorld : Server.World :=
  {| Server.tokenStore := {[ sampleSession := sampleTokens ]};
     Server.insertCalls := [] |}.

Definition sampleGemini : GeminiProvider :=
  {| gemini_apiKey := js "AIza_key"; gemini_modelName := gemini_defaultModel |}.

End Samples.

(** ** Sample inputs for the further endpoints *)

Module MoreSamples.
Import JSStr JSON Exn JSValue JSDate Api Samples.

(** A reply of the risk analysis that names two levels. *)
Definition riskReply : str := js "Risk is not HIGH, more likely MEDIUM.".

Definition riskAnalysisSaying (text : str) (apiKey : str) (data : json) : result str :=
  Ok text.

(** A stand-in for the ISO text of a time: its milliseconds. *)
Definition isoMillis (t : Z) : str := digitsOf (Z.to_N t).

(** A store with one entity. *)
Definition acme : json :=
  JObj [(js "id", JStr (js "entity-1")); (js "name", JStr (js "Acme"))].

Definition oneEntity : Registry.Store :=
  {| Registry.entities := [acme]; Registry.auditEvents := [] |}.

Definition renameBody : json := JObj [(js "name", JStr (js "Acme Corp"))].

Definition numericIdBody : json := JObj [(js "id", JNum 7 0)].

Definition goalPrompt (goal strategy : str) (constraints : list str) : str := goal.

(** A host five hours west of Greenwich. *)
Definition hostWest : Host :=
  {| now := 0; localTZA := fun _ _ => -18000000; timeZone := js "Etc/GMT+5" |}.

(** A host in New York, at half past seven in the evening of 8 March 2024
    (00:30 UTC on 9 March).  In 2024 daylight saving time is in force there
    from 10 March, 07:00 UTC, to 3 November, 06:00 UTC: on the local clock
    from 03:00 on 10 March to 02:00 on 3 November, the hour skipped in
    March being read with the winter offset and the hour repeated in
    November with the summer offset. *)
Definition hostNewYork : Host :=
  {| now := 1709944200000;
     localTZA := fun t isUTC =>
       if isUTC then
         if (1710054000000 <=? t) && (t <? 1730613600000) then -14400000 else -18000000
       else
         if (1710039600000 <=? t) && (t <? 1730599200000) then -14400000 else -18000000;
     timeZone := js "America/New_York" |}.

(** An item dated 9 March 2024 that is to take a whole day. *)
Definition wholeDayItem : Server.PlanItem :=
  {| Server.source :=
       JObj [(js "day", JNum 1 0); (js "task", JStr (js "Launch"));
             (js "duration", JStr (js "24 hours"))];
     Server.date := 19791; Server.status := js "planned" |}.

(** The first item of [planTwoDays]. *)
Definition interviewItem : Server.PlanItem :=
  {| Server.source :=
       JObj [(js "day", JNum 1 0); (js "task", JStr (js "Interview users"));
             (js "duration", JStr (js "about 3 hours"))];
     Server.date := 1; Server.status := js "planned" |}.

Definition fixedPrompt (body : json) : result str := Ok (js "Act as instructed.").

Definition marketBody : json :=
  JObj [(js "market", JStr (js "fintech")); (js "message", JStr (js "What do you need?"))].

(** A calendar service that grants a credential for every code. *)
Definition googleGranting : Server.Google :=
  {| Server.GOOGLE_CLIENT_ID := js "client-id";
     Server.GOOGLE_CLIENT_SECRET := js "client-secret";
     Server.oauth2Client := true;
     Server.generateAuthUrl := js "https://accounts.google.com/o/oauth2/v2/auth";
     Server.getToken := fun _ => Some sampleTokens;
     Server.useCredentials := fun _ => None;
     Server.eventsInsert := fun calls _ _ =>
       Server.Inserted
         (Some (js "https://www.google.com/calendar/event?eid="
                ++ digitsOf (N.of_nat (length calls)))) |}.

(** A calendar client that rejects every credential with [message]. *)
Definition googleRejecting (message : str) : Server.Google :=
  {| Server.GOOGLE_CLIENT_ID := js "client-id";
     Server.GOOGLE_CLIENT_SECRET := js "client-secret";
     Server.oauth2Client := true;
     Server.generateAuthUrl := js "https://accounts.google.com/o/oauth2/v2/auth";
     Server.getToken := fun _ => None;
     Server.useCredentials := fun _ => Some message;
     Server.eventsInsert := fun _ _ _ => Server.InsertFailed (js "unreachable") |}.

(** A server without client identifier whose calendar client rejects every
    credential with [message]. *)
Definition googleUnconfigured (message : str) : Server.Google :=
  {| Server.GOOGLE_CLIENT_ID := [];
     Server.GOOGLE_CLIENT_SECRET := [];
     Server.oauth2Client := true;
     Server.generateAuthUrl := js "https://accounts.google.com/o/oauth2/v2/auth";
     Server.getToken := fun _ => None;
     Server.useCredentials := fun _ => Some message;
     Server.eventsInsert := fun _ _ _ => Server.InsertFailed (js "unreachable") |}.

(** A calendar library that gives a file for every list of events. *)
Definition icsLibrary (events : list Planner.EventAttributes) : option str * option str :=
  (None, Some (js "BEGIN:VCALENDAR")).

(** A chat that opens with a question of the product manager. *)
Definition chatWithManager : list Server.ChatMessage :=
  {| Server.role := js "user"; Server.content := js "What do you need?" |} :: someChat.

Definition wellFormedRequest : Server.SyncRequest :=
  {| Server.strategyData := Some (JObj []);
     Server.customerMessages := Some someChat;
     Server.sessionId := None |}.

(** The same request from the session of the sample store. *)
Definition sessionRequest : Server.SyncRequest :=
  {| Server.strategyData := Some (JObj []);
     Server.customerMessages := Some someChat;
     Server.sessionId := Some sampleSession |}.

End MoreSamples.

(** * Properties *)

(** ** Facts about the string operations *)

Module JSStrFacts.
Import JSStr.

Lemma stripPrefix_app (p s : str) : stripPrefix p (p ++ s) = Some s.
Proof.
  induction p as [|a p IH]; simpl; [done|].
  by rewrite N.eqb_refl.
Qed.

Lemma stripPrefix_Some (p s r : str) : stripPrefix p s = Some r -> s = p ++ r.
Proof.
  revert s; induction p as [|a p IH]; intros s H; simpl in *.
  - by inversion H.
  - destruct s as [|c s]; [done|].
    destruct (N.eqb_spec a c) as [->|]; [|done].
    by rewrite (IH _ H).
Qed.

Lemma startsWith_app (p s : str) : startsWith (p ++ s) p = true.
Proof. unfold startsWith. by rewrite stripPrefix_app. Qed.

Lemma trimStart_ws (ws s : str) :
  forallb isWhiteSpace ws = true -> trimStart (ws ++ s) = trimStart s.
Proof.
  induction ws as [|c ws IH]; simpl; [done|].
  intros [Hc Hws]%andb_true_iff. rewrite Hc. auto.
Qed.

Lemma trimStart_keep (c : N) (s : str) :
  isWhiteSpace c = false -> trimStart (c :: s) = c :: s.
Proof. intros H; simpl; by rewrite H. Qed.

Lemma forallb_rev (f : N -> bool) (s : str) :
  forallb f s = true -> forallb f (rev s) = true.
Proof.
  rewrite !forallb_forall. intros H x Hx. apply H. by apply in_rev.
Qed.

(** Trimming removes the white space around a text that neither starts nor
    ends with white space. *)
Lemma trim_around (ws1 ws2 x : str) (a b : N) :
  forallb isWhiteSpace ws1 = true -> forallb isWhiteSpace ws2 = true ->
  isWhiteSpace a = false -> isWhiteSpace b = false ->
  trim (ws1 ++ (a :: x ++ [b]) ++ ws2) = a :: x ++ [b].
Proof.
  intros H1 H2 Ha Hb. unfold trim, trimEnd.
  rewrite trimStart_ws by done.
  change ((a :: x ++ [b]) ++ ws2) with (a :: (x ++ [b]) ++ ws2).
  rewrite trimStart_keep by done.
  change (a :: (x ++ [b]) ++ ws2) with (((a :: x) ++ [b]) ++ ws2).
  rewrite rev_app_distr, trimStart_ws by (by apply forallb_rev).
  rewrite rev_app_distr.
  change (rev [b] ++ rev (a :: x)) with (b :: rev (a :: x)).
  rewrite trimStart_keep by done.
  change (b :: rev (a :: x)) with (rev [b] ++ rev (a :: x)).
  by rewrite <- rev_app_distr, rev_involutive.
Qed.

(** *** Removal of matches *)

Lemma removeMatches_skip (m : str -> option str) (k : nat) (s : str) :
  removeMatches m k s = removeMatches m 0 (drop k s).
Proof.
  revert k; induction s as [|c s IH]; intros [|k]; simpl; auto.
Qed.

Lemma removeMatches_match (m : str -> option str) (mt rest : str) (c : N) :
  m (c :: mt ++ rest) = Some rest ->
  removeMatches m 0 (c :: mt ++ rest) = removeMatches m 0 rest.
Proof.
  intros H. simpl. rewrite H, removeMatches_skip.
  rewrite length_app. replace (length mt + length rest - length rest)%nat with (length mt) by lia.
  by rewrite drop_app_length.
Qed.

Lemma removeMatches_keep (m : str -> option str) (c : N) (s : str) :
  m (c :: s) = None ->
  removeMatches m 0 (c :: s) = c :: removeMatches m 0 s.
Proof. intros H. simpl. by rewrite H. Qed.

Lemma includes_cons (c : N) (s p : str) :
  includes (c :: s) p = false ->
  startsWith (c :: s) p = false /\ includes s p = false.
Proof. simpl. by intros ?%orb_false_iff. Qed.

Lemma startsWith_false (s p : str) :
  startsWith s p = false -> stripPrefix p s = None.
Proof. unfold startsWith. by destruct (stripPrefix p s). Qed.

(** A text without fence is left alone by the three fence patterns. *)
Lemma removeMatches_none (m : str -> option str) (s : str) :
  (forall t, stripPrefix fence t = None -> m t = None) ->
  includes s fence = false ->
  removeMatches m 0 s = s.
Proof.
  intros Hm. induction s as [|c s IH]; [done|].
  intros [H1 H2]%includes_cons.
  rewrite removeMatches_keep by (by apply Hm, startsWith_false).
  by rewrite IH.
Qed.

Lemma reFenceEnd_needs_fence (t : str) :
  stripPrefix fence t = None -> reFenceEnd t = None.
Proof. unfold reFenceEnd. by intros ->. Qed.

Lemma reFence_needs_fence (t : str) :
  stripPrefix fence t = None -> reFence t = None.
Proof. unfold reFence. by intros ->. Qed.

(** *** The fence patterns on a fenced text *)

#[local] Arguments N.eqb : simpl never.

Ltac case_eqb :=
  unfold BACKTICK, LF; cbn;
  repeat match goal with
  | |- context [(?a =? ?b)%N] =>
      destruct (N.eqb_spec a b); simplify_eq; cbn; try done
  end.

Lemma reFence_closing (content : str) :
  includes content fence = false ->
  removeMatches reFence 0 (content ++ fence) = content.
Proof.
  induction content as [|c r IH]; [done|].
  intros [H1 H2]%includes_cons. specialize (IH H2).
  destruct r as [|x [|y r]].
  - clear. case_eqb.
  - clear. case_eqb.
  - rewrite <- IH at 2. apply removeMatches_keep.
    revert H1. unfold startsWith, reFence. case_eqb.
Qed.

Lemma reFenceJson_closing (content : str) :
  includes content fenceJson = false ->
  removeMatches reFenceJson 0 (content ++ fence) = content ++ fence.
Proof.
  induction content as [|c r IH]; [done|].
  intros [H1 H2]%includes_cons. specialize (IH H2).
  change ((c :: r) ++ fence) with (c :: r ++ fence).
  rewrite <- IH at 2. apply removeMatches_keep.
  revert H1. clear. unfold startsWith, reFenceJson.
  destruct r as [|x1 [|x2 [|x3 [|x4 [|x5 [|x6 r]]]]]]; case_eqb.
Qed.

Lemma reFenceEnd_closing (content : str) :
  removeMatches reFenceEnd 0 (content ++ fence) = content.
Proof.
  induction content as [|c r IH]; [done|].
  change ((c :: r) ++ fence) with (c :: r ++ fence).
  rewrite <- IH at 2. apply removeMatches_keep.
  clear. unfold reFenceEnd.
  destruct r as [|x [|y [|z [|u r]]]]; case_eqb.
Qed.

(** *** The duration pattern *)

Ltac case_cmp :=
  repeat match goal with
  | |- context [(?a <=? ?b)%N] => destruct (N.leb_spec a b); try lia
  | |- context [(?a =? ?b)%N] => destruct (N.eqb_spec a b); try lia
  | H : context [(?a <=? ?b)%N] |- _ => destruct (N.leb_spec a b); try lia
  | H : context [(?a =? ?b)%N] |- _ => destruct (N.eqb_spec a b); try lia
  end.

Lemma digit_not_space (c : N) : isDigit c = true -> isWhiteSpace c = false.
Proof. unfold isDigit, isWhiteSpace. intros H. case_cmp; done. Qed.

Lemma space_not_digit (c : N) : isWhiteSpace c = true -> isDigit c = false.
Proof.
  intros H. destruct (isDigit c) eqn:E; [|done].
  by rewrite (digit_not_space c E) in H.
Qed.

Lemma takeWhile_dropWhile (f : N -> bool) (s : str) :
  s = takeWhile f s ++ dropWhile f s.
Proof.
  induction s as [|c s IH]; [done|]. simpl.
  destruct (f c); [|done]. simpl. by rewrite <- IH.
Qed.

Lemma takeWhile_all (f : N -> bool) (s : str) : forallb f (takeWhile f s) = true.
Proof.
  induction s as [|c s IH]; [done|]. simpl.
  destruct (f c) eqn:E; [|done]. simpl. by rewrite E.
Qed.

Lemma takeWhile_app (f : N -> bool) (s t : str) :
  forallb f s = true -> head (f <$> t) <> Some true ->
  takeWhile f (s ++ t) = s /\ dropWhile f (s ++ t) = t.
Proof.
  intros Hs Ht. induction s as [|c s IH]; simpl.
  - destruct t as [|x t]; [done|]. simpl in *.
    destruct (f x); [done|done].
  - simpl in Hs. apply andb_true_iff in Hs as [-> Hs].
    destruct (IH Hs) as [-> ->]. done.
Qed.

Lemma stripPrefixCI_split (p s rest : str) :
  stripPrefixCI p s = Some rest ->
  exists h, s = h ++ rest /\ stripPrefixCI p h = Some [].
Proof.
  revert s; induction p as [|a p IH]; intros s H; simpl in H.
  - exists []. by inversion H.
  - destruct s as [|c s]; [done|].
    destruct (eqCI a c) eqn:E; [|done].
    destruct (IH _ H) as (h & -> & Hh).
    exists (c :: h). simpl. by rewrite E.
Qed.

Lemma stripPrefixCI_app (p h rest : str) :
  stripPrefixCI p h = Some [] -> stripPrefixCI p (h ++ rest) = Some rest.
Proof.
  revert h; induction p as [|a p IH]; intros h H; simpl in H.
  - by inversion H.
  - destruct h as [|c h]; [done|]. simpl.
    destruct (eqCI a c); [auto|done].
Qed.

(** The word [hour] starts with a letter: not a digit, not white space. *)
Lemma hour_head (h rest : str) :
  stripPrefixCI (js "hour") h = Some [] ->
  head (isDigit <$> h ++ rest) <> Some true
  /\ head (isWhiteSpace <$> h ++ rest) <> Some true.
Proof.
  destruct h as [|c h]; [done|]. simpl.
  unfold eqCI, isDigit, isWhiteSpace. intros H. split; case_cmp; done.
Qed.

Lemma reHoursAt_Some (s ds : str) :
  reHoursAt s = Some ds ->
  exists ws h rest : str,
    s = ds ++ ws ++ h ++ rest
    /\ ds <> [] /\ forallb isDigit ds = true
    /\ forallb isWhiteSpace ws = true
    /\ stripPrefixCI (js "hour") h = Some [].
Proof.
  unfold reHoursAt. intros H.
  destruct (takeWhile isDigit s) as [|d ds'] eqn:Ed; [done|].
  destruct (stripPrefixCI _ _) as [rest|] eqn:Eh; [|done].
  inversion H; subst ds; clear H.
  apply stripPrefixCI_split in Eh as (h & Eh & Hh).
  exists (takeWhile isWhiteSpace (dropWhile isDigit s)), h, rest.
  split; [|split; [done|split; [|split; [apply takeWhile_all|done]]]].
  - rewrite <- Eh, <- takeWhile_dropWhile, <- Ed. apply takeWhile_dropWhile.
  - rewrite <- Ed. apply takeWhile_all.
Qed.

Lemma reHoursAt_found (ds ws h rest : str) :
  ds <> [] -> forallb isDigit ds = true -> forallb isWhiteSpace ws = true ->
  stripPrefixCI (js "hour") h = Some [] ->
  reHoursAt (ds ++ ws ++ h ++ rest) = Some ds.
Proof.
  intros Hne Hds Hws Hh. unfold reHoursAt.
  destruct (hour_head h rest Hh) as [Hd Hw].
  assert (head (isDigit <$> ws ++ h ++ rest) <> Some true) as Hd'.
  { destruct ws as [|c ws]; [done|]. simpl in *.
    apply andb_true_iff in Hws as [Hc _]. by rewrite (space_not_digit c Hc). }
  destruct (takeWhile_app isDigit ds _ Hds Hd') as [-> ->].
  destruct (takeWhile_app isWhiteSpace ws _ Hws Hw) as [_ ->].
  rewrite stripPrefixCI_app by done. by destruct ds.
Qed.

(** The pattern never matches at a code unit that is not a digit. *)
Lemma reHoursAt_not_digit (c : N) (s : str) :
  isDigit c = false -> reHoursAt (c :: s) = None.
Proof. unfold reHoursAt. simpl. by intros ->. Qed.

(** What the pattern captures is mentioned by the text. *)
Lemma matchHours_Some (s ds : str) :
  matchHours s = Some ds -> mentionsHours s ds.
Proof.
  induction s as [|c s IH]; [done|]. simpl.
  destruct (reHoursAt (c :: s)) as [ds'|] eqn:E.
  - intros [= ->]. apply reHoursAt_Some in E as (ws & h & rest & E & ?).
    exists [], ws, h, rest. by rewrite E.
  - intros (pre & ws & h & rest & -> & ?)%IH.
    by exists (c :: pre), ws, h, rest.
Qed.

(** The pattern fails only on a text that mentions no hours. *)
Lemma matchHours_None (s : str) :
  matchHours s = None <-> forall ds, ~ mentionsHours s ds.
Proof.
  split.
  - induction s as [|c s IH]; intros Hm ds (pre & ws & h & rest & E & Hne & Hds & Hws & Hh).
    + destruct pre, ds; done.
    + simpl in Hm. destruct (reHoursAt (c :: s)) eqn:Er; [done|].
      destruct pre as [|x pre].
      * simpl in E. rewrite E, reHoursAt_found in Er; done.
      * inversion E; subst. apply (IH Hm ds). by exists pre, ws, h, rest.
  - intros H. destruct (matchHours s) as [ds|] eqn:E; [|done].
    by apply matchHours_Some, H in E.
Qed.

(** With no digit before them, the first hours mentioned are captured. *)
Lemma matchHours_first (pre ds ws h rest : str) :
  forallb (fun c => negb (isDigit c)) pre = true ->
  ds <> [] -> forallb isDigit ds = true -> forallb isWhiteSpace ws = true ->
  stripPrefixCI (js "hour") h = Some [] ->
  matchHours (pre ++ ds ++ ws ++ h ++ rest) = Some ds.
Proof.
  intros Hpre Hne Hds Hws Hh. induction pre as [|c pre IH].
  - simpl. destruct ds as [|d ds]; [done|].
    change ((d :: ds) ++ ws ++ h ++ rest) with (d :: ds ++ ws ++ h ++ rest).
    simpl matchHours.
    change (d :: ds ++ ws ++ h ++ rest) with ((d :: ds) ++ ws ++ h ++ rest).
    by rewrite reHoursAt_found.
  - simpl in Hpre. apply andb_true_iff in Hpre as [Hc Hpre].
    change ((c :: pre) ++ ds ++ ws ++ h ++ rest)
      with (c :: pre ++ ds ++ ws ++ h ++ rest).
    simpl matchHours. rewrite reHoursAt_not_digit by (by destruct (isDigit c)).
    auto.
Qed.

(** What the pattern captures is the first mention of hours in the text,
    and the first mention is what it captures. *)
Lemma matchHours_firstHours (s ds : str) :
  matchHours s = Some ds <-> firstHours s ds.
Proof.
  split.
  - revert ds. induction s as [|c s IH]; intros ds; [done|]. simpl.
    destruct (reHoursAt (c :: s)) as [ds'|] eqn:E.
    + intros [= ->]. apply reHoursAt_Some in E as (ws & h & rest & E & ?).
      exists []. split; [by exists ws, h, rest|]. intros; simpl; lia.
    + intros (pre & (ws & h & rest & -> & Hm) & Hmin)%IH.
      exists (c :: pre). split; [by exists ws, h, rest|].
      intros pre' ds' (ws' & h' & rest' & E' & Hne & Hds & Hws & Hh).
      destruct pre' as [|x pre'].
      * simpl in E'. rewrite E', reHoursAt_found in E; done.
      * simpl in E'. injection E' as <- E'. simpl.
        apply le_n_S, (Hmin pre' ds'). by exists ws', h', rest'.
  - revert ds. induction s as [|c s IH];
      intros ds (pre & (ws & h & rest & E & Hne & Hds & Hws & Hh) & Hmin).
    + destruct pre, ds; done.
    + simpl. destruct pre as [|x pre].
      * simpl in E. by rewrite E, reHoursAt_found.
      * simpl in E. injection E as <- E.
        destruct (reHoursAt (c :: s)) as [ds'|] eqn:Er.
        { apply reHoursAt_Some in Er as (ws' & h' & rest' & E' & ?).
          assert (length (c :: pre) <= length (@nil N))%nat as Hl.
          { apply (Hmin [] ds'). by exists ws', h', rest'. }
          simpl in Hl. lia. }
        apply IH. exists pre. split; [by exists ws, h, rest|].
        intros pre' ds' (ws' & h' & rest' & -> & ?).
        assert (length (c :: pre) <= length (c :: pre'))%nat as Hl.
        { apply (Hmin (c :: pre') ds'). by exists ws', h', rest'. }
        simpl in Hl. lia.
Qed.

(** The first mention of hours in a text is unique. *)
Lemma firstHours_unique (s ds ds' : str) :
  firstHours s ds -> firstHours s ds' -> ds = ds'.
Proof.
  intros H1%matchHours_firstHours H2%matchHours_firstHours. congruence.
Qed.

(** A text has a first mention of hours as soon as it mentions hours. *)
Lemma firstHours_exists (s ds : str) :
  mentionsHours s ds -> exists ds', firstHours s ds'.
Proof.
  intros H. destruct (matchHours s) as [ds'|] eqn:E.
  - exists ds'. by apply matchHours_firstHours.
  - exfalso. by apply (proj1 (matchHours_None s) E ds).
Qed.

End JSStrFacts.

(** ** Response extraction and provider selection *)

Module ApiFacts.
Import JSStr JSON Exn Api JSStrFacts Samples.

#[local] Arguments N.eqb : simpl never.

Lemma includes_single (d : N) (s : str) :
  includes s [d] = false -> Forall (fun c => c <> d) s.
Proof.
  induction s as [|c s IH]; [constructor|].
  intros [H1 H2]%includes_cons. constructor; [|auto].
  intros ->. unfold startsWith in H1. simpl in H1. by rewrite N.eqb_refl in H1.
Qed.

Lemma upToLast_absent (d : N) (s : str) :
  Forall (fun c => c <> d) s -> upToLast d s = None.
Proof.
  induction 1 as [|c s Hc _ IH]; [done|].
  simpl. rewrite IH. by destruct (N.eqb_spec c d).
Qed.

Lemma upToLast_app (d : N) (mid post : str) :
  upToLast d post = None ->
  upToLast d (mid ++ [d] ++ post) = Some (mid ++ [d]).
Proof.
  intros Hpost. induction mid as [|c mid IH]; simpl.
  - by rewrite Hpost, N.eqb_refl.
  - simpl in IH. by rewrite IH.
Qed.

(** The brace pattern finds the text from the first opening brace to the
    last closing brace. *)
Lemma matchBraces_span (pre mid post : str) :
  includes pre [LBRACE] = false -> includes post [RBRACE] = false ->
  matchBraces (pre ++ [LBRACE] ++ mid ++ [RBRACE] ++ post)
  = Some ([LBRACE] ++ mid ++ [RBRACE]).
Proof.
  intros Hpre%includes_single Hpost%includes_single.
  induction Hpre as [|c pre Hc _ IH]; simpl.
  - change (mid ++ RBRACE :: post) with (mid ++ [RBRACE] ++ post).
    by rewrite upToLast_app by (by apply upToLast_absent).
  - destruct (N.eqb_spec c LBRACE); [done|]. apply IH.
Qed.

Lemma matchBraces_no_open (s : str) :
  includes s [LBRACE] = false -> matchBraces s = None.
Proof.
  intros H%includes_single.
  induction H as [|c s Hc _ IH]; [done|].
  simpl. by destruct (N.eqb_spec c LBRACE).
Qed.

Lemma matchBraces_no_close (s : str) :
  includes s [RBRACE] = false -> matchBraces s = None.
Proof.
  intros H%includes_single.
  induction H as [|c s Hc Hs IH]; [done|].
  simpl. rewrite IH, (upToLast_absent _ _ Hs). by destruct (c =? LBRACE)%N.
Qed.

Lemma optLF_keep (content : str) :
  startsWith content [LF] = false -> optLF (content ++ fence) = content ++ fence.
Proof. unfold startsWith. destruct content as [|c content]; [done|]. case_eqb. Qed.

Lemma not_json_word (content : str) :
  startsWith content (js "json") = false ->
  startsWith (fence ++ content ++ fence) fenceJson = false.
Proof.
  unfold startsWith.
  destruct content as [|x1 [|x2 [|x3 [|x4 content]]]]; case_eqb.
Qed.

(** What [stripFences] leaves of a block fenced with or without the tag
    [json], the opening fence ending with or without a line feed. *)
Lemma stripFences_fenced (tag nl content : str) :
  tag = [] \/ tag = js "json" ->
  nl = [LF] \/ (nl = [] /\ startsWith content [LF] = false) ->
  startsWith content (js "json") = false ->
  includes content (fence ++ tag) = false ->
  stripFences (fence ++ tag ++ nl ++ content ++ fence) = content.
Proof.
  intros [-> | ->] [-> | [-> Hnl]] Hj Hc; unfold stripFences.
  - change (fence ++ [] ++ [LF] ++ content ++ fence)
      with (BACKTICK :: [BACKTICK; BACKTICK; LF] ++ content ++ fence).
    replace (startsWith _ fenceJson) with false by done.
    replace (startsWith _ fence) with true by done.
    rewrite removeMatches_match by done.
    rewrite reFence_closing by done.
    apply removeMatches_none; [apply reFenceEnd_needs_fence | done].
  - change (fence ++ [] ++ [] ++ content ++ fence) with (fence ++ content ++ fence).
    rewrite not_json_word by done.
    change (fence ++ content ++ fence)
      with (BACKTICK :: [BACKTICK; BACKTICK] ++ content ++ fence).
    replace (startsWith _ fence) with true by done.
    rewrite removeMatches_match
      by (change (BACKTICK :: [BACKTICK; BACKTICK] ++ content ++ fence)
            with (fence ++ content ++ fence);
          unfold reFence; rewrite stripPrefix_app; simpl fmap;
          by rewrite optLF_keep).
    rewrite reFence_closing by done.
    apply removeMatches_none; [apply reFenceEnd_needs_fence | done].
  - change (fence ++ js "json" ++ [LF] ++ content ++ fence)
      with (BACKTICK :: ([BACKTICK; BACKTICK] ++ js "json" ++ [LF]) ++ content ++ fence).
    replace (startsWith _ fenceJson) with true by done.
    rewrite removeMatches_match by done.
    rewrite reFenceJson_closing by done.
    apply reFenceEnd_closing.
  - change (fence ++ js "json" ++ [] ++ content ++ fence)
      with (BACKTICK :: ([BACKTICK; BACKTICK] ++ js "json") ++ content ++ fence).
    replace (startsWith _ fenceJson) with true by done.
    rewrite removeMatches_match
      by (change (BACKTICK :: ([BACKTICK; BACKTICK] ++ js "json") ++ content ++ fence)
            with (fenceJson ++ content ++ fence);
          unfold reFenceJson; rewrite stripPrefix_app; simpl fmap;
          by rewrite optLF_keep).
    rewrite reFenceJson_closing by done.
    apply reFenceEnd_closing.
Qed.

(** A text that starts with the letter j is not JSON. *)
Lemma parse_json_word (content : str) :
  startsWith content (js "json") = true -> parse content = None.
Proof.
  unfold startsWith.
  destruct (stripPrefix (js "json") content) as [rest|] eqn:E; [|done].
  intros _. apply stripPrefix_Some in E as ->.
  change (js "json" ++ rest) with (106%N :: [115; 111; 110]%N ++ rest).
  unfold parse. by cbn.
Qed.

Lemma isWhiteSpace_backtick : isWhiteSpace BACKTICK = false.
Proof. done. Qed.

Lemma trim_fenced (ws1 ws2 tag nl content : str) :
  forallb isWhiteSpace ws1 = true -> forallb isWhiteSpace ws2 = true ->
  trim (ws1 ++ fence ++ tag ++ nl ++ content ++ fence ++ ws2)
  = fence ++ tag ++ nl ++ content ++ fence.
Proof.
  intros H1 H2.
  set (core := fence ++ tag ++ nl ++ content ++ fence).
  replace (fence ++ tag ++ nl ++ content ++ fence ++ ws2) with (core ++ ws2)
    by (unfold core; by rewrite <- !app_assoc).
  assert (core = BACKTICK :: ([BACKTICK; BACKTICK] ++ tag ++ nl ++ content
                               ++ [BACKTICK; BACKTICK]) ++ [BACKTICK]) as ->.
  { unfold core, fence. simpl. do 2 f_equal. by rewrite <- !app_assoc. }
  by apply trim_around.
Qed.

(** C2, as the code has it.  When the text left after trimming and fence
    removal does not parse, [extractJSON] parses the span from the first
    opening brace to the last closing brace of that text; with brace-free
    prose around one object this is the object.  A text without an opening
    or without a closing brace, such as prose around a bare array, makes it
    throw the parse-failure error of the provider. *)
Theorem extractJSON_fallback (provider raw : str) :
  parse (stripFences (trim raw)) = None ->
  (forall pre mid post : str,
      stripFences (trim raw) = pre ++ [LBRACE] ++ mid ++ [RBRACE] ++ post ->
      includes pre [LBRACE] = false -> includes post [RBRACE] = false ->
      extractJSON provider raw = JSON_parse ([LBRACE] ++ mid ++ [RBRACE]))
  /\ (includes (stripFences (trim raw)) [LBRACE] = false
      \/ includes (stripFences (trim raw)) [RBRACE] = false ->
      extractJSON provider raw
      = Throw (Error (js "Failed to parse JSON from " ++ provider ++ js " response"))).
Proof.
  intros Hparse. unfold extractJSON, try_catch, JSON_parse. cbv zeta.
  rewrite Hparse. split.
  - intros pre mid post E Hpre Hpost. by rewrite E, matchBraces_span.
  - intros [H | H].
    + by rewrite matchBraces_no_open.
    + by rewrite matchBraces_no_close.
Qed.

Lemma extractJSON_fallback_witness :
  extractJSON (js "Ollama") proseWithObject = Ok (JObj [(js "a", JNum 1 0)]).
Proof.
  destruct (extractJSON_fallback (js "Ollama") proseWithObject) as [H _];
    [reflexivity|].
  rewrite (H (js "Sure, here it is: ") (dq ++ js "a" ++ dq ++ js ":1")
             (js " Hope this helps.")); reflexivity.
Defined.

(** The array the claim C2 expects back from prose around it is not
    recovered: the brace pattern has nothing to match and the call throws. *)
Lemma extractJSON_array_in_prose :
  JSON_parse (js "[1,2]") = Ok (JArr [JNum 1 0; JNum 2 0])
  /\ extractJSON (js "Ollama") proseWithArray
     = Throw (Error (js "Failed to parse JSON from Ollama response")).
Proof. split; reflexivity. Qed.

(** Nor is the first of two objects: the span runs to the last brace. *)
Lemma extractJSON_two_objects :
  extractJSON (js "Ollama") (sampleObject ++ js " and " ++ sampleObject)
  = Throw (SyntaxError (sampleObject ++ js " and " ++ sampleObject)).
Proof. reflexivity. Qed.

(** C3, as the code has it.  For a block fenced with no tag or with the tag
    [json] (the opening fence ending with or without a line feed), white
    space around it, and a content that parses and in which the opening
    fence, with its tag, does not occur again, [extractJSON] returns the
    value of the content. *)
Theorem extractJSON_fenced (provider tag nl ws1 ws2 content : str) (v : json) :
  tag = [] \/ tag = js "json" ->
  nl = [LF] \/ (nl = [] /\ startsWith content [LF] = false) ->
  forallb isWhiteSpace ws1 = true -> forallb isWhiteSpace ws2 = true ->
  includes content (fence ++ tag) = false ->
  parse content = Some v ->
  extractJSON provider (ws1 ++ fence ++ tag ++ nl ++ content ++ fence ++ ws2) = Ok v.
Proof.
  intros Htag Hnl H1 H2 Hc Hv. unfold extractJSON.
  assert (startsWith content (js "json") = false) as Hj.
  { destruct (startsWith content (js "json")) eqn:E; [|done].
    by rewrite (parse_json_word content E) in Hv. }
  rewrite trim_fenced, stripFences_fenced by done.
  unfold JSON_parse. by rewrite Hv.
Qed.

Lemma extractJSON_fenced_witness :
  extractJSON (js "Gemini")
    (js " " ++ fence ++ js "json" ++ [LF] ++ (sampleObject ++ [LF]) ++ fence ++ [LF])
  = Ok (JObj [(js "a", JNum 1 0)])
  /\ extractJSON (js "Ollama") (fence ++ sampleObject ++ fence)
     = Ok (JObj [(js "a", JNum 1 0)]).
Proof.
  split.
  - apply extractJSON_fenced; [by right | by left | reflexivity..].
  - apply (extractJSON_fenced (js "Ollama") [] [] [] [] sampleObject);
      [by left | by right | reflexivity..].
Defined.

(** The scenario of the specification: a block tagged [json] around an
    object. *)
Example extractJSON_scenario :
  extractJSON (js "Ollama")
    (fence ++ js "json" ++ [LF] ++ sampleObject ++ [LF] ++ fence)
  = Ok (JObj [(js "a", JNum 1 0)]).
Proof. reflexivity. Qed.

(** Two fenced texts on which claim C3 fails.  A block without tag whose
    content holds a fence inside a string loses that fence with the two
    around it: the value returned differs from the value of the content.
    A block tagged [js] keeps its tag in front of the content, and the array
    in it is lost. *)
Lemma extractJSON_fenced_differs :
  (JSON_parse fenceInString = Ok (JObj [(js "a", JStr fence)])
   /\ extractJSON (js "Gemini") (fence ++ [LF] ++ fenceInString ++ fence)
      = Ok (JObj [(js "a", JStr [])]))
  /\ (JSON_parse (js "[1]" ++ [LF]) = Ok (JArr [JNum 1 0])
      /\ extractJSON (js "Gemini") (fence ++ js "js" ++ [LF] ++ (js "[1]" ++ [LF]) ++ fence)
         = Throw (Error (js "Failed to parse JSON from Gemini response"))).
Proof. repeat split; reflexivity. Qed.

(** *** Provider selection *)

Section Selection.
Context {net : Backends} (env : ProcessEnv).

Lemma isSet_unset (v : option str) : unset v -> isSet v = None.
Proof. by intros [-> | ->]. Qed.

Lemma isSet_set (key : str) : key <> [] -> isSet (Some key) = Some key.
Proof. by destruct key. Qed.

(** C4.  The factory follows the order Ollama, Groq, Gemini: a reachable
    Ollama is returned whatever keys are set; else Groq when its key is
    set; else Gemini when its key is set. *)
Theorem getAIProvider_priority :
  (ollamaTags (ollamaBaseUrl env) = true ->
     getAIProvider env = Ok (IsOllama {| ollama_baseUrl := ollamaBaseUrl env |}))
  /\ (ollamaTags (ollamaBaseUrl env) = false ->
      forall key, GROQ_API_KEY env = Some key -> key <> [] ->
      getAIProvider env = Ok (IsGroq {| groq_apiKey := key |}))
  /\ (ollamaTags (ollamaBaseUrl env) = false -> unset (GROQ_API_KEY env) ->
      forall key, GEMINI_API_KEY env = Some key -> key <> [] ->
      getAIProvider env
      = Ok (IsGemini {| gemini_apiKey := key; gemini_modelName := gemini_defaultModel |})).
Proof.
  unfold getAIProvider, Ollama_isAvailable; simpl.
  split; [|split].
  - by intros ->.
  - intros -> key -> Hkey. by rewrite isSet_set.
  - intros -> Hgroq key -> Hkey. by rewrite isSet_unset, isSet_set.
Qed.

(** C5.  The lenient factory always returns a provider.  With Ollama
    unreachable and no key set it returns the mock provider, whose
    [generateText] succeeds with the placeholder on every prompt, while the
    strict factory throws the no-provider error. *)
Theorem getAIProviderWithFallback_never_fails :
  (exists p, getAIProviderWithFallback env = Ok p)
  /\ (ollamaTags (ollamaBaseUrl env) = false ->
      unset (GROQ_API_KEY env) -> unset (GEMINI_API_KEY env) ->
      getAIProviderWithFallback env = Ok (IsMock mkMockProvider)
      /\ (forall prompt options,
            generateText (IsMock mkMockProvider) prompt options = Ok mockText)
      /\ getAIProvider env = Throw (Error noProviderMessage)).
Proof.
  unfold getAIProviderWithFallback, try_catch. split.
  - destruct (getAIProvider env); eauto.
  - unfold getAIProvider, Ollama_isAvailable; simpl.
    intros -> Hgroq Hgemini. by rewrite !isSet_unset.
Qed.

End Selection.

Lemma getAIProvider_priority_witness :
  getAIProvider (net := netLocal) envAllKeys
  = Ok (IsOllama {| ollama_baseUrl := js "http://localhost:11434" |})
  /\ getAIProvider (net := netDown) envAllKeys
     = Ok (IsGroq {| groq_apiKey := js "gsk_key" |})
  /\ getAIProvider (net := netDown) envGeminiOnly
     = Ok (IsGemini sampleGemini).
Proof.
  split; [|split].
  - by apply (getAIProvider_priority (net := netLocal) envAllKeys).
  - by apply (getAIProvider_priority (net := netDown) envAllKeys).
  - apply (getAIProvider_priority (net := netDown) envGeminiOnly);
      [reflexivity | by right | reflexivity | done].
Defined.

Lemma getAIProviderWithFallback_never_fails_witness :
  getAIProviderWithFallback (net := netDown) envNoKeys = Ok (IsMock mkMockProvider)
  /\ @generateText _ (@SomeProvider_AIProvider netDown)
       (IsMock mkMockProvider) (js "Any prompt") noOptions
     = Ok mockText
  /\ getAIProvider (net := netDown) envNoKeys = Throw (Error noProviderMessage).
Proof.
  destruct (getAIProviderWithFallback_never_fails (net := netDown) envNoKeys)
    as [_ H].
  destruct H as (H1 & H2 & H3); [reflexivity | by left | by left |].
  by rewrite H1, H2, H3.
Defined.

(** *** [generateJSON] and [generateText] *)

Section Delegation.
Context {net : Backends}.

(** The delegation of claim C6 holds for the Ollama and the Groq class. *)
Lemma generateJSON_delegates_Ollama (p : OllamaProvider) (prompt : str)
    (options : GenerationOptions) :
  generateJSON p prompt options
  = (generateText p (prompt ++ jsonInstruction) options ≫= extractJSON (js "Ollama")).
Proof. reflexivity. Qed.

Lemma generateJSON_delegates_Groq (p : GroqProvider) (prompt : str)
    (options : GenerationOptions) :
  generateJSON p prompt options
  = (generateText p (prompt ++ jsonInstruction) options ≫= extractJSON (js "Groq")).
Proof. reflexivity. Qed.

(** The Gemini class passes the prompt on as it is. *)
Lemma generateJSON_Gemini_prompt (p : GeminiProvider) (prompt : str)
    (options : GenerationOptions) :
  generateJSON p prompt options
  = (generateText p prompt options ≫= extractJSON (js "Gemini")).
Proof. reflexivity. Qed.

(** A failure to extract is raised, as the parse-failure error of the
    provider or as the syntax error of the span that did not parse. *)
Lemma extractJSON_failure (provider text : str) (e : exn) :
  extractJSON provider text = Throw e ->
  e = Error (js "Failed to parse JSON from " ++ provider ++ js " response")
  \/ exists span, matchBraces (stripFences (trim text)) = Some span
                  /\ parse span = None /\ e = SyntaxError span.
Proof.
  unfold extractJSON, try_catch, JSON_parse. cbv zeta.
  destruct (parse (stripFences (trim text))); [done|].
  destruct (matchBraces (stripFences (trim text))) as [span|]; [|intros [= <-]; by left].
  destruct (parse span) eqn:E; [done|]. intros [= <-]. right. eauto.
Qed.

End Delegation.

(** C6 at the Gemini class.  With a model that echoes its prompt,
    [generateJSON] on the prompt [[1]] returns the array: the model was
    given the bare prompt.  Given the prompt with the JSON instruction
    appended, as the claim has it, the echoed reply does not parse. *)
Theorem generateJSON_Gemini_omits_instruction :
  Gemini_generateJSON (net := netEcho) sampleGemini (js "[1]") noOptions
  = Ok (JArr [JNum 1 0])
  /\ (Gemini_generateText (net := netEcho) sampleGemini (js "[1]" ++ jsonInstruction)
        noOptions
      ≫= extractJSON (js "Gemini"))
     = Throw (Error (js "Failed to parse JSON from Gemini response")).
Proof. split; reflexivity. Qed.

End ApiFacts.

(** ** Schedule generation, event derivation and calendar creation *)

Module ServerFacts.
Import JSStr JSON Exn JSValue JSDate Api Server JSStrFacts Samples.

Lemma mapWithIndex_spec {A B} (f : A -> Z -> result B) (l : list A) :
  forall (k : Z) (out : list B),
    mapWithIndex f k l = Ok out ->
    length out = length l
    /\ forall (i : nat) (b : B), out !! i = Some b ->
         exists a, l !! i = Some a /\ f a (k + Z.of_nat i) = Ok b.
Proof.
  induction l as [|a l IH]; intros k out; simpl.
  - intros [= <-]. split; [done|]. intros i b. by rewrite lookup_nil.
  - destruct (f a k) as [b0|e] eqn:Ea; simpl; [|done].
    destruct (mapWithIndex f (k + 1) l) as [bs|e] eqn:El; simpl; [|done].
    intros [= <-]. destruct (IH _ _ El) as [Hlen Hbs].
    split; [simpl; by rewrite Hlen|].
    intros [|i] b; simpl.
    + intros [= <-]. exists a. by rewrite Z.add_0_r.
    + intros (a' & Ha' & Hf)%Hbs. exists a'. split; [done|].
      rewrite <- Hf. f_equal. lia.
Qed.

Lemma mapWithIndex_total {A B} (f : A -> Z -> result B) (l : list A) (k : Z) :
  (forall (i : nat) (a : A), l !! i = Some a -> exists b, f a (k + Z.of_nat i) = Ok b) ->
  exists out, mapWithIndex f k l = Ok out.
Proof.
  revert k; induction l as [|a l IH]; intros k H; simpl; [by eexists|].
  destruct (H 0%nat a eq_refl) as [b Hb]. rewrite Z.add_0_r in Hb. rewrite Hb. simpl.
  destruct (IH (k + 1)) as [bs ->]; [|by eexists].
  intros i a' Ha'. destruct (H (S i) a' Ha') as [b' Hb']. exists b'.
  by replace (k + 1 + Z.of_nat i) with (k + Z.of_nat (S i)) by lia.
Qed.

(** On a host without clock change, a day more is [msPerDay] more and an
    hour more [msPerHour] more. *)
Lemma addDays_fixed (host : Host) (tz t k : Z) :
  fixedOffset host tz -> addDays host (Some t) k = TimeClip (t + k * msPerDay).
Proof.
  intros H. unfold addDays, UTC, LocalTime. simpl. rewrite !H. f_equal. lia.
Qed.

Lemma addHours_fixed (host : Host) (tz t n : Z) :
  fixedOffset host tz -> addHours host (Some t) n = TimeClip (t + n * msPerHour).
Proof.
  intros H. unfold addHours, UTC, LocalTime. simpl. rewrite !H. f_equal. lia.
Qed.

Lemma nineOClock_fixed (host : Host) (tz day : Z) :
  fixedOffset host tz ->
  nineOClock host day = TimeClip (day * msPerDay + 9 * msPerHour - tz).
Proof. intros H. unfold nineOClock, UTC. by rewrite H. Qed.

Lemma isoDate_addDays (host : Host) (tz t k t' : Z) :
  fixedOffset host tz ->
  addDays host (Some t) k = Some t' -> isoDate t' = isoDate t + k.
Proof.
  intros H. rewrite (addDays_fixed host tz) by done.
  unfold TimeClip, isoDate, msPerDay.
  case_match; [|done]. intros [= <-]. by rewrite Z.div_add.
Qed.

Lemma TimeClip_in_range (t : Z) :
  Z.abs t <= maxTimeValue -> TimeClip t = Some t.
Proof. unfold TimeClip. intros H. by rewrite (proj2 (Z.leb_le _ _) H). Qed.

Lemma TimeClip_Some (t t' : Z) :
  TimeClip t = Some t' -> t' = t /\ Z.abs t <= maxTimeValue.
Proof.
  unfold TimeClip. destruct (Z.leb_spec (Z.abs t) maxTimeValue); [|done].
  by intros [= <-].
Qed.

(** *** Dates of the generated plan *)

Section Generation.
Context (host : Host) {net : Backends} (key : option str).
Context (schedulePrompt : json -> list ChatMessage -> result str).

(** A plan is returned only for a reply that parses to an array, and is
    that array with each element dated. *)
Lemma generate_inv (strategy : json) (chat : list ChatMessage) (plan : list PlanItem) :
  generateScheduleFromStrategyAndChat host key schedulePrompt strategy chat = Ok plan ->
  exists apiKey prompt text items,
    isSet key = Some apiKey
    /\ schedulePrompt strategy chat = Ok prompt
    /\ geminiGenerateContent apiKey gemini_defaultModel prompt = inr text
    /\ parse (stripFences (trim text)) = Some (JArr items)
    /\ mapWithIndex (datedItem host (planStart host)) 0 items = Ok plan.
Proof.
  unfold generateScheduleFromStrategyAndChat, try_catch, JSON_parse.
  destruct (isSet key) as [apiKey|]; [|done].
  destruct (schedulePrompt strategy chat) as [prompt|]; simpl; [|done].
  destruct (geminiGenerateContent apiKey gemini_defaultModel prompt) as [|text] eqn:Et;
    simpl; [done|].
  destruct (parse (stripFences (trim text))) as [v|] eqn:Ep; simpl; [|done].
  destruct v; simpl; try done.
  destruct (mapWithIndex _ _ _) as [out|] eqn:Em; simpl; [|done].
  intros [= <-]. by exists apiKey, prompt, text, items.
Qed.

Lemma datedItem_inv (startDate : Date) (item : json) (index : Z) (out : PlanItem) :
  datedItem host startDate item index = Ok out ->
  source out = item /\ status out = js "planned"
  /\ exists t t', startDate = Some t /\ addDays host (Some t) index = Some t'
                  /\ date out = isoDate t'.
Proof.
  unfold datedItem, toISOString.
  destruct (addDays host startDate index) as [t'|] eqn:E; simpl; [|done].
  intros [= <-]. simpl. split; [done|split; [done|]].
  destruct startDate as [t|]; [|done]. by exists t, t'.
Qed.

(** C7, as the code has it.  Every element of the returned plan has the
    status [planned], and its date is the date (in UTC) of the instant that
    the host's calendar reaches from the start date in as many days as the
    element's position in the model's array, whatever the length of that
    array and whatever day number the model gave the element.  On a host
    whose time zone keeps one offset from UTC, the start date is the clock
    reading plus one day and the date of an element is the date of the
    start date plus its position; where the model numbered the element by
    its position plus one, this is the start date plus its day number
    minus one. *)
Theorem generate_dates (strategy : json) (chat : list ChatMessage)
    (plan : list PlanItem) :
  generateScheduleFromStrategyAndChat host key schedulePrompt strategy chat = Ok plan ->
  forall (i : nat) (item : PlanItem), plan !! i = Some item ->
    status item = js "planned"
    /\ exists startDate t,
         planStart host = Some startDate
         /\ addDays host (Some startDate) (Z.of_nat i) = Some t
         /\ date item = isoDate t
         /\ forall tz, fixedOffset host tz ->
              startDate = now host + msPerDay
              /\ date item = isoDate startDate + Z.of_nat i
              /\ forall day, integerOf (itemProp (js "day") item) = Some day ->
                   day = Z.of_nat i + 1 -> date item = isoDate startDate + (day - 1).
Proof.
  intros (apiKey & prompt & text & items & _ & _ & _ & _ & Hmap)%generate_inv i item Hi.
  destruct (mapWithIndex_spec _ _ _ _ Hmap) as [_ H].
  destruct (H i item Hi) as (a & _ & (_ & Hst & t & t' & Ht & Ht' & Hd)%datedItem_inv).
  split; [done|]. exists t, t'. rewrite Z.add_0_l in Ht'. repeat (split; [done|]).
  intros tz Hfix. apply (isoDate_addDays host tz) in Ht'; [|done]. split.
  - unfold planStart in Ht. destruct (TimeClip (now host)) as [n|] eqn:En; [|done].
    apply TimeClip_Some in En as [-> _].
    rewrite (addDays_fixed host tz) in Ht by done.
    apply TimeClip_Some in Ht as [-> _]. lia.
  - split; [by rewrite Hd, Ht'|]. intros day _ ->. rewrite Hd, Ht'. lia.
Qed.

(** The plan has one element for each element of the model's array. *)
Lemma generate_length (strategy : json) (chat : list ChatMessage)
    (plan : list PlanItem) :
  generateScheduleFromStrategyAndChat host key schedulePrompt strategy chat = Ok plan ->
  exists apiKey prompt text items,
    isSet key = Some apiKey
    /\ schedulePrompt strategy chat = Ok prompt
    /\ geminiGenerateContent apiKey gemini_defaultModel prompt = inr text
    /\ parse (stripFences (trim text)) = Some (JArr items)
    /\ source <$> plan = items.
Proof.
  intros (apiKey & prompt & text & items & H1 & H2 & H3 & H4 & Hmap)%generate_inv.
  exists apiKey, prompt, text, items. repeat (split; [done|]).
  destruct (mapWithIndex_spec _ _ _ _ Hmap) as [Hlen H].
  apply list_eq. intros i. rewrite list_lookup_fmap.
  destruct (plan !! i) as [item|] eqn:Ei; simpl.
  - destruct (H i item Ei) as (a & -> & (<- & _)%datedItem_inv). done.
  - symmetry. apply lookup_ge_None. apply lookup_ge_None in Ei. lia.
Qed.

(** On a host without clock change, a reply that parses to an array whose
    dates stay in the range of [Date] does yield a plan. *)
Lemma generate_returns (tz : Z) (strategy : json) (chat : list ChatMessage)
    (apiKey prompt text : str) (items : list json) :
  fixedOffset host tz ->
  isSet key = Some apiKey ->
  schedulePrompt strategy chat = Ok prompt ->
  geminiGenerateContent apiKey gemini_defaultModel prompt = inr text ->
  parse (stripFences (trim text)) = Some (JArr items) ->
  Z.abs (now host) + (Z.of_nat (length items) + 1) * msPerDay <= maxTimeValue ->
  exists plan, generateScheduleFromStrategyAndChat host key schedulePrompt strategy chat = Ok plan.
Proof.
  intros Hfix Hk Hp Ht Hj Hrange.
  unfold generateScheduleFromStrategyAndChat, try_catch, JSON_parse.
  rewrite Hk, Hp. simpl. rewrite Ht. simpl. rewrite Hj. simpl.
  destruct (mapWithIndex_total (datedItem host (planStart host)) items 0) as [plan ->];
    [|by eexists].
  intros i a Ha. apply lookup_lt_Some in Ha.
  unfold datedItem, planStart.
  rewrite TimeClip_in_range by (unfold msPerDay, maxTimeValue in *; lia).
  rewrite (addDays_fixed host tz) by done.
  rewrite TimeClip_in_range by (unfold msPerDay, maxTimeValue in *; lia).
  rewrite (addDays_fixed host tz) by done.
  rewrite TimeClip_in_range by (unfold msPerDay, maxTimeValue in *; lia). simpl.
  by eexists.
Qed.

End Generation.

Lemma generate_dates_witness :
  exists item, planTwoDays !! 1%nat = Some item
    /\ status item = js "planned"
    /\ date item = isoDate msPerDay + 1.
Proof.
  exists {| source := JObj [(js "day", JNum 2 0); (js "task", JStr (js "Write summary"))];
            date := 2; status := js "planned" |}.
  split; [reflexivity|].
  destruct (generate_dates hostEpoch (net := netReplying replyTwoDays)
              (Some (js "AIza_key")) somePrompt (JObj []) someChat planTwoDays
              eq_refl 1%nat _ eq_refl) as (Hst & t & t' & Ht & _ & _ & Hfix).
  destruct (Hfix 0 (fun _ _ => eq_refl)) as (_ & Hd & _).
  injection Ht as <-. by split.
Defined.

(** The date of claim C7 fails for an element the model numbered otherwise:
    the only element of the reply is numbered day 5 and is dated with the
    start date, not four days later. *)
Lemma generate_date_ignores_day :
  generateScheduleFromStrategyAndChat hostEpoch (net := netReplying replyDay5)
    (Some (js "AIza_key")) somePrompt (JObj []) someChat
  = Ok planDay5
  /\ planStart hostEpoch = Some msPerDay
  /\ (exists item, planDay5 !! 0%nat = Some item
        /\ integerOf (itemProp (js "day") item) = Some 5
        /\ date item = isoDate msPerDay
        /\ date item <> isoDate msPerDay + (5 - 1)).
Proof.
  split; [reflexivity|]. split; [reflexivity|].
  eexists. split; [reflexivity|]. by repeat split.
Qed.

(** *** Calendar events *)

Section Events.
Context (host : Host).

(** A duration that is absent or falsy (the empty text, zero, [false],
    [null]) gives two hours. *)
Lemma durationHours_absent (duration : option json) :
  truthy duration = false -> durationHours duration = Ok 2.
Proof. unfold durationHours. destruct duration; [by intros ->|done]. Qed.

(** The hours of a duration with the text [text]: the number written by
    the digits of the first mention of hours in it, or two when it mentions
    none. *)
Lemma durationHours_text (d : json) (text : str) (hours : Z) :
  truthy (Some d) = true -> toString d = Ok text ->
  durationHours (Some d) = Ok hours ->
  ((exists digits, firstHours text digits)
   /\ forall digits, firstHours text digits -> hours = parseDigits digits)
  \/ ((forall digits, ~ mentionsHours text digits) /\ hours = 2).
Proof.
  unfold durationHours. intros -> ->. simpl.
  destruct (matchHours text) as [ds|] eqn:E; intros [= <-].
  - left. apply matchHours_firstHours in E. split; [by exists ds|].
    intros digits Hd. by rewrite (firstHours_unique _ _ _ Hd E).
  - right. split; [|done]. by apply matchHours_None.
Qed.

(** With no digit before it, the first mention of hours gives the hours. *)
Lemma durationHours_first (pre ds ws h rest : str) :
  forallb (fun c => negb (isDigit c)) pre = true ->
  ds <> [] -> forallb isDigit ds = true -> forallb isWhiteSpace ws = true ->
  stripPrefixCI (js "hour") h = Some [] ->
  durationHours (Some (JStr (pre ++ ds ++ ws ++ h ++ rest))) = Ok (parseDigits ds).
Proof.
  intros Hpre Hne Hds Hws Hh. unfold durationHours. simpl.
  rewrite matchHours_first by done.
  destruct pre, ds; done.
Qed.

Lemma calendarEventOf_inv (item : PlanItem) (event : CalendarEvent) :
  calendarEventOf host item = Ok event ->
  exists hours,
    durationHours (itemProp (js "duration") item) = Ok hours
    /\ title event = itemProp (js "task") item
    /\ ev_date event = date item
    /\ nineOClock host (date item) = Some (start event)
    /\ addHours host (Some (start event)) hours = Some (end_ event).
Proof.
  unfold calendarEventOf, toISOString.
  destruct (durationHours _) as [hours|]; cbn [mbind result_bind]; [|done].
  destruct (nineOClock host (date item)) as [t|] eqn:Et; cbn [mbind result_bind]; [|done].
  destruct (addHours host (Some t) hours) as [t'|] eqn:Et'; cbn [mbind result_bind];
    [|done].
  intros [= <-]. by exists hours.
Qed.

(** On a host without clock change, an event starts at nine o'clock of its
    date and ends its hours later. *)
Lemma calendarEventOf_fixed (tz : Z) (item : PlanItem) (event : CalendarEvent) :
  fixedOffset host tz ->
  calendarEventOf host item = Ok event ->
  exists hours,
    durationHours (itemProp (js "duration") item) = Ok hours
    /\ title event = itemProp (js "task") item
    /\ ev_date event = date item
    /\ start event = date item * msPerDay + 9 * msPerHour - tz
    /\ end_ event = start event + hours * msPerHour.
Proof.
  intros Hfix (hours & Hh & Ht & Hd & Hs & He)%calendarEventOf_inv.
  rewrite (nineOClock_fixed host tz) in Hs by done.
  rewrite (addHours_fixed host tz) in He by done.
  apply TimeClip_Some in Hs as [Hs _]. apply TimeClip_Some in He as [He _].
  exists hours. by repeat split.
Qed.

(** C9, as the code has it.  The events are derived one for one from the
    plan items, in order.  Each event starts at nine o'clock, by the host's
    clock, on the date of its item and ends where the host's clock is its
    hours further; on a host whose time zone keeps one offset from UTC the
    end is the start plus the hours.  The hours are those of the item's
    duration: two when the duration is absent (or falsy); for a duration
    with a text, the number written by the digits of the first mention of
    hours in the text (digits, white space, the word hour in any case; the
    mention that starts leftmost), or two when the text has no such
    mention. *)
Theorem calendarEvents_derived (plan : list PlanItem) (events : list CalendarEvent) :
  calendarEventsOf host plan = Ok events ->
  length events = length plan
  /\ forall (i : nat) (event : CalendarEvent), events !! i = Some event ->
       exists item hours,
         plan !! i = Some item
         /\ title event = itemProp (js "task") item
         /\ ev_date event = date item
         /\ nineOClock host (date item) = Some (start event)
         /\ addHours host (Some (start event)) hours = Some (end_ event)
         /\ (forall tz, fixedOffset host tz ->
               start event = date item * msPerDay + 9 * msPerHour - tz
               /\ end_ event = start event + hours * msPerHour)
         /\ (truthy (itemProp (js "duration") item) = false -> hours = 2)
         /\ (forall d text,
               itemProp (js "duration") item = Some d ->
               truthy (Some d) = true -> toString d = Ok text ->
               ((exists digits, firstHours text digits)
                /\ forall digits, firstHours text digits -> hours = parseDigits digits)
               \/ ((forall digits, ~ mentionsHours text digits) /\ hours = 2)).
Proof.
  intros Hmap. destruct (mapWithIndex_spec _ _ _ _ Hmap) as [Hlen H].
  split; [done|]. intros i event Hi.
  destruct (H i event Hi) as (item & Hitem & Hev).
  pose proof Hev as (hours & Hh & Ht & Hd & Hs & He)%calendarEventOf_inv.
  exists item, hours. repeat (split; [done|]). split; [|split].
  - intros tz Hfix.
    apply (calendarEventOf_fixed tz) in Hev as (hours' & Hh' & _ & _ & Hs' & He'); [|done].
    rewrite Hh in Hh'. by injection Hh' as <-.
  - intros E. rewrite (durationHours_absent _ E) in Hh. by injection Hh.
  - intros d text E Htr Hts. rewrite E in Hh. by eapply durationHours_text.
Qed.

(** On a host without clock change, events are produced for a plan whose
    durations have a text and whose times stay in the range of [Date]. *)
Lemma calendarEventsOf_returns (tz : Z) (plan : list PlanItem) :
  fixedOffset host tz ->
  (forall item, item ∈ plan ->
     exists hours,
       durationHours (itemProp (js "duration") item) = Ok hours
       /\ Z.abs (date item * msPerDay + 9 * msPerHour - tz) <= maxTimeValue
       /\ Z.abs (date item * msPerDay + 9 * msPerHour - tz + hours * msPerHour)
          <= maxTimeValue) ->
  exists events, calendarEventsOf host plan = Ok events.
Proof.
  intros Hfix H. apply mapWithIndex_total. intros i item Hi.
  destruct (H item) as (hours & Hh & H1 & H2); [by eapply list_elem_of_lookup_2|].
  unfold calendarEventOf. rewrite Hh. simpl.
  rewrite (nineOClock_fixed host tz), TimeClip_in_range by done.
  rewrite (addHours_fixed host tz), TimeClip_in_range by done. simpl. by eexists.
Qed.

End Events.

Lemma calendarEvents_derived_witness :
  calendarEventsOf hostEpoch planTwoDays = Ok eventsTwoDays
  /\ length eventsTwoDays = length planTwoDays.
Proof.
  split; [reflexivity|].
  apply (calendarEvents_derived hostEpoch planTwoDays eventsTwoDays eq_refl).
Defined.

Import MoreSamples.

(** The end of claim C9 fails across a clock change.  In New York an event
    of 24 hours that starts at nine o'clock on 9 March 2024 ends at nine
    o'clock on 10 March, the day the clocks go forward: 23 hours after its
    start. *)
Lemma calendarEvent_across_clock_change :
  durationHours (itemProp (js "duration") wholeDayItem) = Ok 24
  /\ exists event,
       calendarEventOf hostNewYork wholeDayItem = Ok event
       /\ start event = 19791 * msPerDay + 14 * msPerHour
       /\ end_ event = 19792 * msPerDay + 13 * msPerHour
       /\ end_ event = start event + 23 * msPerHour
       /\ end_ event <> start event + 24 * msPerHour.
Proof.
  split; [reflexivity|]. eexists. split; [reflexivity|]. by repeat split.
Qed.

(** The hours of some durations: the digits of the leftmost mention of
    hours count, whatever stands before them; a text without mention, a
    number and an absent duration give two. *)
Lemma durationHours_examples :
  durationHours (Some (JStr (js "3 hours"))) = Ok 3
  /\ durationHours (Some (JStr (js "12 hours"))) = Ok 12
  /\ durationHours (Some (JStr (js "1.5 hours"))) = Ok 5
  /\ durationHours (Some (JStr (js "2 days or 30 HOURS"))) = Ok 30
  /\ durationHours (Some (JStr (js "1 hour, then 4 hours"))) = Ok 1
  /\ durationHours (Some (JStr (js "90 minutes"))) = Ok 2
  /\ durationHours (Some (JNum 3 0)) = Ok 2
  /\ durationHours None = Ok 2.
Proof. by repeat split. Qed.

(** The dates of a plan across the same clock change.  At 00:30 UTC on
    9 March 2024 in New York, the first two elements of the plan are both
    dated 10 March: the start date is 00:30 UTC on 10 March, and one local
    day later it is 23:30 UTC on the same day. *)
Lemma generate_dates_across_clock_change :
  exists item0 item1,
    generateScheduleFromStrategyAndChat hostNewYork (net := netReplying replyTwoDays)
      (Some (js "AIza_key")) somePrompt (JObj []) someChat
    = Ok [item0; item1]
    /\ date item0 = 19792 /\ date item1 = 19792.
Proof. eexists _, _. split; [reflexivity|]. by split. Qed.

(** *** The creation step *)

Section Creation.
Context (host : Host) (google : Google).

(** The loop makes one insert per event and returns the count and the
    links of those that answered with a link, whatever the others did. *)
Lemma createLoop_run (accessToken : str) (calendarEvents : list CalendarEvent) :
  forall (created : Z) (links : list str) (w : World),
    createLoop host google accessToken calendarEvents created links w
    = (Ok (created
           + Z.of_nat (length (successLinks
               (insertOutcomes host google (insertCalls w) accessToken calendarEvents))),
           links ++ successLinks
               (insertOutcomes host google (insertCalls w) accessToken calendarEvents)),
       world_with_calls w
         ((fun event => (accessToken, insertRequestOf host event)) <$> calendarEvents)).
Proof.
  induction calendarEvents as [|event rest IH]; intros created links w.
  - simpl. unfold world_with_calls, mret, M_ret. simpl.
    rewrite Z.add_0_r, !app_nil_r. by destruct w.
  - simpl. unfold mbind at 1, M_bind, tryM, insertEvent.
    unfold mbind at 1, M_bind.
    destruct (eventsInsert google (insertCalls w) accessToken (insertRequestOf host event))
      as [link|msg] eqn:E; simpl.
    + destruct (isSet link) as [l|] eqn:El; simpl; rewrite IH; simpl;
        unfold world_with_calls; simpl; rewrite <- !app_assoc; simpl.
      * do 2 f_equal. f_equal. lia.
      * done.
    + rewrite IH. unfold world_with_calls; simpl. by rewrite <- !app_assoc.
Qed.

Lemma createEvents_run (calendarEvents : list CalendarEvent) (accessToken : str)
    (w : World) :
  oauth2Client google = true -> useCredentials google accessToken = None ->
  createEventsInGoogleCalendar host google calendarEvents accessToken w
  = createLoop host google accessToken calendarEvents 0 [] w.
Proof.
  intros H1 H2. unfold createEventsInGoogleCalendar, tryM.
  rewrite H1, H2. simpl. by rewrite createLoop_run.
Qed.

(** The call returns a count that is not negative, or throws. *)
Lemma createEvents_result (calendarEvents : list CalendarEvent) (accessToken : str)
    (w : World) :
  (exists created links w',
      createEventsInGoogleCalendar host google calendarEvents accessToken w
      = (Ok (created, links), w') /\ 0 <= created)
  \/ (exists e w',
      createEventsInGoogleCalendar host google calendarEvents accessToken w
      = (Throw e, w')).
Proof.
  unfold createEventsInGoogleCalendar, tryM, throwM.
  destruct (oauth2Client google); simpl; [|right; by eexists _, _].
  destruct (useCredentials google accessToken); simpl; [right; by eexists _, _|].
  left. rewrite createLoop_run. eexists _, _, _. split; [done|]. lia.
Qed.

Lemma isSet_Some (v : option str) (s : str) : isSet v = Some s -> v = Some s /\ s <> [].
Proof. destruct v as [[|c t]|]; try done. by intros [= <-]. Qed.

Lemma readToken_run (sid : str) (w : World) :
  exists stored, readToken sid w = (Ok stored, w).
Proof. unfold readToken. by eexists. Qed.

Lemma readToken_own (sid : str) (tokens : Credentials) (w : World) :
  tokenStore w !! sid = Some tokens -> readToken sid w = (Ok (Some tokens), w).
Proof. unfold readToken. by intros ->. Qed.

Lemma readToken_missing (sid : str) (w : World) :
  tokenStore w !! sid = None -> sid ∉ inheritedNames ->
  readToken sid w = (Ok None, w).
Proof. unfold readToken. intros -> H. by rewrite decide_False. Qed.

Lemma readToken_inherited (sid : str) (w : World) :
  tokenStore w !! sid = None -> sid ∈ inheritedNames ->
  readToken sid w = (Ok (Some inheritedValue), w).
Proof. unfold readToken. intros -> H. by rewrite decide_True. Qed.

(** For a session without stored credential, and whose identifier is not
    a name the store inherits, the creation step reports that authorisation
    is needed and that nothing was created, and leaves the world as it was:
    no insert call is made. *)
Lemma materialize_no_credential (sessionId : option str)
    (calendarEvents : list CalendarEvent) (w : World) :
  (forall sid, sessionId = Some sid ->
     tokenStore w !! sid = None /\ sid ∉ inheritedNames) ->
  materialize host google sessionId calendarEvents w
  = (Ok {| eventsCreated := 0; eventLinks := []; needsAuth := true |}, w).
Proof.
  intros H. unfold materialize.
  destruct (isSet sessionId) as [sid|] eqn:E; [|done].
  apply isSet_Some in E as [-> _]. destruct (H sid eq_refl) as [H1 H2].
  unfold mbind, M_bind. by rewrite readToken_missing.
Qed.

(** For a session without stored credential whose identifier is a name the
    store inherits, the creation step finds a value in the store, no access
    token in it, and reports neither events nor the need of authorisation. *)
Lemma materialize_inherited (sid : str)
    (calendarEvents : list CalendarEvent) (w : World) :
  tokenStore w !! sid = None -> sid ∈ inheritedNames ->
  materialize host google (Some sid) calendarEvents w
  = (Ok {| eventsCreated := 0; eventLinks := []; needsAuth := false |}, w).
Proof.
  intros H1 H2. unfold materialize.
  assert ([] ∉ inheritedNames) as Hempty by compute_done.
  assert (sid <> []) as Hne by (by intros ->).
  rewrite ApiFacts.isSet_set by done.
  unfold mbind, M_bind. by rewrite readToken_inherited.
Qed.

(** The creation step always returns: with the request for authorisation
    and the count zero, or without it and a count that is not negative. *)
Lemma materialize_cases (sessionId : option str)
    (calendarEvents : list CalendarEvent) (w : World) :
  exists m w',
    materialize host google sessionId calendarEvents w = (Ok m, w')
    /\ (needsAuth m = true /\ eventsCreated m = 0
        \/ needsAuth m = false /\ 0 <= eventsCreated m).
Proof.
  unfold materialize.
  destruct (isSet sessionId) as [sid|];
    [|eexists _, _; split; [reflexivity|by left]].
  unfold mbind at 1, M_bind at 1.
  destruct (readToken_run sid w) as [[tokens|] ->];
    [|eexists _, _; split; [reflexivity|by left]].
  unfold tryM.
  destruct (isSet (access_token tokens)) as [accessToken|];
    [|eexists _, _; split; [reflexivity|by right]].
  unfold mbind, M_bind.
  destruct (createEvents_result calendarEvents accessToken w)
    as [(created & links & w' & E & Hc) | (e & w' & E)]; rewrite E.
  - eexists _, _; split; [reflexivity|by right].
  - destruct (includes _ _ || includes _ _); simpl.
    + eexists _, _; split; [reflexivity|by left].
    + eexists _, _; split; [reflexivity|by right].
Qed.

(** C10.  The creation step always returns, and never with both a positive
    count and the request for authorisation: a positive count comes with
    [needsAuth] false and the success response; [needsAuth] true comes with
    the count zero. *)
Theorem materialize_exclusive (sessionId : option str)
    (calendarEvents : list CalendarEvent) (w : World) :
  exists m w',
    materialize host google sessionId calendarEvents w = (Ok m, w')
    /\ 0 <= eventsCreated m
    /\ (0 < eventsCreated m ->
        needsAuth m = false
        /\ forall plan, respond google plan calendarEvents m
                        = EventsCreated plan calendarEvents (eventsCreated m) (eventLinks m))
    /\ (needsAuth m = true -> eventsCreated m = 0).
Proof.
  destruct (materialize_cases sessionId calendarEvents w) as (m & w' & E & H).
  exists m, w'. split; [done|].
  split; [destruct H as [[_ ->] | [_ ?]]; [done|done]|].
  split.
  - intros Hpos. split; [destruct H as [[_ H] | [? _]]; [lia|done]|].
    intros plan. unfold respond. by rewrite (proj2 (Z.ltb_lt _ _) Hpos).
  - intros Hn. destruct H as [[_ ?] | [H _]]; [done|congruence].
Qed.

(** What the creation step does with a stored credential: it makes one
    insert per event and reports the number and the links of the inserts
    that answered with a link, whatever made the others fail, an expired
    grant included; when at least one succeeded [needsAuth] is not set and
    the response is the success response. *)
Theorem materialize_counts_successes (sid accessToken : str) (tokens : Credentials)
    (calendarEvents : list CalendarEvent) (w : World) :
  sid <> [] -> tokenStore w !! sid = Some tokens ->
  isSet (access_token tokens) = Some accessToken ->
  oauth2Client google = true -> useCredentials google accessToken = None ->
  exists m w',
    materialize host google (Some sid) calendarEvents w = (Ok m, w')
    /\ eventLinks m
       = successLinks (insertOutcomes host google (insertCalls w) accessToken calendarEvents)
    /\ eventsCreated m = Z.of_nat (length (eventLinks m))
    /\ insertCalls w'
       = insertCalls w
         ++ ((fun event => (accessToken, insertRequestOf host event)) <$> calendarEvents)
    /\ (0 < eventsCreated m ->
        needsAuth m = false
        /\ forall plan, respond google plan calendarEvents m
                        = EventsCreated plan calendarEvents (eventsCreated m) (eventLinks m)).
Proof.
  intros Hsid Hst Htok Hc Hu. unfold materialize.
  rewrite ApiFacts.isSet_set by done.
  unfold mbind at 1, M_bind at 1. rewrite (readToken_own _ _ _ Hst).
  unfold tryM. rewrite Htok.
  unfold mbind, M_bind. rewrite createEvents_run, createLoop_run by done.
  eexists _, _. split; [reflexivity|]. simpl.
  split; [done|]. split; [lia|]. split; [done|].
  intros Hpos. split; [done|]. intros plan. unfold respond. simpl.
  by rewrite (proj2 (Z.ltb_lt _ _) Hpos).
Qed.

(** No failure of an insert asks for authorisation or touches the token
    store: once the calendar client has taken the credential, whatever the
    inserts answer, [needsAuth] is not set and the store is as before. *)
Lemma materialize_insert_errors_unseen (sid accessToken : str) (tokens : Credentials)
    (calendarEvents : list CalendarEvent) (w : World) :
  sid <> [] -> tokenStore w !! sid = Some tokens ->
  isSet (access_token tokens) = Some accessToken ->
  oauth2Client google = true -> useCredentials google accessToken = None ->
  exists m w',
    materialize host google (Some sid) calendarEvents w = (Ok m, w')
    /\ needsAuth m = false
    /\ tokenStore w' = tokenStore w.
Proof.
  intros Hsid Hst Htok Hc Hu. unfold materialize.
  rewrite ApiFacts.isSet_set by done.
  unfold mbind at 1, M_bind at 1. rewrite (readToken_own _ _ _ Hst).
  unfold tryM. rewrite Htok.
  unfold mbind, M_bind. rewrite createEvents_run, createLoop_run by done.
  eexists _, _. split; [reflexivity|]. by split.
Qed.

(** The creation step leaves the token store as it was, or asks for
    authorisation and removes the credential of the session. *)
Lemma materialize_store (sessionId : option str)
    (calendarEvents : list CalendarEvent) (w : World) :
  exists m w',
    materialize host google sessionId calendarEvents w = (Ok m, w')
    /\ (tokenStore w' = tokenStore w
        \/ exists sid, sessionId = Some sid /\ needsAuth m = true
                       /\ tokenStore w' = delete sid (tokenStore w)).
Proof.
  unfold materialize.
  destruct (isSet sessionId) as [sid|] eqn:Es;
    [|eexists _, _; split; [reflexivity|by left]].
  apply isSet_Some in Es as [-> _].
  unfold mbind at 1, M_bind at 1.
  destruct (readToken_run sid w) as [[tokens|] ->];
    [|eexists _, _; split; [reflexivity|by left]].
  unfold tryM.
  destruct (isSet (access_token tokens)) as [accessToken|];
    [|eexists _, _; split; [reflexivity|by left]].
  unfold mbind, M_bind, createEventsInGoogleCalendar, tryM, throwM.
  destruct (oauth2Client google); simpl.
  - destruct (useCredentials google accessToken) as [msg|]; simpl.
    + destruct (includes _ _ || includes _ _); simpl.
      * eexists _, _; split; [reflexivity|]. right. by exists sid.
      * eexists _, _; split; [reflexivity|by left].
    + rewrite createLoop_run. eexists _, _; split; [reflexivity|by left].
  - eexists _, _; split; [reflexivity|by left].
Qed.

(** A successful callback stores the credential under the new session. *)
Lemma authCallback_stores (code random : str) (tokens : Credentials) (w : World) :
  oauth2Client google = true -> code <> [] -> getToken google code = Some tokens ->
  exists w',
    authCallback host google (Some code) random w
    = (Ok (RedirectSuccess (newSessionId host random)), w')
    /\ tokenStore w' !! newSessionId host random = Some tokens
    /\ insertCalls w' = insertCalls w.
Proof.
  intros Hc Hcode Ht. unfold authCallback.
  rewrite Hc, ApiFacts.isSet_set, Ht by done.
  eexists. split; [reflexivity|]. simpl. split; [|done].
  apply lookup_insert_eq.
Qed.

End Creation.

(** *** The handler *)

Section Handler.
Context (host : Host) {net : Backends} (google : Google) (key : option str).
Context (schedulePrompt : json -> list ChatMessage -> result str).

(** The handler answers every request. *)
Lemma syncCalendar_returns (body : SyncRequest) (w : World) :
  exists r w', syncCalendar host google key schedulePrompt body w = (Ok r, w').
Proof.
  unfold syncCalendar, tryM.
  match goal with |- context [match ?b with _ => _ end] => destruct b as [[r|e] w'] end;
    by eexists _, _.
Qed.

(** A well-formed request is answered from the outcome of the creation
    step on the events of the generated plan. *)
Lemma syncCalendar_run (body : SyncRequest) (strategy : json)
    (msg : ChatMessage) (msgs : list ChatMessage) (plan : list PlanItem)
    (events : list CalendarEvent) (m : Materialized) (w w' : World) :
  strategyData body = Some strategy -> truthy (Some strategy) = true ->
  customerMessages body = Some (msg :: msgs) ->
  generateScheduleFromStrategyAndChat host key schedulePrompt strategy (msg :: msgs)
  = Ok plan ->
  calendarEventsOf host plan = Ok events ->
  materialize host google (sessionId body) events w = (Ok m, w') ->
  syncCalendar host google key schedulePrompt body w
  = (Ok (respond google plan events m), w').
Proof.
  intros Hs Ht Hm Hg He Hmat. unfold syncCalendar, tryM.
  rewrite Hs, Ht, Hm. unfold mbind, M_bind, liftM. by rewrite Hg, He, Hmat.
Qed.

(** Without stored credential (and the session identifier no inherited
    name), and with OAuth configured, a well-formed request is answered
    with the authorisation URL next to the plan, and no insert call is
    made. *)
Lemma syncCalendar_no_credential (body : SyncRequest) (strategy : json)
    (msg : ChatMessage) (msgs : list ChatMessage) (plan : list PlanItem)
    (events : list CalendarEvent) (w : World) :
  strategyData body = Some strategy -> truthy (Some strategy) = true ->
  customerMessages body = Some (msg :: msgs) ->
  generateScheduleFromStrategyAndChat host key schedulePrompt strategy (msg :: msgs)
  = Ok plan ->
  calendarEventsOf host plan = Ok events ->
  (forall sid, sessionId body = Some sid ->
     tokenStore w !! sid = None /\ sid ∉ inheritedNames) ->
  GOOGLE_CLIENT_ID google <> [] -> GOOGLE_CLIENT_SECRET google <> [] ->
  oauth2Client google = true ->
  syncCalendar host google key schedulePrompt body w
  = (Ok (AuthorizationNeeded (generateAuthUrl google) plan events), w).
Proof.
  intros Hs Ht Hm Hg He Hno Hid Hsec Hc.
  rewrite (syncCalendar_run body strategy msg msgs plan events
             {| eventsCreated := 0; eventLinks := []; needsAuth := true |} w w)
    by (try done; by apply materialize_no_credential).
  unfold respond. simpl. rewrite Hc.
  by destruct (GOOGLE_CLIENT_ID google), (GOOGLE_CLIENT_SECRET google).
Qed.

End Handler.

(** C8 at an inherited name.  No credential is stored for the session
    identifier [constructor], yet the store answers the lookup with the
    constructor it inherits: the creation step makes no insert call and
    creates nothing, as the claim has it, but does not ask for
    authorisation, and the response is the plan alone. *)
Theorem materialize_constructor :
  tokenStore sampleWorld !! js "constructor" = None
  /\ materialize hostEpoch googleExpiring (Some (js "constructor")) fourteenEvents
       sampleWorld
     = (Ok {| eventsCreated := 0; eventLinks := []; needsAuth := false |}, sampleWorld)
  /\ respond googleExpiring [] fourteenEvents
       {| eventsCreated := 0; eventLinks := []; needsAuth := false |}
     = PlanOnly [] fourteenEvents.
Proof. split; [reflexivity|]. split; reflexivity. Qed.

(** Any other unknown session is asked to authorise. *)
Lemma materialize_unknown_session :
  materialize hostEpoch googleExpiring (Some (js "session_unknown")) fourteenEvents
    sampleWorld
  = (Ok {| eventsCreated := 0; eventLinks := []; needsAuth := true |}, sampleWorld).
Proof.
  apply materialize_no_credential. intros sid [= <-].
  split; [reflexivity|compute_done].
Qed.

Lemma materialize_counts_successes_witness :
  exists m w',
    materialize hostEpoch googleExpiring (Some sampleSession) fourteenEvents sampleWorld
    = (Ok m, w')
    /\ eventsCreated m = 12 /\ length (insertCalls w') = 14%nat.
Proof.
  destruct (materialize_counts_successes hostEpoch googleExpiring sampleSession
              (js "ya29.access") sampleTokens fourteenEvents sampleWorld)
    as (m & w' & E & Hl & Hc & Hcalls & _); [done | reflexivity..|].
  exists m, w'. split; [exact E|]. rewrite Hc, Hl, Hcalls. split; reflexivity.
Defined.

(** C1 at its scenario.  Of fourteen inserts the third and the tenth fail
    with an expired grant and twelve succeed.  Twelve events are reported,
    as the claim has it; but the error of an insert is caught inside the
    loop over the events and never reaches the branch of the handler that
    asks for authorisation and deletes the credential: [needsAuth] is not
    set and the credential of the session stays in the store. *)
Theorem materialize_expired_grant_ignored :
  length fourteenEvents = 14%nat
  /\ (forall o, o ∈ insertOutcomes hostEpoch googleExpiring [] (js "ya29.access") fourteenEvents ->
        linkOf o = None -> o = InsertFailed (js "invalid_grant"))
  /\ length (successLinks
               (insertOutcomes hostEpoch googleExpiring [] (js "ya29.access") fourteenEvents))
     = 12%nat
  /\ exists m w',
      materialize hostEpoch googleExpiring (Some sampleSession) fourteenEvents sampleWorld
      = (Ok m, w')
      /\ eventsCreated m = 12
      /\ needsAuth m = false
      /\ tokenStore w' !! sampleSession = Some sampleTokens.
Proof.
  split; [reflexivity|]. split; [|split; [reflexivity|]].
  - intros o Ho Hl. vm_compute in Ho.
    repeat (apply elem_of_cons in Ho as [-> | Ho]; [done || discriminate Hl|]).
    by apply elem_of_nil in Ho.
  - eexists _, _. split; [reflexivity|]. repeat split; reflexivity.
Qed.


End ServerFacts.

(** ** Further facts about strings *)

Module TextFacts.
Import JSStr JSStrFacts.

Lemma trimStart_head (s : str) (c : N) :
  head (trimStart s) = Some c -> isWhiteSpace c = false.
Proof.
  induction s as [|a s IH]; simpl; [done|].
  destruct (isWhiteSpace a) eqn:E; [done|]. simpl. by intros [= <-].
Qed.

Lemma trimStart_suffix (s : str) : exists ws, s = ws ++ trimStart s.
Proof.
  induction s as [|a s [ws IH]]; simpl; [by exists []|].
  destruct (isWhiteSpace a); [|by exists []].
  exists (a :: ws). simpl. by rewrite <- IH.
Qed.

Lemma trimEnd_prefix (s : str) : exists ws, s = trimEnd s ++ ws.
Proof.
  unfold trimEnd. destruct (trimStart_suffix (rev s)) as [ws E].
  exists (rev ws). rewrite <- rev_app_distr, <- E. by rewrite rev_involutive.
Qed.

Lemma last_rev_head (s : str) : last (rev s) = head s.
Proof. destruct s as [|a s]; [done|]. simpl. by rewrite last_snoc. Qed.

Lemma trimEnd_last (s : str) (c : N) :
  last (trimEnd s) = Some c -> isWhiteSpace c = false.
Proof.
  unfold trimEnd. rewrite last_rev_head. apply trimStart_head.
Qed.

(** The result of [trim] neither starts nor ends with white space. *)
Lemma trim_clean (s : str) (c : N) :
  head (trim s) = Some c \/ last (trim s) = Some c -> isWhiteSpace c = false.
Proof.
  unfold trim. intros [H|H]; [|by eapply trimEnd_last].
  destruct (trimEnd_prefix (trimStart s)) as [ws E].
  apply (trimStart_head s). rewrite E.
  destruct (trimEnd (trimStart s)); [done|]. done.
Qed.

Lemma trimStart_all (ws : str) : forallb isWhiteSpace ws = true -> trimStart ws = [].
Proof.
  intros H. rewrite <- (app_nil_r ws). by rewrite trimStart_ws.
Qed.

Lemma trimStart_app_ws (s ws : str) :
  forallb isWhiteSpace ws = true ->
  trimStart (s ++ ws) = match trimStart s with [] => [] | t => t ++ ws end.
Proof.
  intros H. induction s as [|a s IH]; simpl; [by apply trimStart_all|].
  by destruct (isWhiteSpace a).
Qed.

Lemma trimEnd_ws (s ws : str) :
  forallb isWhiteSpace ws = true -> trimEnd (s ++ ws) = trimEnd s.
Proof.
  intros H. unfold trimEnd. rewrite rev_app_distr.
  by rewrite trimStart_ws by (by apply forallb_rev).
Qed.

(** White space around a text does not change what [trim] gives. *)
Lemma trim_pad (ws1 ws2 s : str) :
  forallb isWhiteSpace ws1 = true -> forallb isWhiteSpace ws2 = true ->
  trim (ws1 ++ s ++ ws2) = trim s.
Proof.
  intros H1 H2. unfold trim. rewrite trimStart_ws by done.
  rewrite trimStart_app_ws by done.
  destruct (trimStart s) as [|a t]; [done|]. by rewrite trimEnd_ws.
Qed.

(** A text that neither starts nor ends with white space is its own
    [trim]. *)
Lemma trim_fixed (s : str) :
  (forall c, head s = Some c \/ last s = Some c -> isWhiteSpace c = false) ->
  trim s = s.
Proof.
  intros H. destruct s as [|a s]; [done|].
  destruct (exists_last (l := a :: s)) as (x & b & E); [done|].
  assert (isWhiteSpace a = false) as Ha by (apply H; by left).
  assert (isWhiteSpace b = false) as Hb.
  { apply H. right. rewrite E. by rewrite last_snoc. }
  destruct x as [|a' x]; simpl in E.
  - injection E as -> ->. unfold trim, trimEnd. simpl. rewrite Ha. simpl. by rewrite Ha.
  - injection E as <- ->.
    pose proof (trim_around [] [] x a b eq_refl eq_refl Ha Hb) as Ht.
    simpl in Ht. by rewrite app_nil_r in Ht.
Qed.

Lemma includes_nil (s : str) : includes s [] = true.
Proof. by destruct s. Qed.

(** A text includes each of its parts. *)
Lemma includes_infix (pre p post : str) : includes (pre ++ p ++ post) p = true.
Proof.
  induction pre as [|c pre IH]; simpl.
  - destruct (p ++ post) as [|c t] eqn:E.
    + apply app_eq_nil in E as [-> _]. done.
    + simpl. rewrite <- E. by rewrite startsWith_app.
  - rewrite IH. by rewrite orb_true_r.
Qed.

End TextFacts.

(** ** Risk scoring *)

Module RiskFacts.
Import JSStr JSON Exn JSValue Api JSObject Risk JSStrFacts TextFacts.

#[local] Arguments N.eqb : simpl never.

Lemma splitOn_single (sep : N) (s : str) :
  forallb (fun c => negb (c =? sep)%N) s = true -> splitOn sep s = [s].
Proof.
  induction s as [|c s IH]; simpl; [done|].
  intros [Hc Hs]%andb_true_iff. apply negb_true_iff in Hc. rewrite Hc.
  by rewrite IH.
Qed.

Lemma dropWhile_keep (f : N -> bool) (s : str) :
  head (f <$> s) <> Some true -> dropWhile f s = s.
Proof. destruct s as [|c s]; [done|]. simpl. by destruct (f c). Qed.

Lemma In_take {A} (n : nat) (l : list A) (x : A) : In x (take n l) -> In x l.
Proof.
  intros H. rewrite <- (take_drop n l). apply in_or_app. by left.
Qed.

(** X1.  The rule-based score is 20, plus 30 when personal data is handled,
    plus 25 when security controls are not in place, plus 15 unless the
    country is the text USA; it lies between 20 and 90.  Its level depends
    on the first two answers only: it is HIGH exactly when personal data is
    handled without security controls, LOW exactly when no personal data is
    handled and controls are in place, and MEDIUM otherwise.  The country
    adds to the score and never changes the level. *)
Theorem calculateFallbackScore_levels (data : json) :
  score (calculateFallbackScore data)
  = 20 + (if truthy (prop (js "hasPII") data) then 30 else 0)
       + (if truthy (prop (js "hasControls") data) then 0 else 25)
       + (if isString (js "USA") (prop (js "country") data) then 0 else 15)
  /\ (isString (js "USA") (prop (js "country") data) = true
      <-> prop (js "country") data = Some (JStr (js "USA")))
  /\ 20 <= score (calculateFallbackScore data) <= 90
  /\ (riskLevel (calculateFallbackScore data) = HIGH
      <-> truthy (prop (js "hasPII") data) = true
          /\ truthy (prop (js "hasControls") data) = false)
  /\ (riskLevel (calculateFallbackScore data) = LOW
      <-> truthy (prop (js "hasPII") data) = false
          /\ truthy (prop (js "hasControls") data) = true)
  /\ (riskLevel (calculateFallbackScore data) = MEDIUM
      <-> truthy (prop (js "hasPII") data) = truthy (prop (js "hasControls") data))
  /\ reasons (calculateFallbackScore data) = [js "Rule-based fallback"]
  /\ error (calculateFallbackScore data) = None.
Proof.
  split; [|split].
  - unfold calculateFallbackScore.
    by destruct (truthy (prop (js "hasPII") data)),
                (truthy (prop (js "hasControls") data)),
                (isString (js "USA") (prop (js "country") data)).
  - unfold isString. destruct (prop (js "country") data) as [[]|]; try done.
    rewrite bool_decide_eq_true. split; [by intros ->|by intros [= ->]].
  - unfold calculateFallbackScore.
    destruct (truthy (prop (js "hasPII") data)),
             (truthy (prop (js "hasControls") data)),
             (isString (js "USA") (prop (js "country") data));
      simpl; (split; [lia|]); repeat split; try done; by intros [? ?].
Qed.

Lemma calculateFallbackScore_range (data : json) :
  20 <= score (calculateFallbackScore data) <= 90
  /\ reasons (calculateFallbackScore data) = [js "Rule-based fallback"].
Proof.
  unfold calculateFallbackScore.
  destruct (truthy (prop (js "hasPII") data)),
           (truthy (prop (js "hasControls") data)),
           (isString (js "USA") (prop (js "country") data));
    simpl; (split; [lia|done]).
Qed.

Lemma reasonsOf_length (text : str) : (length (reasonsOf text) <= 5)%nat.
Proof. unfold reasonsOf. rewrite length_take. lia. Qed.

(** X2.  The risk endpoint answers every request with a score: between 20 and
    90, with at least one reason and at most five.  Without API key the answer
    is the rule-based score, whatever the model would say; when the analysis
    fails it is the rule-based score again, with the failure reported next to
    it. *)
Theorem riskScore_always_scored (riskAnalysis : str -> json -> result str)
    (key : option str) (data : json) :
  20 <= score (riskScore riskAnalysis key data) <= 90
  /\ reasons (riskScore riskAnalysis key data) <> []
  /\ (length (reasons (riskScore riskAnalysis key data)) <= 5)%nat
  /\ (isSet key = None -> riskScore riskAnalysis key data = calculateFallbackScore data)
  /\ (forall apiKey err,
        isSet key = Some apiKey -> riskAnalysis apiKey data = Throw err ->
        riskLevel (riskScore riskAnalysis key data) = riskLevel (calculateFallbackScore data)
        /\ score (riskScore riskAnalysis key data) = score (calculateFallbackScore data)
        /\ error (riskScore riskAnalysis key data)
           = Some (js "Gemini failed: " ++ message err)).
Proof.
  pose proof (calculateFallbackScore_range data) as (Hb & Hr).
  unfold riskScore. destruct (isSet key) as [apiKey|].
  - destruct (riskAnalysis apiKey data) as [text|err] eqn:E;
      cbv zeta; cbn [riskLevel reasons score error].
    + split; [destruct (levelOf text); lia|].
      pose proof (reasonsOf_length text) as Hl.
      destruct (reasonsOf text) as [|r rs]; simpl in *.
      * split; [done|]. split; [lia|]. split; [done|]. intros k e [= <-] H. congruence.
      * split; [done|]. split; [lia|]. split; [done|]. intros k e [= <-] H. congruence.
    + rewrite Hr. split; [done|]. split; [done|]. split; [simpl; lia|].
      split; [done|]. intros k e [= <-] H. rewrite E in H. by injection H as <-.
  - rewrite Hr. split; [done|]. split; [done|]. split; [simpl; lia|]. by split.
Qed.

(** X3.  The level of an analysed request is read off two words of the reply:
    a reply that contains HIGH anywhere is rated HIGH with the score 85,
    whatever else it says, and a reply with neither HIGH nor MEDIUM is rated
    LOW with the score 25. *)
Theorem riskScore_keywords (riskAnalysis : str -> json -> result str)
    (key : option str) (data : json) (apiKey text : str) :
  isSet key = Some apiKey -> riskAnalysis apiKey data = Ok text ->
  (forall pre post, text = pre ++ js "HIGH" ++ post ->
     riskLevel (riskScore riskAnalysis key data) = HIGH
     /\ score (riskScore riskAnalysis key data) = 85)
  /\ (includes text (js "HIGH") = false -> includes text (js "MEDIUM") = false ->
      riskLevel (riskScore riskAnalysis key data) = LOW
      /\ score (riskScore riskAnalysis key data) = 25)
  /\ error (riskScore riskAnalysis key data) = None.
Proof.
  intros Hk Ht. unfold riskScore. rewrite Hk, Ht.
  cbv zeta; cbn [riskLevel reasons score error]. unfold levelOf.
  split; [|split; [|done]].
  - intros pre post ->. by rewrite includes_infix.
  - by intros -> ->.
Qed.

(** X4.  At most five reasons are read from a reply, none of them empty, and
    each is a line of the reply that starts (after trimming) with a hyphen or
    with digits and a full stop, trimmed and without its marker. *)
Theorem reasonsOf_bounded (text : str) :
  (length (reasonsOf text) <= 5)%nat
  /\ forall r, r ∈ reasonsOf text ->
       r <> []
       /\ exists line,
            line ∈ splitOn LF text
            /\ r = stripMarker (trim line)
            /\ (startsWith (trim line) (js "-") = true \/ isNumbered (trim line) = true).
Proof.
  split; [apply reasonsOf_length|].
  intros r Hr. unfold reasonsOf in Hr.
  apply list_elem_of_In, In_take, filter_In in Hr as [Hin Hne].
  apply in_map_iff in Hin as (line & <- & Hline).
  apply filter_In in Hline as [Hline Hm].
  split.
  - intros E. by rewrite E in Hne.
  - exists line. split; [by apply list_elem_of_In|]. split; [done|].
    by apply orb_true_iff.
Qed.

(** X5.  A numbered line loses its first digit only: the reason read from the
    one-line reply of digits, a full stop and a text is that reply without its
    first code unit, so that the full stop (and any further digit) stays in
    front of the text. *)
Theorem reasonsOf_numbered_line (d : N) (ds rest : str) :
  forallb isDigit (d :: ds) = true ->
  forallb (fun c => negb (c =? LF)%N) rest = true ->
  (forall c, last (js "." ++ rest) = Some c -> isWhiteSpace c = false) ->
  reasonsOf ((d :: ds) ++ js "." ++ rest) = [ds ++ js "." ++ rest].
Proof.
  intros Hds Hrest Hlast.
  assert (forall c, isDigit c = true -> negb (c =? LF)%N = true) as Hdl.
  { intros c. unfold isDigit, LF. case_cmp; done. }
  pose proof Hds as Hds'. simpl in Hds'. apply andb_true_iff in Hds' as [Hd Hds'].
  set (text := (d :: ds) ++ js "." ++ rest).
  assert (trim text = text) as Htrim.
  { apply trim_fixed. intros c [H|H].
    - injection H as <-. by apply digit_not_space.
    - apply Hlast. unfold text in H.
      change ((d :: ds) ++ js "." ++ rest) with ((d :: ds) ++ 46%N :: rest) in H.
      by rewrite last_app_cons in H. }
  assert (isNumbered text = true) as Hnum.
  { unfold isNumbered, text.
    destruct (takeWhile_app isDigit (d :: ds) (js "." ++ rest)) as [-> ->]; done. }
  assert (stripMarker text = ds ++ js "." ++ rest) as Hstrip.
  { unfold stripMarker, text, isMarker. simpl. rewrite Hd, orb_true_r. simpl.
    apply dropWhile_keep. destruct ds as [|d' ds]; [done|].
    simpl in *. apply andb_true_iff in Hds' as [Hd' _].
    by rewrite (digit_not_space _ Hd'). }
  unfold reasonsOf. rewrite splitOn_single.
  2:{ unfold text. rewrite forallb_app. apply andb_true_iff. split; [|done].
      apply forallb_forall. intros c Hc. apply Hdl.
      by eapply (proj1 (forallb_forall _ _) Hds). }
  cbn [List.filter]. rewrite Htrim, Hnum, orb_true_r.
  cbn [map List.filter]. rewrite Htrim, Hstrip.
  by destruct ds.
Qed.

Import Samples MoreSamples.

Lemma riskScore_keywords_witness :
  riskLevel (riskScore (riskAnalysisSaying riskReply) (Some (js "AIza_key")) (JObj []))
  = HIGH
  /\ score (riskScore (riskAnalysisSaying riskReply) (Some (js "AIza_key")) (JObj []))
     = 85.
Proof.
  apply (proj1 (riskScore_keywords (riskAnalysisSaying riskReply)
                  (Some (js "AIza_key")) (JObj []) (js "AIza_key") riskReply
                  eq_refl eq_refl)
           (js "Risk is not ") (js ", more likely MEDIUM.") eq_refl).
Defined.

Lemma reasonsOf_numbered_line_witness :
  reasonsOf (js "1. Insurance expired") = [js ". Insurance expired"].
Proof.
  apply (reasonsOf_numbered_line 49 [] (js " Insurance expired") eq_refl eq_refl).
  intros c [= <-]. reflexivity.
Defined.

End RiskFacts.

(** ** Entities and audit trail *)

Module RegistryFacts.
Import JSStr JSON Exn JSValue JSObject Registry.

Lemma lookupLast_acc (k : str) (members : list (str * json)) (acc : option json) :
  fold_left (fun acc kv => if decide (kv.1 = k) then Some kv.2 else acc) members acc
  = match lookupLast k members with Some v => Some v | None => acc end.
Proof.
  unfold lookupLast. revert acc. induction members as [|kv members IH]; intros acc; [done|].
  simpl. rewrite IH. rewrite (IH (if decide (kv.1 = k) then Some kv.2 else None)).
  destruct (fold_left _ members None); [done|]. by destruct (decide (kv.1 = k)).
Qed.

(** In a concatenation of members, those written later hide the earlier. *)
Lemma lookupLast_app (k : str) (a b : list (str * json)) :
  lookupLast k (a ++ b)
  = match lookupLast k b with Some v => Some v | None => lookupLast k a end.
Proof. unfold lookupLast at 1. by rewrite fold_left_app, lookupLast_acc. Qed.

Lemma find_app (p : json -> bool) (a b : list json) :
  List.find p (a ++ b)
  = match List.find p a with Some x => Some x | None => List.find p b end.
Proof. induction a as [|x a IH]; [done|]. simpl. by destruct (p x). Qed.

Lemma find_none (p : json -> bool) (l : list json) :
  (forall e, e ∈ l -> p e = false) -> List.find p l = None.
Proof.
  induction l as [|x l IH]; [done|]. intros H. simpl.
  rewrite (H x) by (apply elem_of_cons; by left).
  apply IH. intros e He. apply H, elem_of_cons. by right.
Qed.

(** [findIndex] gives the position of what [find] gives. *)
Lemma findIndex_find (p : json -> bool) (l : list json) :
  match List.find p l with
  | Some x => exists i, findIndex p l = Some i /\ l !! i = Some x
  | None => findIndex p l = None
  end.
Proof.
  induction l as [|x l IH]; [done|]. simpl. destruct (p x); [by exists 0%nat|].
  destruct (List.find p l) as [y|].
  - destruct IH as (i & -> & Hi). by exists (S i).
  - by rewrite IH.
Qed.

Lemma find_insert_first (p : json -> bool) (l : list json) (i : nat) (y : json) :
  findIndex p l = Some i -> p y = true -> List.find p (<[i := y]> l) = Some y.
Proof.
  revert i; induction l as [|x l IH]; intros i; [done|]. simpl.
  destruct (p x) eqn:Ex.
  - intros [= <-] Hy. simpl. by rewrite Hy.
  - destruct (findIndex p l) as [i'|]; [|done]. simpl. intros [= <-] Hy.
    simpl. rewrite Ex. by apply IH.
Qed.

Lemma find_Some_true (p : json -> bool) (l : list json) (x : json) :
  List.find p l = Some x -> p x = true.
Proof.
  induction l as [|y l IH]; [done|]. simpl. destruct (p y) eqn:E; [|done].
  by intros [= <-].
Qed.

Section Endpoints.
Context (isoString : Z -> str).

(** X6.  Creating an entity appends it and leaves what could be fetched before
    as it was.  The new entity is what a fetch by its identifier returns only
    when no older entity has that identifier: the identifier is made from the
    clock alone, and a fetch returns the first match. *)
Theorem createEntity_get (now : Z) (body : json) (s : Store) :
  entities (createEntity isoString now body s).2
  = entities s ++ [(createEntity isoString now body s).1]
  /\ auditEvents (createEntity isoString now body s).2 = auditEvents s
  /\ (forall id e, getEntity id s = Json e ->
        getEntity id (createEntity isoString now body s).2 = Json e)
  /\ (forall id, hasId id (createEntity isoString now body s).1 = true ->
        (forall e, e ∈ entities s -> hasId id e = false) ->
        getEntity id (createEntity isoString now body s).2
        = Json (createEntity isoString now body s).1).
Proof.
  split; [done|]. split; [done|]. unfold getEntity. simpl. split.
  - intros id e. rewrite find_app.
    destruct (List.find (hasId id) (entities s)); [done|done].
  - intros id Hid Hold. rewrite find_app, (find_none _ _ Hold). simpl.
    simpl in Hid. by rewrite Hid.
Qed.

(** X7.  The identifier of a created entity is the [id] of the request body
    when the body has one: the generated identifier is then hidden, and a body
    whose [id] is no string makes an entity that no fetch by identifier
    returns. *)
Theorem createEntity_id_from_body (now : Z) (body v : json) (s : Store) :
  lookupLast (js "id") (spread body) = Some v ->
  prop (js "id") (createEntity isoString now body s).1 = Some v
  /\ (forall id, hasId id (createEntity isoString now body s).1 = isString id (Some v))
  /\ ((forall id, v <> JStr id) ->
      forall id, getEntity id (createEntity isoString now body s).2 = getEntity id s).
Proof.
  intros Hv.
  assert (prop (js "id") (createEntity isoString now body s).1 = Some v) as Hid.
  { unfold createEntity, prop. cbn [fst]. by rewrite lookupLast_app, Hv. }
  split; [done|]. split; [intros id; unfold hasId; by rewrite Hid|].
  intros Hns id. unfold getEntity. cbn [createEntity snd entities].
  rewrite find_app. destruct (List.find (hasId id) (entities s)); [done|].
  cbn [List.find]. unfold hasId at 1.
  change (JObj _) with (createEntity isoString now body s).1. rewrite Hid.
  destruct v; try done. simpl. rewrite bool_decide_eq_false_2; [done|].
  intros ->. by apply (Hns id).
Qed.

(** X8.  An update finds the entity a fetch by the same identifier returns.
    When there is none it answers 404 and changes nothing.  Otherwise it
    replaces that entity in place by the merge of the entity and the request
    body, the body winning, and stamps [lastUpdated] with the clock, whatever
    the body says. *)
Theorem updateEntity_merges (now : Z) (id : str) (body : json) (s : Store) :
  match getEntity id s with
  | NotFound _ =>
      updateEntity isoString now id body s = (NotFound (js "Entity not found"), s)
  | Json old =>
      exists index entity,
        entities s !! index = Some old
        /\ updateEntity isoString now id body s
           = (Json entity,
              {| entities := <[index := entity]> (entities s);
                 auditEvents := auditEvents s |})
        /\ prop (js "lastUpdated") entity = Some (JStr (isoString now))
        /\ forall k, k <> js "lastUpdated" ->
             prop k entity
             = match lookupLast k (spread body) with
               | Some v => Some v
               | None => lookupLast k (spread old)
               end
  end.
Proof.
  unfold getEntity, updateEntity.
  pose proof (findIndex_find (hasId id) (entities s)) as H.
  destruct (List.find (hasId id) (entities s)) as [old|].
  - destruct H as (index & -> & Hi). rewrite Hi.
    change (default JNull (Some old)) with old. cbv zeta.
    eexists _, _. split; [done|]. split; [reflexivity|].
    unfold prop. rewrite !lookupLast_app. split; [done|].
    intros k Hk. rewrite !lookupLast_app.
    assert (lookupLast k [(js "lastUpdated", JStr (isoString now))] = None) as ->; [|done].
    unfold lookupLast. cbn [fold_left fst snd]. by rewrite decide_False.
  - by rewrite H.
Qed.

(** X9.  After an update whose body does not name an [id], a fetch by the same
    identifier returns the updated entity. *)
Theorem updateEntity_then_get (now : Z) (id : str) (body old : json) (s : Store) :
  getEntity id s = Json old -> lookupLast (js "id") (spread body) = None ->
  getEntity id (updateEntity isoString now id body s).2
  = (updateEntity isoString now id body s).1.
Proof.
  intros Hget Hbody.
  unfold getEntity in Hget.
  destruct (List.find (hasId id) (entities s)) as [e|] eqn:Ef; [|done].
  injection Hget as ->.
  pose proof (find_Some_true _ _ _ Ef) as Hid.
  pose proof (findIndex_find (hasId id) (entities s)) as H. rewrite Ef in H.
  destruct H as (index & Hfi & Hi).
  unfold updateEntity. rewrite Hfi, Hi.
  change (default JNull (Some old)) with old. cbv zeta. cbn [fst snd].
  unfold getEntity. cbn [entities].
  rewrite (find_insert_first _ _ _ _ Hfi); [done|].
  unfold hasId, prop. rewrite !lookupLast_app, Hbody.
  assert (lookupLast (js "id") [(js "lastUpdated", JStr (isoString now))] = None) as ->
    by done.
  unfold hasId, prop in Hid. destruct old; try done.
Qed.

(** X10.  An audit event is appended to the trail.  Its [entityName] is the
    member of that name of the request body when the body has one, else the
    [entityId] of the body, else the text Unknown. *)
Theorem createAudit_entityName (now : Z) (body : json) (s : Store) :
  auditEvents (createAudit isoString now body s).2
  = auditEvents s ++ [(createAudit isoString now body s).1]
  /\ entities (createAudit isoString now body s).2 = entities s
  /\ prop (js "entityName") (createAudit isoString now body s).1
     = match lookupLast (js "entityName") (spread body) with
       | Some v => Some v
       | None => Some (orDefault (prop (js "entityId") body) (JStr (js "Unknown")))
       end.
Proof.
  split; [done|]. split; [done|].
  unfold createAudit, prop. cbn [fst]. by rewrite lookupLast_app.
Qed.

End Endpoints.

Import Samples MoreSamples.

Lemma updateEntity_then_get_witness :
  getEntity (js "entity-1")
    (updateEntity isoMillis 5 (js "entity-1") renameBody oneEntity).2
  = (updateEntity isoMillis 5 (js "entity-1") renameBody oneEntity).1.
Proof.
  apply (updateEntity_then_get isoMillis 5 (js "entity-1") renameBody acme
           oneEntity eq_refl eq_refl).
Defined.

Lemma createEntity_id_from_body_witness :
  getEntity (js "entity-5")
    (createEntity isoMillis 5 numericIdBody oneEntity).2
  = getEntity (js "entity-5") oneEntity.
Proof.
  apply (proj2 (proj2 (createEntity_id_from_body isoMillis 5 numericIdBody
                         (JNum 7 0) oneEntity eq_refl))).
  intros id. discriminate.
Defined.

End RegistryFacts.

(** ** The two-week plan and its calendar file *)

Module PlannerFacts.
Import JSStr JSON Exn JSValue JSDate Api Server JSObject Planner.
Import JSStrFacts ServerFacts.

Section FallbackPlan.
Context (host : Host) (tz : Z) (Hfix : fixedOffset host tz).

Lemma fallbackLoop_run (goal : str) (t : Z) (turns : nat) :
  forall i : Z,
    1 <= i -> Z.abs t + (i + Z.of_nat turns) * msPerDay <= maxTimeValue ->
    fallbackLoop host goal (Some t) turns i
    = Ok ((fun j : nat => fallbackItemAt goal t (i + Z.of_nat j)) <$> seq 0 turns).
Proof.
  induction turns as [|k IH]; intros i Hi Hrange; [done|].
  cbn [fallbackLoop]. unfold fallbackItem. rewrite (addDays_fixed host tz) by done.
  rewrite TimeClip_in_range by (unfold msPerDay, maxTimeValue in *; lia).
  cbn [toISOString mbind result_bind].
  rewrite IH by (unfold msPerDay, maxTimeValue in *; lia).
  cbn [mbind result_bind]. f_equal. cbn [seq fmap list_fmap]. f_equal.
  - unfold fallbackItemAt. rewrite Z.add_0_r. f_equal.
    unfold isoDate, msPerDay. by rewrite Z.div_add.
  - rewrite <- seq_shift, <- list_fmap_compose. apply list_fmap_ext.
    intros _ j _. simpl. f_equal. lia.
Qed.

Lemma fallbackPlan_run (goal : str) (t : Z) :
  Z.abs t + 15 * msPerDay <= maxTimeValue ->
  fallbackPlan host goal (Some t)
  = Ok ((fun j : nat => fallbackItemAt goal t (1 + Z.of_nat j)) <$> seq 0 14).
Proof. intros H. unfold fallbackPlan. by rewrite fallbackLoop_run. Qed.

End FallbackPlan.

Lemma fallbackPlan_lookup (goal : str) (t : Z) (j : nat) (item : PlanItem) :
  ((fun j : nat => fallbackItemAt goal t (1 + Z.of_nat j)) <$> seq 0 14) !! j = Some item ->
  (j < 14)%nat /\ item = fallbackItemAt goal t (1 + Z.of_nat j).
Proof.
  rewrite list_lookup_fmap. intros H.
  destruct (seq 0 14 !! j) as [j'|] eqn:E; [|done].
  apply lookup_seq in E as [-> ?]. simpl in H. injection H as <-. by split.
Qed.

Section TwoWeekPlan.
Context (host : Host) {net : Backends} (key : option str).
Context (planPrompt : str -> str -> list str -> str).

(** X11.  On a host whose time zone keeps one offset from UTC, the two-week
    plan never fails for a start date whose next fifteen days are in the
    range of [Date]: whether the model answers, fails, or answers something
    that is no JSON array, a plan is returned, each element with the status
    [planned] and dated with the start date plus its position. *)
Theorem generateTwoWeekPlan_total (tz : Z) (goal strategy : str) (t : Z)
    (constraints : list str) :
  fixedOffset host tz ->
  Z.abs t + 15 * msPerDay <= maxTimeValue ->
  exists plan,
    generateTwoWeekPlan host key planPrompt goal strategy (Some t) constraints = Ok plan
    /\ forall (j : nat) (item : PlanItem), plan !! j = Some item ->
         status item = js "planned" /\ date item = isoDate t + Z.of_nat j.
Proof.
  intros Hfix Hrange.
  assert (exists plan, fallbackPlan host goal (Some t) = Ok plan
            /\ forall (j : nat) (item : PlanItem), plan !! j = Some item ->
                 status item = js "planned" /\ date item = isoDate t + Z.of_nat j)
    as Hfallback.
  { rewrite (fallbackPlan_run host tz) by done. eexists. split; [done|].
    intros j item [_ ->]%fallbackPlan_lookup. split; [done|]. simpl. lia. }
  unfold generateTwoWeekPlan. destruct (isSet key) as [apiKey|]; [|done].
  unfold try_catch.
  match goal with |- context [match ?b with Ok _ => _ | Throw _ => _ end] =>
    destruct b as [plan|e] eqn:E end; [|done].
  exists plan. split; [done|]. intros j item Hj.
  cbv zeta in E.
  destruct (geminiGenerateContent _ _ _) as [|text]; [done|]. cbn [mbind result_bind] in E.
  destruct (JSON_parse _) as [v|]; [|done]. cbn [mbind result_bind] in E.
  destruct (asArray v) as [items|]; [|done]. cbn [mbind result_bind] in E.
  destruct (mapWithIndex_spec _ _ _ _ E) as [_ H].
  destruct (H j item Hj) as (a & _ & (_ & Hst & t0 & t' & [= <-] & Ht' & Hd)%datedItem_inv).
  split; [done|]. rewrite Hd, (isoDate_addDays host tz _ _ _ Hfix Ht'). lia.
Qed.

(** X12.  On a host whose time zone keeps one offset from UTC: without API
    key, when the model fails, or when its reply (trimmed and without
    fences) is no JSON array, the plan is the plan without AI: fourteen
    items, the item at position [j] numbered day [j + 1] and dated with the
    start date plus [day - 1], with the goal in its task and no duration. *)
Theorem generateTwoWeekPlan_fallback (tz : Z) (goal strategy : str) (t : Z)
    (constraints : list str) :
  fixedOffset host tz ->
  Z.abs t + 15 * msPerDay <= maxTimeValue ->
  isSet key = None
  \/ (exists apiKey, isSet key = Some apiKey
      /\ ((exists msg, geminiGenerateContent apiKey gemini_defaultModel
                         (planPrompt goal strategy constraints) = inl msg)
          \/ (exists text, geminiGenerateContent apiKey gemini_defaultModel
                             (planPrompt goal strategy constraints) = inr text
                /\ forall items, parse (stripFences (trim text)) <> Some (JArr items)))) ->
  exists plan,
    generateTwoWeekPlan host key planPrompt goal strategy (Some t) constraints = Ok plan
    /\ length plan = 14%nat
    /\ forall (j : nat) (item : PlanItem), plan !! j = Some item ->
         integerOf (itemProp (js "day") item) = Some (Z.of_nat j + 1)
         /\ date item = isoDate t + (Z.of_nat j + 1 - 1)
         /\ status item = js "planned"
         /\ itemProp (js "task") item
            = Some (JStr (js "Work on: " ++ goal ++ js " (Day "
                          ++ digitsOf (Z.to_N (Z.of_nat j + 1)) ++ js ")"))
         /\ itemProp (js "duration") item = None.
Proof.
  intros Hfix Hrange Hcase.
  exists ((fun j : nat => fallbackItemAt goal t (1 + Z.of_nat j)) <$> seq 0 14).
  split; [|split; [done|]].
  - rewrite <- (fallbackPlan_run host tz) by done. unfold generateTwoWeekPlan.
    destruct Hcase as [-> | (apiKey & -> & [[msg Hm] | (text & Ht & Hp)])]; [done| |].
    + cbv zeta. by rewrite Hm.
    + cbv zeta. rewrite Ht. cbn [mbind result_bind]. unfold JSON_parse.
      destruct (parse (stripFences (trim text))) as [v|] eqn:Ev; [|done].
      cbn [mbind result_bind]. destruct v; try done. by destruct (Hp items).
  - intros j item [Hj ->]%fallbackPlan_lookup.
    replace (1 + Z.of_nat j) with (Z.of_nat j + 1) by lia.
    split; [|by repeat split].
    do 14 (destruct j as [|j]; [reflexivity|]). lia.
Qed.

End TwoWeekPlan.

Section CalendarFile.
Context (host : Host).

(** What the callback of the calendar file gives: the hours are those
    the synchronisation reads from the same duration, the day is the local
    day of the start of the local day of the date, the time is nine. *)
Lemma eventAttributesOf_inv (goal : str) (item : PlanItem) (attributes : EventAttributes) :
  eventAttributesOf host goal item = Ok attributes ->
  durationHours (itemProp (js "duration") item) = Ok (ics_hours attributes)
  /\ ics_startDay attributes = localDay host (startOfDay host (dateOfDay (date item)))
  /\ ics_startHour attributes = 9 /\ ics_startMinute attributes = 0.
Proof.
  unfold eventAttributesOf.
  set (h := match itemProp (js "duration") item with Some _ => _ | None => _ end).
  assert (h = durationHours (itemProp (js "duration") item)) as ->.
  { unfold h, durationHours. by destruct (itemProp (js "duration") item). }
  destruct (durationHours _) as [hours|]; [|done]. cbn [mbind result_bind].
  destruct (match itemProp (js "task") item with Some _ => _ | None => _ end) as [title|];
    [|done].
  cbn [mbind result_bind].
  destruct (stringOf _) as [text|]; [|done]. cbn [mbind result_bind].
  by intros [= <-].
Qed.

(** X13.  The calendar file and the calendar synchronisation, which read
    the duration of a plan item each by its own lines, agree on the length
    of an event: the hours [createICSFile] gives the event of a plan item
    are the hours the synchronisation reads from the item, by which it
    moves the host's clock from the start to the end of the event it
    derives; on a host whose time zone keeps one offset from UTC the end
    is the start plus these hours.  Both events start at nine o'clock. *)
Theorem eventAttributesOf_hours (goal : str) (item : PlanItem)
    (attributes : EventAttributes) (event : CalendarEvent) :
  eventAttributesOf host goal item = Ok attributes ->
  calendarEventOf host item = Ok event ->
  durationHours (itemProp (js "duration") item) = Ok (ics_hours attributes)
  /\ ics_startHour attributes = 9 /\ ics_startMinute attributes = 0
  /\ nineOClock host (date item) = Some (start event)
  /\ addHours host (Some (start event)) (ics_hours attributes) = Some (end_ event)
  /\ forall tz, fixedOffset host tz ->
       start event = date item * msPerDay + 9 * msPerHour - tz
       /\ end_ event = start event + ics_hours attributes * msPerHour.
Proof.
  intros (Hh & _ & H9 & H0)%eventAttributesOf_inv Hev.
  pose proof Hev as (hours & Hh' & _ & _ & Hs & He)%calendarEventOf_inv.
  rewrite Hh in Hh'. injection Hh' as <-.
  repeat (split; [done|]). intros tz Hfix.
  apply (calendarEventOf_fixed host tz) in Hev as (hours' & Hh' & _ & _ & Hs' & He');
    [|done].
  rewrite Hh in Hh'. by injection Hh' as <-.
Qed.

Lemma localDay_startOfDay (tz day : Z) :
  fixedOffset host tz ->
  - msPerDay < tz < msPerDay ->
  Z.abs (day * msPerDay) + msPerDay <= maxTimeValue ->
  localDay host (startOfDay host (dateOfDay day))
  = Some (if tz <? 0 then day - 1 else day).
Proof.
  intros Hfix Htz Hrange. unfold dateOfDay, startOfDay, localDay.
  rewrite TimeClip_in_range by lia. cbn [mbind option_bind].
  unfold UTC, LocalTime. rewrite !Hfix.
  assert ((day * msPerDay + tz) / msPerDay = if tz <? 0 then day - 1 else day) as ->.
  { rewrite Z.div_add_l by done.
    destruct (Z.ltb_spec tz 0).
    - replace (tz / msPerDay) with (-1); [lia|].
      apply Z.div_unique with (r := tz + msPerDay); unfold msPerDay in *; lia.
    - rewrite Z.div_small by lia. lia. }
  rewrite TimeClip_in_range.
  2:{ unfold msPerDay, maxTimeValue in *. destruct (Z.ltb_spec tz 0); lia. }
  cbn [mbind option_bind]. rewrite Hfix. f_equal.
  replace (_ - tz + tz) with ((if tz <? 0 then day - 1 else day) * msPerDay) by lia.
  by rewrite Z.div_mul.
Qed.

(** X14.  The day of an event of the calendar file, on a host whose time
    zone keeps one offset from UTC.  The date of the plan item is read as
    midnight UTC and then moved to the start of the local day: east of
    Greenwich (or on it) the event is on the date of the item, west of it
    on the day before.  The synchronisation puts the event of the same item on
    the date of the item in both cases. *)
Theorem eventAttributesOf_day (tz : Z) (goal : str) (item : PlanItem)
    (attributes : EventAttributes) :
  fixedOffset host tz ->
  - msPerDay < tz < msPerDay ->
  Z.abs (date item * msPerDay) + msPerDay <= maxTimeValue ->
  eventAttributesOf host goal item = Ok attributes ->
  ics_startDay attributes
  = Some (if tz <? 0 then date item - 1 else date item)
  /\ forall event, calendarEventOf host item = Ok event -> ev_date event = date item.
Proof.
  intros Hfix Htz Hrange (_ & -> & _)%eventAttributesOf_inv. split.
  - by apply localDay_startOfDay.
  - by intros event (hours & _ & _ & Hd & _)%calendarEventOf_inv.
Qed.

Lemma eventAttributesOf_fallbackItemAt (goal : str) (t i : Z) :
  eventAttributesOf host goal (fallbackItemAt goal t i)
  = Ok {| ics_title :=
            JStr (js "Work on: " ++ goal ++ js " (Day " ++ digitsOf (Z.to_N i) ++ js ")");
          ics_description :=
            (js "Day " ++ digitsOf (Z.to_N i) ++ js " tasks and milestones")
            ++ [LF; LF] ++ js "Goal: " ++ goal;
          ics_startDay :=
            localDay host (startOfDay host (dateOfDay (isoDate t + (i - 1))));
          ics_startHour := 9;
          ics_startMinute := 0;
          ics_hours := 2 |}.
Proof. reflexivity. Qed.

Context (createEvents : list EventAttributes -> option str * option str).

(** X15.  The calendar file of the plan without AI, on a host whose time
    zone keeps one offset from UTC.  For a start date whose next fifteen
    days are in the range of [Date], [createICSFile] hands fourteen events
    to the calendar library, one for each day (the day before the date of
    the item west of Greenwich), each of two hours from nine o'clock and
    titled with the task of the day; its result is the text the library
    gives (the empty text when it gives none), and its only failure is the
    error of the library. *)
Theorem createICSFile_of_fallbackPlan (tz : Z) (goal : str) (t : Z) :
  fixedOffset host tz ->
  Z.abs t + 15 * msPerDay <= maxTimeValue ->
  - msPerDay < tz < msPerDay ->
  exists plan events,
    fallbackPlan host goal (Some t) = Ok plan
    /\ length events = 14%nat
    /\ (forall (j : nat) (e : EventAttributes), events !! j = Some e ->
          ics_hours e = 2 /\ ics_startHour e = 9 /\ ics_startMinute e = 0
          /\ ics_title e
             = JStr (js "Work on: " ++ goal ++ js " (Day "
                     ++ digitsOf (Z.to_N (Z.of_nat j + 1)) ++ js ")")
          /\ ics_startDay e
             = Some (isoDate t + Z.of_nat j + (if tz <? 0 then -1 else 0)))
    /\ createICSFile host createEvents plan goal
       = match createEvents events with
         | (Some errorMessage, _) =>
             Throw (Error (js "Failed to create calendar file: " ++ errorMessage))
         | (None, value) => Ok (orElse value [])
         end.
Proof.
  intros Hfix Hrange Htz.
  eexists. rewrite (fallbackPlan_run host tz) by done.
  destruct (mapWithIndex_total (fun item (_ : Z) => eventAttributesOf host goal item)
              ((fun j : nat => fallbackItemAt goal t (1 + Z.of_nat j)) <$> seq 0 14) 0)
    as [events Hev].
  { intros j item [_ ->]%fallbackPlan_lookup.
    rewrite eventAttributesOf_fallbackItemAt. by eexists. }
  exists events. split; [done|].
  destruct (mapWithIndex_spec _ _ _ _ Hev) as [Hlen H].
  split; [by rewrite Hlen|]. split.
  - intros j e Hj. destruct (H j e Hj) as (item & [Hlt ->]%fallbackPlan_lookup & He).
    rewrite eventAttributesOf_fallbackItemAt in He. injection He as <-.
    cbn [ics_hours ics_startHour ics_startMinute ics_title ics_startDay].
    replace (1 + Z.of_nat j) with (Z.of_nat j + 1) by lia.
    do 4 (split; [done|]).
    rewrite (localDay_startOfDay tz); [f_equal; destruct (tz <? 0); lia|done..|].
    unfold isoDate.
    pose proof (Z.div_mod t msPerDay ltac:(done)) as Hdm.
    pose proof (Z.mod_pos_bound t msPerDay ltac:(done)) as Hmod.
    unfold msPerDay, maxTimeValue in *. lia.
  - unfold createICSFile. by rewrite Hev.
Qed.

End CalendarFile.

Import Samples MoreSamples.

Lemma generateTwoWeekPlan_total_witness :
  exists plan,
    generateTwoWeekPlan hostEpoch (net := netDown) None goalPrompt (js "Ship the beta") []
      (Some 0) []
    = Ok plan.
Proof.
  destruct (generateTwoWeekPlan_total hostEpoch (net := netDown) None goalPrompt 0
              (js "Ship the beta") [] 0 []) as (plan & E & _).
  - intros t isUTC. reflexivity.
  - vm_compute. discriminate.
  - exists plan. exact E.
Defined.

Lemma generateTwoWeekPlan_fallback_witness :
  exists plan,
    generateTwoWeekPlan hostEpoch (net := netDown) (Some (js "AIza_key")) goalPrompt
      (js "Ship the beta") [] (Some 0) []
    = Ok plan
    /\ length plan = 14%nat.
Proof.
  destruct (generateTwoWeekPlan_fallback hostEpoch (net := netDown)
              (Some (js "AIza_key")) goalPrompt 0 (js "Ship the beta") [] 0 [])
    as (plan & E & Hl & _).
  - intros t isUTC. reflexivity.
  - vm_compute. discriminate.
  - right. exists (js "AIza_key"). split; [reflexivity|]. left.
    exists (js "fetch failed"). reflexivity.
  - exists plan. split; [exact E|exact Hl].
Defined.

Lemma eventAttributesOf_hours_witness :
  exists attributes event,
    eventAttributesOf hostEpoch (js "Ship the beta") interviewItem = Ok attributes
    /\ calendarEventOf hostEpoch interviewItem = Ok event
    /\ ics_hours attributes = 3
    /\ end_ event = start event + ics_hours attributes * msPerHour.
Proof.
  eexists _, _. split; [reflexivity|]. split; [reflexivity|]. split; [reflexivity|].
  destruct (eventAttributesOf_hours hostEpoch (js "Ship the beta") interviewItem
              _ _ eq_refl eq_refl) as (_ & _ & _ & _ & _ & Hfix).
  apply (Hfix 0). intros t isUTC. reflexivity.
Defined.

Lemma eventAttributesOf_day_witness :
  exists attributes,
    eventAttributesOf hostWest (js "Ship the beta") interviewItem = Ok attributes
    /\ ics_startDay attributes = Some 0.
Proof.
  eexists. split; [reflexivity|].
  apply (eventAttributesOf_day hostWest (-18000000) (js "Ship the beta") interviewItem _).
  - intros t isUTC. reflexivity.
  - split; reflexivity.
  - vm_compute. discriminate.
  - reflexivity.
Defined.

Lemma createICSFile_of_fallbackPlan_witness :
  exists plan,
    fallbackPlan hostWest (js "Ship the beta") (Some 0) = Ok plan
    /\ createICSFile hostWest icsLibrary plan (js "Ship the beta")
       = Ok (js "BEGIN:VCALENDAR").
Proof.
  destruct (createICSFile_of_fallbackPlan hostWest icsLibrary (-18000000)
              (js "Ship the beta") 0)
    as (plan & events & H1 & _ & _ & H2).
  - intros t isUTC. reflexivity.
  - vm_compute. discriminate.
  - split; reflexivity.
  - exists plan. split; [exact H1|exact H2].
Defined.

End PlannerFacts.

(** ** The health check and the agents *)

Module AgentsFacts.
Import JSStr JSON Exn JSValue JSDate Api JSObject Agents.
Import JSStrFacts TextFacts ServerFacts.

Lemma orDefault_falsy (a : option json) (d : json) :
  truthy a = false -> orDefault a d = d.
Proof. unfold orDefault. destruct a; [by intros ->|done]. Qed.

Section Endpoints.
Context (host : Host) {net : Backends}.
Context (geminiKey openaiKey : option str).
Context (strategyPrompt advisoryPrompt : json -> result str).

(** X16.  With the OpenAI key as the only key, the health check reports a key,
    and both agents let the request pass their key check; but they call
    Gemini, with the empty key.  When Gemini rejects the empty key, both
    agents answer with the status 500. *)
Theorem agents_openai_key_only (key : str) (body : json) (msg : str) :
  isSet geminiKey = None -> isSet openaiKey = Some key ->
  (forall model prompt, geminiGenerateContent [] model prompt = inl msg) ->
  body <> JNull -> truthy (prop (js "message") body) = true ->
  hasKey (health geminiKey openaiKey) = true
  /\ provider (health geminiKey openaiKey) = OpenAI
  /\ keyLength (health geminiKey openaiKey) = 0%nat
  /\ (exists aiError,
        strategy host geminiKey openaiKey strategyPrompt body = AgentFailed aiError)
  /\ (exists aiError,
        customerAdvisory host geminiKey openaiKey advisoryPrompt body
        = AgentFailed aiError).
Proof.
  intros Hg Ho Hnet Hbody Hmsg.
  assert (orElse geminiKey [] = []) as Hkey by (by destruct geminiKey as [[|c k]|]).
  unfold health. rewrite Hg, Ho, Hkey. do 3 (split; [done|]).
  assert (forall A (r r' : AgentResponse A),
            match body with JNull => r | _ => r' end = r') as Hnull
    by (intros; by destruct body).
  unfold strategy, customerAdvisory, apiKey, generateContent.
  rewrite !Hnull, Hg, Ho, Hkey, Hmsg. cbn [negb].
  split.
  - destruct (strategyPrompt body) as [prompt|e]; cbn [mbind result_bind].
    + rewrite Hnet. cbn [mbind result_bind]. by eexists.
    + by eexists.
  - destruct (advisoryPrompt body) as [prompt|e]; cbn [mbind result_bind].
    + rewrite Hnet. cbn [mbind result_bind]. by eexists.
    + by eexists.
Qed.

(** X17.  The strategy agent parses the reply of the model without the
    fallback of the providers: a reply that (trimmed and without fences) is no
    JSON text is answered with the status 500 and the syntax error, also when
    it holds an object between braces that [generateJSON] of the Gemini
    provider would return. *)
Theorem strategy_no_brace_fallback (body : json) (key prompt text : str) :
  body <> JNull -> apiKey geminiKey openaiKey = Some key ->
  strategyPrompt body = Ok prompt ->
  geminiGenerateContent (orElse geminiKey []) gemini_defaultModel prompt = inr text ->
  parse (stripFences (trim text)) = None ->
  strategy host geminiKey openaiKey strategyPrompt body
  = AgentFailed (SyntaxError (stripFences (trim text)))
  /\ forall span v,
       matchBraces (stripFences (trim text)) = Some span -> parse span = Some v ->
       extractJSON (js "Gemini") text = Ok v.
Proof.
  intros Hbody Hk Hp Ht Hparse. split.
  - unfold strategy, generateContent, JSON_parse. rewrite Hk, Hp. cbn [mbind result_bind].
    rewrite Ht. cbn [mbind result_bind]. cbv zeta. rewrite Hparse.
    by destruct body.
  - intros span v Hs Hv. unfold extractJSON, try_catch, JSON_parse. cbv zeta.
    by rewrite Hparse, Hs, Hv.
Qed.

(** X18.  A reply that is JSON other than [null] and gives none of the
    twelve fields of a strategy a truthy value (an empty object, a number,
    an array, an object with other fields only) is answered as a success:
    every field of the data is its default, the North Star being made from
    the market and the segment of the request, and the constraints being
    those of the request.  The reply [null] is answered as a failure of the
    generation (status 500), with the error of reading a field of
    [null]. *)
Theorem strategy_defaults (body aiData : json) (key prompt text market segment : str) :
  body <> JNull -> apiKey geminiKey openaiKey = Some key ->
  strategyPrompt body = Ok prompt ->
  geminiGenerateContent (orElse geminiKey []) gemini_defaultModel prompt = inr text ->
  parse (stripFences (trim text)) = Some aiData ->
  (aiData = JNull ->
   strategy host geminiKey openaiKey strategyPrompt body
   = AgentFailed
       (TypeError (js "Cannot read properties of null (reading 'executiveSummary')")))
  /\ (aiData <> JNull ->
      (forall k,
         k ∈ [js "executiveSummary"; js "northStar"; js "marketOpportunity";
              js "competitiveLandscape"; js "strategicRecommendations"; js "icps";
              js "successMetrics"; js "goToMarketConsiderations";
              js "risksAndChallenges"; js "timelineAndMilestones"; js "constraints";
              js "prd"] ->
         truthy (prop k aiData) = false) ->
      stringOf (orValue (prop (js "market") body) (Some (JStr (js "product")))) = Ok market ->
      stringOf (orValue (prop (js "segment") body) (Some (JStr (js "customers"))))
      = Ok segment ->
      Z.abs (now host) <= maxTimeValue ->
      strategy host geminiKey openaiKey strategyPrompt body
      = AgentOk
          {| executiveSummary := JStr [];
             northStar :=
               JStr (js "Build the leading " ++ market ++ js " solution for " ++ segment);
             marketOpportunity := JStr [];
             competitiveLandscape := JStr [];
             strategicRecommendations := JArr [];
             icps := JArr [];
             successMetrics := JArr [];
             goToMarketConsiderations := JArr [];
             risksAndChallenges := JArr [];
             timelineAndMilestones := JStr [];
             constraints := orDefault (prop (js "constraints") body) (JArr []);
             prd := JStr defaultPrd |}
          (now host)).
Proof.
  intros Hbody Hk Hp Ht Hparse.
  assert (strategy host geminiKey openaiKey strategyPrompt body
          = match (data ← strategyData body aiData;
                   timestamp ← toISOString (TimeClip (now host));
                   Ok (AgentOk data timestamp)) with
            | Ok response => response
            | Throw aiError => AgentFailed aiError
            end) as ->.
  { unfold strategy, generateContent, JSON_parse. rewrite Hk, Hp. cbn [mbind result_bind].
    rewrite Ht. cbn [mbind result_bind]. cbv zeta. rewrite Hparse. cbn [mbind result_bind].
    by destruct body. }
  split; [by intros ->|].
  intros Hai Hfalsy Hm Hs Hnow.
  assert (strategyData body aiData
          = Ok {| executiveSummary := JStr [];
                  northStar :=
                    JStr (js "Build the leading " ++ market ++ js " solution for " ++ segment);
                  marketOpportunity := JStr [];
                  competitiveLandscape := JStr [];
                  strategicRecommendations := JArr [];
                  icps := JArr [];
                  successMetrics := JArr [];
                  goToMarketConsiderations := JArr [];
                  risksAndChallenges := JArr [];
                  timelineAndMilestones := JStr [];
                  constraints := orDefault (prop (js "constraints") body) (JArr []);
                  prd := JStr defaultPrd |}) as ->.
  { unfold strategyData.
    rewrite !(orDefault_falsy (prop _ aiData)) by (apply Hfalsy; compute_done).
    assert (truthy (prop (js "northStar") aiData) = false) as Hn
      by (apply Hfalsy; compute_done).
    destruct (prop (js "northStar") aiData) as [v|]; [rewrite Hn|];
      rewrite Hm, Hs; cbn [mbind result_bind]; by destruct aiData. }
  cbn [mbind result_bind].
  by rewrite TimeClip_in_range by done.
Qed.

(** X19.  A success answer of the customer agent means that a key is set and a
    message was given, and its message is the reply of the model trimmed: it
    neither starts nor ends with white space. *)
Theorem customerAdvisory_trimmed (body : json) (message : str) (timestamp : Z) :
  customerAdvisory host geminiKey openaiKey advisoryPrompt body
  = AgentOk message timestamp ->
  apiKey geminiKey openaiKey <> None
  /\ truthy (prop (js "message") body) = true
  /\ (exists prompt text,
        advisoryPrompt body = Ok prompt
        /\ geminiGenerateContent (orElse geminiKey []) gemini_defaultModel prompt = inr text
        /\ message = trim text)
  /\ forall c, head message = Some c \/ last message = Some c -> isWhiteSpace c = false.
Proof.
  unfold customerAdvisory, generateContent. intros H.
  assert (body <> JNull) as Hbody by (intros ->; done).
  destruct (apiKey geminiKey openaiKey) as [key|]; [|by destruct body].
  destruct (truthy (prop (js "message") body)); [|by destruct body].
  cbn [negb] in H.
  destruct (advisoryPrompt body) as [prompt|e]; cbn [mbind result_bind] in H;
    [|by destruct body].
  destruct (geminiGenerateContent _ _ prompt) as [msg|text] eqn:Et;
    cbn [mbind result_bind] in H; [by destruct body|].
  destruct (toISOString _) as [ts|e]; cbn [mbind result_bind] in H; [|by destruct body].
  assert (message = trim text) as -> by (destruct body; congruence).
  split; [done|]. split; [done|]. split; [by exists prompt, text|].
  apply trim_clean.
Qed.

End Endpoints.

Import Samples MoreSamples.

Lemma agents_openai_key_only_witness :
  hasKey (health None (Some (js "sk-key"))) = true
  /\ exists aiError,
       strategy hostEpoch (net := netDown) None (Some (js "sk-key")) fixedPrompt
         marketBody
       = AgentFailed aiError.
Proof.
  destruct (agents_openai_key_only hostEpoch (net := netDown) None
              (Some (js "sk-key")) fixedPrompt fixedPrompt (js "sk-key") marketBody
              (js "fetch failed")) as (H1 & _ & _ & H2 & _).
  - reflexivity.
  - reflexivity.
  - reflexivity.
  - discriminate.
  - reflexivity.
  - split; [exact H1|exact H2].
Defined.

Lemma strategy_no_brace_fallback_witness :
  strategy hostEpoch (net := netReplying proseWithObject) (Some (js "AIza_key")) None
    fixedPrompt marketBody
  = AgentFailed (SyntaxError proseWithObject)
  /\ extractJSON (js "Gemini") proseWithObject = Ok (JObj [(js "a", JNum 1 0)]).
Proof.
  destruct (strategy_no_brace_fallback hostEpoch
              (net := netReplying proseWithObject) (Some (js "AIza_key")) None fixedPrompt
              marketBody (js "AIza_key") (js "Act as instructed.") proseWithObject)
    as [H1 H2].
  - discriminate.
  - reflexivity.
  - reflexivity.
  - reflexivity.
  - reflexivity.
  - split; [exact H1|]. apply (H2 sampleObject); reflexivity.
Defined.

Lemma strategy_defaults_witness :
  exists data,
    strategy hostEpoch (net := netReplying (js "42")) (Some (js "AIza_key")) None
      fixedPrompt marketBody
    = AgentOk data 0
    /\ northStar data
       = JStr (js "Build the leading fintech solution for customers").
Proof.
  eexists. split.
  - destruct (strategy_defaults hostEpoch (net := netReplying (js "42"))
                (Some (js "AIza_key")) None fixedPrompt marketBody (JNum 42 0)
                (js "AIza_key") (js "Act as instructed.") (js "42") (js "fintech")
                (js "customers")) as [_ H].
    + discriminate.
    + reflexivity.
    + reflexivity.
    + reflexivity.
    + reflexivity.
    + apply H.
      * discriminate.
      * intros k _. reflexivity.
      * reflexivity.
      * reflexivity.
      * vm_compute. discriminate.
  - reflexivity.
Defined.

(** The reply [null] and a reply with another field only. *)
Lemma strategy_reply_null :
  strategy hostEpoch (net := netReplying (js "null")) (Some (js "AIza_key")) None
    fixedPrompt marketBody
  = AgentFailed
      (TypeError (js "Cannot read properties of null (reading 'executiveSummary')")).
Proof. reflexivity. Qed.

Lemma strategy_reply_other_field :
  parse (js "{" ++ [34; 102; 111; 111; 34]%N ++ js ":1}")
  = Some (JObj [(js "foo", JNum 1 0)])
  /\ exists data,
       strategy hostEpoch (net := netReplying (js "{" ++ [34; 102; 111; 111; 34]%N ++ js ":1}"))
         (Some (js "AIza_key")) None fixedPrompt marketBody
       = AgentOk data 0
       /\ executiveSummary data = JStr []
       /\ northStar data = JStr (js "Build the leading fintech solution for customers")
       /\ icps data = JArr [].
Proof. split; [reflexivity|]. eexists. split; [reflexivity|]. by repeat split. Qed.

Lemma customerAdvisory_trimmed_witness :
  customerAdvisory hostEpoch (net := netReplying (js "  I need exports. "))
    (Some (js "AIza_key")) None fixedPrompt marketBody
  = AgentOk (js "I need exports.") 0
  /\ truthy (prop (js "message") marketBody) = true.
Proof.
  split; [reflexivity|].
  apply (customerAdvisory_trimmed hostEpoch
           (net := netReplying (js "  I need exports. ")) (Some (js "AIza_key")) None
           fixedPrompt marketBody (js "I need exports.") 0 eq_refl).
Defined.

End AgentsFacts.

(** ** Sessions and their credentials *)

Module SessionFacts.
Import JSStr JSON Exn JSValue JSDate Api Server OAuth.
Import JSStrFacts ServerFacts.

Section Sessions.
Context (host : Host) (google : Google).

Lemma newSessionId_set (random : str) :
  isSet (Some (newSessionId host random)) = Some (newSessionId host random).
Proof. done. Qed.

(** X20.  The OAuth callback always redirects.  It leaves the world as it was
    when it redirects with an error; it redirects with a session only when
    OAuth is set up and the exchange of a code that is not empty gave a
    credential, and then the one change is that credential stored under the
    new session.  It never makes an insert call. *)
Theorem authCallback_writes_once (code : option str) (random : str) (w : World) :
  exists r w',
    authCallback host google code random w = (Ok r, w')
    /\ insertCalls w' = insertCalls w
    /\ match r with
       | RedirectError _ => w' = w
       | RedirectSuccess sid =>
           sid = newSessionId host random
           /\ oauth2Client google = true
           /\ exists c tokens,
                code = Some c /\ c <> [] /\ getToken google c = Some tokens
                /\ tokenStore w' = <[sid := tokens]> (tokenStore w)
       end.
Proof.
  unfold authCallback. destruct (oauth2Client google); simpl; [|by eexists _, _].
  destruct (isSet code) as [c|] eqn:Ec; [|by eexists _, _].
  apply isSet_Some in Ec as [-> Hc].
  destruct (getToken google c) as [tokens|] eqn:Et; [|by eexists _, _].
  eexists _, _. split; [reflexivity|]. split; [done|].
  split; [done|]. split; [done|]. by exists c, tokens.
Qed.

(** X21.  The session a successful callback hands out is authorised: the next
    creation step under that session finds the credential, does not ask for
    authorisation, makes one insert per event with the access token of the
    credential and reports the inserts that answered with a link.  The
    credentials of the other sessions are as before. *)
Theorem authCallback_then_materialize (code random accessToken : str)
    (tokens : Credentials) (calendarEvents : list CalendarEvent) (w : World) :
  oauth2Client google = true -> code <> [] -> getToken google code = Some tokens ->
  isSet (access_token tokens) = Some accessToken ->
  useCredentials google accessToken = None ->
  exists w1 m w2,
    authCallback host google (Some code) random w
    = (Ok (RedirectSuccess (newSessionId host random)), w1)
    /\ (forall other, other <> newSessionId host random ->
          tokenStore w1 !! other = tokenStore w !! other)
    /\ materialize host google (Some (newSessionId host random)) calendarEvents w1
       = (Ok m, w2)
    /\ needsAuth m = false
    /\ eventLinks m
       = successLinks (insertOutcomes host google (insertCalls w) accessToken calendarEvents)
    /\ eventsCreated m = Z.of_nat (length (eventLinks m))
    /\ insertCalls w2
       = insertCalls w
         ++ ((fun event => (accessToken, insertRequestOf host event)) <$> calendarEvents)
    /\ tokenStore w2 = tokenStore w1.
Proof.
  intros Hc Hcode Ht Htok Hu.
  unfold authCallback. rewrite Hc, ApiFacts.isSet_set, Ht by done. cbn [negb].
  eexists _, _, _. split; [reflexivity|].
  split; [intros other Ho; simpl; by rewrite lookup_insert_ne|].
  unfold materialize. rewrite newSessionId_set.
  unfold mbind at 1, M_bind at 1.
  erewrite readToken_own by (simpl; apply lookup_insert_eq).
  unfold tryM. rewrite Htok.
  unfold mbind, M_bind. rewrite createEvents_run, createLoop_run by done.
  split; [reflexivity|]. simpl. split; [done|]. split; [done|].
  split; [lia|]. by split.
Qed.

(** X22.  When the calendar client rejects the credential of a session with a
    message that mentions an invalid grant or an expiry, the creation step
    removes that credential and asks for authorisation without any insert
    call; the session then counts as unknown, so that the next request under
    it is asked to authorise again.  The other sessions keep their
    credentials. *)
Theorem materialize_invalidates (sid accessToken msg : str) (tokens : Credentials)
    (calendarEvents : list CalendarEvent) (w : World) :
  sid <> [] -> sid ∉ inheritedNames ->
  tokenStore w !! sid = Some tokens ->
  isSet (access_token tokens) = Some accessToken ->
  oauth2Client google = true -> useCredentials google accessToken = Some msg ->
  includes msg (js "invalid_grant") || includes msg (js "expired") = true ->
  exists w1,
    materialize host google (Some sid) calendarEvents w
    = (Ok {| eventsCreated := 0; eventLinks := []; needsAuth := true |}, w1)
    /\ tokenStore w1 = delete sid (tokenStore w)
    /\ insertCalls w1 = insertCalls w
    /\ (forall other, other <> sid -> tokenStore w1 !! other = tokenStore w !! other)
    /\ forall events,
         materialize host google (Some sid) events w1
         = (Ok {| eventsCreated := 0; eventLinks := []; needsAuth := true |}, w1).
Proof.
  intros Hsid Hin Hst Htok Hc Hu Hmsg. unfold materialize at 1.
  rewrite ApiFacts.isSet_set by done.
  unfold mbind at 1, M_bind at 1. rewrite (readToken_own _ _ _ Hst).
  unfold tryM. rewrite Htok.
  unfold mbind, M_bind, createEventsInGoogleCalendar, tryM, throwM.
  rewrite Hc, Hu. cbn [negb message]. rewrite Hmsg.
  eexists. split; [reflexivity|]. cbn [tokenStore insertCalls deleteToken].
  split; [done|]. split; [done|].
  split; [intros other Ho; by rewrite lookup_delete_ne|].
  intros events. apply materialize_no_credential.
  intros sid' [= <-]. split; [apply lookup_delete_eq|done].
Qed.

(** X23.  When the client rejects the credential with any other message, the
    creation step reports nothing created and does not ask for authorisation;
    the credential stays, no insert call is made, and the request is answered
    with the plan alone, as a success. *)
Theorem materialize_other_error_silent (sid accessToken msg : str) (tokens : Credentials)
    (plan : list PlanItem) (calendarEvents : list CalendarEvent) (w : World) :
  sid <> [] -> tokenStore w !! sid = Some tokens ->
  isSet (access_token tokens) = Some accessToken ->
  oauth2Client google = true -> useCredentials google accessToken = Some msg ->
  includes msg (js "invalid_grant") = false -> includes msg (js "expired") = false ->
  materialize host google (Some sid) calendarEvents w
  = (Ok {| eventsCreated := 0; eventLinks := []; needsAuth := false |}, w)
  /\ respond google plan calendarEvents
       {| eventsCreated := 0; eventLinks := []; needsAuth := false |}
     = PlanOnly plan calendarEvents.
Proof.
  intros Hsid Hst Htok Hc Hu H1 H2. split; [|done]. unfold materialize.
  rewrite ApiFacts.isSet_set by done.
  unfold mbind at 1, M_bind at 1. rewrite (readToken_own _ _ _ Hst).
  unfold tryM. rewrite Htok.
  unfold mbind, M_bind, createEventsInGoogleCalendar, tryM, throwM.
  rewrite Hc, Hu. cbn [negb message]. by rewrite H1, H2.
Qed.

(** X24.  The answer of the creation step and the authorisation endpoint
    agree: when the request is answered with an authorisation URL, it is the
    URL the endpoint returns, and when it is answered that OAuth is not
    configured, the endpoint answers the same.  Either answer is given only
    when nothing was created and authorisation is needed. *)
Theorem respond_matches_authUrlEndpoint (plan : list PlanItem)
    (calendarEvents : list CalendarEvent) (m : Materialized) :
  match respond google plan calendarEvents m with
  | AuthorizationNeeded authUrl _ _ =>
      authUrlEndpoint google = AuthUrl authUrl
      /\ needsAuth m = true /\ eventsCreated m <= 0
  | OAuthNotConfigured _ _ =>
      (exists error, authUrlEndpoint google = NotConfigured error)
      /\ needsAuth m = true /\ eventsCreated m <= 0
  | EventsCreated _ _ created links =>
      0 < created /\ created = eventsCreated m /\ links = eventLinks m
  | PlanOnly _ _ => needsAuth m = false /\ eventsCreated m <= 0
  | BadRequest _ | ServerError _ => False
  end.
Proof.
  unfold respond, authUrlEndpoint.
  destruct (Z.ltb_spec 0 (eventsCreated m)); [done|].
  destruct (needsAuth m); [|done].
  destruct (_ || _ || _); [|done]. split; [by eexists|done].
Qed.

End Sessions.

Section Handler.
Context (host : Host) {net : Backends} (google : Google) (key : option str).
Context (schedulePrompt : json -> list ChatMessage -> result str).

(** The creation step always answers.  When it does not ask for
    authorisation it leaves the token store as it was and keeps the insert
    calls made before; when it asks for authorisation it has created
    nothing and made no insert call, and the token store is as before or
    as before without the credential of the session. *)
Lemma materialize_world (sessionId : option str)
    (calendarEvents : list CalendarEvent) (w : World) :
  exists m w',
    materialize host google sessionId calendarEvents w = (Ok m, w')
    /\ (needsAuth m = false ->
        tokenStore w' = tokenStore w
        /\ exists calls, insertCalls w' = insertCalls w ++ calls)
    /\ (needsAuth m = true ->
        eventsCreated m = 0 /\ insertCalls w' = insertCalls w
        /\ (tokenStore w' = tokenStore w
            \/ exists sid, sessionId = Some sid
                           /\ tokenStore w' = delete sid (tokenStore w))).
Proof.
  assert (exists calls, insertCalls w = insertCalls w ++ calls) as Hnil
    by (exists []; by rewrite app_nil_r).
  unfold materialize.
  destruct (isSet sessionId) as [sid|] eqn:Es;
    [|eexists _, _; split; [reflexivity|split; [done|by repeat split; try left]]].
  apply isSet_Some in Es as [-> _].
  unfold mbind at 1, M_bind at 1.
  destruct (readToken_run sid w) as [[tokens|] ->];
    [|eexists _, _; split; [reflexivity|split; [done|by repeat split; try left]]].
  unfold tryM.
  destruct (isSet (access_token tokens)) as [accessToken|];
    [|eexists _, _; split; [reflexivity|split; [done|done]]].
  unfold mbind, M_bind, createEventsInGoogleCalendar, tryM, throwM.
  destruct (oauth2Client google); simpl.
  - destruct (useCredentials google accessToken) as [msg|]; simpl.
    + destruct (includes _ _ || includes _ _); simpl.
      * eexists _, _; split; [reflexivity|]. simpl.
        split; [done|]. intros _. split; [done|]. split; [done|]. right. by exists sid.
      * eexists _, _; split; [reflexivity|]. by split.
    + rewrite createLoop_run. eexists _, _; split; [reflexivity|]. simpl.
      split; [|done]. intros _. split; [done|by eexists].
  - eexists _, _; split; [reflexivity|]. by split.
Qed.

(** X25.  Whatever the request, the synchronisation endpoint answers, keeps
    the insert calls made before, and never adds a credential: the token
    store is as before, or as before without the credential of the session
    of the request.  A request answered with the status 400, or with the
    status 500 and the message of an error, leaves the world as it was.
    The answers that ask for authorisation or say that OAuth is not
    configured (the latter also with the status 500) come without any new
    insert call, but the credential of the session may have been deleted
    before them.  The two success answers leave the token store as it
    was. *)
Theorem syncCalendar_world (body : SyncRequest) (w : World) :
  exists r w',
    syncCalendar host google key schedulePrompt body w = (Ok r, w')
    /\ (tokenStore w' = tokenStore w
        \/ exists sid, sessionId body = Some sid
                       /\ tokenStore w' = delete sid (tokenStore w))
    /\ (exists calls, insertCalls w' = insertCalls w ++ calls)
    /\ match r with
       | BadRequest _ | ServerError _ => w' = w
       | OAuthNotConfigured _ _ | AuthorizationNeeded _ _ _ =>
           insertCalls w' = insertCalls w
       | EventsCreated _ _ _ _ | PlanOnly _ _ => tokenStore w' = tokenStore w
       end.
Proof.
  assert (exists calls, insertCalls w = insertCalls w ++ calls) as Hnil
    by (exists []; by rewrite app_nil_r).
  unfold syncCalendar, tryM.
  destruct (strategyData body) as [strategy|];
    [|eexists _, _; split; [reflexivity|split; [by left|done]]].
  destruct (truthy (Some strategy));
    [|eexists _, _; split; [reflexivity|split; [by left|done]]].
  destruct (customerMessages body) as [[|msg msgs]|];
    [eexists _, _; split; [reflexivity|split; [by left|done]]| |
     eexists _, _; split; [reflexivity|split; [by left|done]]].
  unfold mbind, M_bind, liftM.
  destruct (generateScheduleFromStrategyAndChat _ _ _ _ _) as [plan|e];
    [|eexists _, _; split; [reflexivity|split; [by left|done]]].
  destruct (calendarEventsOf host plan) as [events|e];
    [|eexists _, _; split; [reflexivity|split; [by left|done]]].
  destruct (materialize_world (sessionId body) events w) as (m & w' & -> & Hno & Hyes).
  eexists _, _. split; [reflexivity|].
  unfold respond. destruct (needsAuth m).
  - destruct (Hyes eq_refl) as (-> & Hcalls & Hstore).
    split; [done|]. split; [exists []; by rewrite app_nil_r|].
    cbn [Z.ltb Z.compare]. by destruct (_ || _ || _).
  - destruct (Hno eq_refl) as (Hstore & Hcalls).
    split; [by left|]. split; [done|]. by destruct (0 <? eventsCreated m).
Qed.

(** X26.  The synchronisation has no plan of its own to fall back on: for a
    well-formed request it answers with the status 500, and leaves the world
    as it was, when the Gemini key is not set (whatever other key is), when
    the model fails, when its reply is no JSON text, and when the reply is
    JSON but no array.  In the last case the error is that of calling [map]
    on the reply: that [null] has no properties to read when the reply is
    [null], and that [plan.map] is no function otherwise. *)
Theorem syncCalendar_no_fallback_plan (body : SyncRequest) (strategy : json)
    (msg : ChatMessage) (msgs : list ChatMessage) (w : World) :
  strategyData body = Some strategy -> truthy (Some strategy) = true ->
  customerMessages body = Some (msg :: msgs) ->
  (isSet key = None ->
     syncCalendar host google key schedulePrompt body w
     = (Ok (ServerError (Error (js "GEMINI_API_KEY is required"))), w))
  /\ forall apiKey prompt,
       isSet key = Some apiKey -> schedulePrompt strategy (msg :: msgs) = Ok prompt ->
       (forall m, geminiGenerateContent apiKey gemini_defaultModel prompt = inl m ->
          syncCalendar host google key schedulePrompt body w
          = (Ok (ServerError (Error m)), w))
       /\ (forall text, geminiGenerateContent apiKey gemini_defaultModel prompt = inr text ->
             match parse (stripFences (trim text)) with
             | None =>
                 syncCalendar host google key schedulePrompt body w
                 = (Ok (ServerError (SyntaxError (stripFences (trim text)))), w)
             | Some (JArr _) => True
             | Some JNull =>
                 syncCalendar host google key schedulePrompt body w
                 = (Ok (ServerError
                          (TypeError (js "Cannot read properties of null (reading 'map')"))),
                    w)
             | Some _ =>
                 syncCalendar host google key schedulePrompt body w
                 = (Ok (ServerError (TypeError (js "plan.map is not a function"))), w)
             end).
Proof.
  intros Hs Ht Hm.
  unfold syncCalendar, tryM. rewrite Hs, Ht, Hm.
  unfold mbind at 1, M_bind at 1, liftM at 1.
  unfold generateScheduleFromStrategyAndChat, try_catch, JSON_parse.
  split; [by intros ->|].
  intros apiKey prompt -> ->. cbn [mbind result_bind]. split.
  - by intros m ->.
  - intros text ->. cbn [mbind result_bind]. cbv zeta.
    destruct (parse (stripFences (trim text))) as [v|]; [|done].
    by destruct v.
Qed.

End Handler.

Import Samples MoreSamples.

Lemma authCallback_then_materialize_witness :
  exists w1 m w2,
    authCallback hostEpoch googleGranting (Some (js "4/0Ab")) (js "k3x9q2w1z") sampleWorld
    = (Ok (RedirectSuccess (newSessionId hostEpoch (js "k3x9q2w1z"))), w1)
    /\ materialize hostEpoch googleGranting (Some (newSessionId hostEpoch (js "k3x9q2w1z")))
         fourteenEvents w1
       = (Ok m, w2)
    /\ needsAuth m = false.
Proof.
  destruct (authCallback_then_materialize hostEpoch googleGranting
              (js "4/0Ab") (js "k3x9q2w1z") (js "ya29.access") sampleTokens fourteenEvents
              sampleWorld)
    as (w1 & m & w2 & H1 & _ & H2 & H3 & _).
  - reflexivity.
  - discriminate.
  - reflexivity.
  - reflexivity.
  - reflexivity.
  - exists w1, m, w2. split; [exact H1|]. split; [exact H2|exact H3].
Defined.

Lemma materialize_invalidates_witness :
  exists w1,
    materialize hostEpoch (googleRejecting (js "invalid_grant: Token has been expired or revoked."))
      (Some sampleSession) fourteenEvents sampleWorld
    = (Ok {| eventsCreated := 0; eventLinks := []; needsAuth := true |}, w1)
    /\ tokenStore w1 = delete sampleSession (tokenStore sampleWorld).
Proof.
  destruct (materialize_invalidates hostEpoch
              (googleRejecting (js "invalid_grant: Token has been expired or revoked."))
              sampleSession (js "ya29.access")
              (js "invalid_grant: Token has been expired or revoked.") sampleTokens
              fourteenEvents sampleWorld)
    as (w1 & H1 & H2 & _).
  - discriminate.
  - compute_done.
  - reflexivity.
  - reflexivity.
  - reflexivity.
  - reflexivity.
  - reflexivity.
  - exists w1. split; [exact H1|exact H2].
Defined.

Lemma materialize_other_error_silent_witness :
  materialize hostEpoch (googleRejecting (js "Insufficient Permission"))
    (Some sampleSession) fourteenEvents sampleWorld
  = (Ok {| eventsCreated := 0; eventLinks := []; needsAuth := false |}, sampleWorld)
  /\ respond (googleRejecting (js "Insufficient Permission")) planTwoDays fourteenEvents
       {| eventsCreated := 0; eventLinks := []; needsAuth := false |}
     = PlanOnly planTwoDays fourteenEvents.
Proof.
  apply (materialize_other_error_silent hostEpoch
           (googleRejecting (js "Insufficient Permission")) sampleSession
           (js "ya29.access") (js "Insufficient Permission") sampleTokens planTwoDays
           fourteenEvents sampleWorld).
  - discriminate.
  - reflexivity.
  - reflexivity.
  - reflexivity.
  - reflexivity.
  - reflexivity.
  - reflexivity.
Defined.

(** The answer that OAuth is not configured after the credential was
    deleted: on a server without client identifier, the calendar client
    rejects the credential of the session as expired. *)
Lemma syncCalendar_unconfigured_after_delete :
  exists plan events w',
    syncCalendar hostEpoch (net := netReplying replyTwoDays)
      (googleUnconfigured (js "Token has expired")) (Some (js "AIza_key")) somePrompt
      sessionRequest sampleWorld
    = (Ok (OAuthNotConfigured plan events), w')
    /\ tokenStore sampleWorld !! sampleSession = Some sampleTokens
    /\ tokenStore w' !! sampleSession = None
    /\ insertCalls w' = insertCalls sampleWorld.
Proof. eexists _, _, _. split; [reflexivity|]. by repeat split. Qed.

(** The replies [null] and [42] to a well-formed request. *)
Lemma syncCalendar_reply_null :
  syncCalendar hostEpoch (net := netReplying (js "null")) googleGranting
    (Some (js "AIza_key")) somePrompt wellFormedRequest sampleWorld
  = (Ok (ServerError (TypeError (js "Cannot read properties of null (reading 'map')"))),
     sampleWorld)
  /\ syncCalendar hostEpoch (net := netReplying (js "42")) googleGranting
       (Some (js "AIza_key")) somePrompt wellFormedRequest sampleWorld
     = (Ok (ServerError (TypeError (js "plan.map is not a function"))), sampleWorld).
Proof. split; reflexivity. Qed.

Lemma syncCalendar_no_fallback_plan_witness :
  syncCalendar hostEpoch (net := netDown) googleGranting None somePrompt wellFormedRequest
    sampleWorld
  = (Ok (ServerError (Error (js "GEMINI_API_KEY is required"))), sampleWorld).
Proof.
  apply (proj1 (syncCalendar_no_fallback_plan hostEpoch (net := netDown)
                  googleGranting None somePrompt wellFormedRequest (JObj [])
                  {| role := js "assistant"; content := js "I need exports." |} []
                  sampleWorld eq_refl eq_refl eq_refl)).
  reflexivity.
Defined.

End SessionFacts.

(** ** Further facts about the extraction of JSON *)

Module ExtractionFacts.
Import JSStr JSON Exn Api JSStrFacts TextFacts.

#[local] Arguments N.eqb : simpl never.

(** X27.  White space around the reply of the model does not change what
    [generateJSON] extracts from it, whether a value or an error. *)
Theorem extractJSON_ignores_padding (provider ws1 ws2 text : str) :
  forallb isWhiteSpace ws1 = true -> forallb isWhiteSpace ws2 = true ->
  extractJSON provider (ws1 ++ text ++ ws2) = extractJSON provider text.
Proof. intros H1 H2. unfold extractJSON. by rewrite trim_pad. Qed.

Lemma reFence_Some (s rest : str) :
  reFence s = Some rest -> exists mt, s = BACKTICK :: mt ++ rest.
Proof.
  unfold reFence. destruct (stripPrefix fence s) as [r|] eqn:E; [|done].
  apply stripPrefix_Some in E as ->. simpl. intros [= <-].
  destruct r as [|c r]; simpl.
  - by exists [BACKTICK; BACKTICK].
  - destruct (N.eqb_spec c LF) as [->|].
    + exists [BACKTICK; BACKTICK; LF]. done.
    + by exists [BACKTICK; BACKTICK].
Qed.

Lemma reFence_None (c : N) (s : str) :
  reFence (c :: s) = None ->
  c <> BACKTICK \/ stripPrefix [BACKTICK; BACKTICK] s = None.
Proof.
  unfold reFence, fence.
  change (stripPrefix [BACKTICK; BACKTICK; BACKTICK] (c :: s))
    with (if (BACKTICK =? c)%N then stripPrefix [BACKTICK; BACKTICK] s else None).
  destruct (N.eqb_spec BACKTICK c) as [<-|]; [|by left].
  destruct (stripPrefix [BACKTICK; BACKTICK] s); [done|by right].
Qed.

(** What is left by the removal of the fences does not start with a
    backtick unless the text did. *)
Lemma removeFence_head1 (s : str) :
  stripPrefix [BACKTICK] s = None ->
  stripPrefix [BACKTICK] (removeMatches reFence 0 s) = None.
Proof.
  destruct s as [|c s]; [done|]. intros H.
  assert (BACKTICK <> c) as Hc.
  { intros <-. cbv in H. done. }
  rewrite removeMatches_keep.
  - simpl. by destruct (N.eqb_spec BACKTICK c).
  - unfold reFence, fence. simpl. by destruct (N.eqb_spec BACKTICK c).
Qed.

Lemma removeFence_head2 (s : str) :
  stripPrefix [BACKTICK; BACKTICK] s = None ->
  stripPrefix [BACKTICK; BACKTICK] (removeMatches reFence 0 s) = None.
Proof.
  destruct s as [|c s]; [done|]. intros H.
  rewrite removeMatches_keep.
  2:{ unfold reFence, fence. simpl in *. destruct (N.eqb_spec BACKTICK c); [|done].
      destruct s as [|d s]; [done|]. simpl in *.
      by destruct (N.eqb_spec BACKTICK d). }
  simpl in *. destruct (N.eqb_spec BACKTICK c); [|done].
  pose proof (removeFence_head1 s) as H1. simpl in H1.
  destruct s as [|d s]; [done|]. simpl in H.
  destruct (N.eqb_spec BACKTICK d) as [|Hd]; [done|].
  specialize (H1 eq_refl).
  destruct (removeMatches reFence 0 (d :: s)) as [|x r]; [done|]. simpl in *.
  by destruct (N.eqb_spec BACKTICK x).
Qed.

(** No fence is left by the removal of every fence. *)
Lemma removeFence_clean (n : nat) :
  forall s : str, (length s <= n)%nat -> includes (removeMatches reFence 0 s) fence = false.
Proof.
  induction n as [|n IH]; intros s Hn.
  - destruct s; [done|simpl in Hn; lia].
  - destruct s as [|c s]; [done|].
    destruct (reFence (c :: s)) as [rest|] eqn:E.
    + pose proof E as (mt & Es)%reFence_Some.
      injection Es as _ ->. rewrite removeMatches_match by (by rewrite E).
      apply IH. simpl in Hn. rewrite length_app in Hn. lia.
    + rewrite removeMatches_keep by done.
      cbn [includes]. rewrite IH by (simpl in Hn; lia). rewrite orb_false_r.
      apply reFence_None in E as [Hc | Hs].
      * unfold startsWith, fence. simpl. by destruct (N.eqb_spec BACKTICK c).
      * apply removeFence_head2 in Hs. unfold startsWith, fence. simpl.
        destruct (N.eqb_spec BACKTICK c); [|done]. simpl in Hs.
        by destruct (removeMatches reFence 0 s) as [|x [|y r]];
          simpl in *; repeat case_match.
Qed.

Lemma includes_startsWith (s p : str) : includes s p = false -> startsWith s p = false.
Proof. destruct s as [|c s]; [done|]. by intros [? _]%includes_cons. Qed.

(** X28.  For a reply that does not start with the tagged fence, removing the
    fences once more changes nothing; and when it starts with a fence, no
    fence at all is left in the text.  (For a reply that starts with the
    tagged fence only the tagged fences and a closing fence are removed, and
    other fences stay.) *)
Theorem stripFences_untagged_clean (text : str) :
  startsWith text fenceJson = false ->
  stripFences (stripFences text) = stripFences text
  /\ (startsWith text fence = true -> includes (stripFences text) fence = false).
Proof.
  intros Hj. destruct (startsWith text fence) eqn:Ef.
  - pose proof (removeFence_clean (length text) text (le_n _)) as Hclean.
    assert (stripFences text = removeMatches reFence 0 text) as ->.
    { unfold stripFences. rewrite Hj, Ef.
      apply removeMatches_none; [apply reFenceEnd_needs_fence|done]. }
    split; [|done]. unfold stripFences.
    assert (startsWith (removeMatches reFence 0 text) fence = false) as Hs
      by (by apply includes_startsWith).
    assert (startsWith (removeMatches reFence 0 text) fenceJson = false) as ->.
    { unfold startsWith, fenceJson. unfold startsWith in Hs.
      destruct (stripPrefix (fence ++ js "json") _) as [r|] eqn:E; [|done].
      apply stripPrefix_Some in E. by rewrite E, <- app_assoc, stripPrefix_app in Hs. }
    by rewrite Hs.
  - split; [|done].
    assert (stripFences text = text) as Hst by (unfold stripFences; by rewrite Hj, Ef).
    by rewrite !Hst.
Qed.

Import Samples.

Lemma extractJSON_ignores_padding_witness :
  extractJSON (js "Gemini") (js "  " ++ sampleObject ++ [LF])
  = extractJSON (js "Gemini") sampleObject.
Proof.
  apply (extractJSON_ignores_padding (js "Gemini") (js "  ") [LF]
           sampleObject eq_refl eq_refl).
Defined.

Lemma stripFences_untagged_clean_witness :
  stripFences (stripFences (fence ++ js "[1]" ++ fence)) = stripFences (fence ++ js "[1]" ++ fence)
  /\ includes (stripFences (fence ++ js "[1]" ++ fence)) fence = false.
Proof.
  destruct (stripFences_untagged_clean (fence ++ js "[1]" ++ fence) eq_refl)
    as [H1 H2].
  split; [exact H1|]. apply H2. reflexivity.
Defined.

End ExtractionFacts.

(** ** The prompt of the schedule request *)

Module PromptFacts.
Import JSStr JSON Exn JSValue JSDate Api Server JSObject SchedulePrompt.
Import JSStrFacts ServerFacts.

Lemma filter_filter (p : ChatMessage -> bool) (l : list ChatMessage) :
  List.filter p (List.filter p l) = List.filter p l.
Proof.
  induction l as [|x l IH]; [done|]. simpl. destruct (p x) eqn:E; [|done].
  simpl. by rewrite E, IH.
Qed.

Lemma orDefault_truthy (v d : json) : truthy (Some v) = true -> orDefault (Some v) d = v.
Proof. unfold orDefault. by intros ->. Qed.

Lemma riskTexts_no_null (items : list json) (texts : list (option json)) :
  riskTexts (JArr items) = Ok texts -> JNull ∉ items.
Proof.
  unfold riskTexts. intros Hmap Hin.
  destruct (mapWithIndex_spec _ _ _ _ Hmap) as [Hlen H].
  apply list_elem_of_lookup in Hin as [i Hi].
  destruct (lookup_lt_is_Some_2 texts i) as [t Ht].
  { rewrite Hlen. by eapply lookup_lt_Some. }
  destruct (H i t Ht) as (a & Ha & Hr). rewrite Hi in Ha. by injection Ha as <-.
Qed.

(** What a strategy must look like for the prompt to be built. *)
Lemma schedulePrompt_shape (strategy : json) (chat : list ChatMessage) (prompt : str) :
  schedulePrompt strategy chat = Ok prompt ->
  (forall v, prop (js "strategicRecommendations") strategy = Some v ->
     truthy (Some v) = true -> exists items, v = JArr items)
  /\ (forall v, prop (js "marketOpportunity") strategy = Some v ->
        truthy (Some v) = true -> exists s, v = JStr s)
  /\ (forall v, prop (js "timelineAndMilestones") strategy = Some v ->
        truthy (Some v) = true -> exists s, v = JStr s)
  /\ (forall v, prop (js "risksAndChallenges") strategy = Some v ->
        truthy (Some v) = true -> exists items, v = JArr items /\ JNull ∉ items).
Proof.
  unfold schedulePrompt. cbv zeta. intros H.
  destruct (toString _) as [ns|]; [|done]. cbn [mbind result_bind] in H.
  destruct (joinOf _ _) as [recs|] eqn:Er; [|done]. cbn [mbind result_bind] in H.
  destruct (substringOf _ 500) as [mo|] eqn:Em; [|done]. cbn [mbind result_bind] in H.
  destruct (substringOf _ 300) as [tl|] eqn:Et; [|done]. cbn [mbind result_bind] in H.
  destruct (riskTexts _) as [texts|] eqn:Ek; [|done].
  repeat split.
  - intros v Hv Htr. rewrite Hv, orDefault_truthy in Er by done.
    destruct v; try done. by eexists.
  - intros v Hv Htr. rewrite Hv, orDefault_truthy in Em by done.
    destruct v; try done. by eexists.
  - intros v Hv Htr. rewrite Hv, orDefault_truthy in Et by done.
    destruct v; try done. by eexists.
  - intros v Hv Htr. rewrite Hv, orDefault_truthy in Ek by done.
    destruct v; try done. eexists. split; [done|]. by eapply riskTexts_no_null.
Qed.

Section Handler.
Context (host : Host) {net : Backends} (google : Google) (key : option str).

(** X29.  Of the customer chat, the schedule request reads the messages of the
    customer only, and of their contents joined by blank lines the first
    thousand code units only: two chats that agree on that window give the
    same plan or the same error, and so does a chat and the same chat without
    the messages of the product manager. *)
Theorem generate_reads_chat_window (strategy : json) (chat chat' : list ChatMessage) :
  take 1000 (customerInsights chat) = take 1000 (customerInsights chat') ->
  generateScheduleFromStrategyAndChat host key schedulePrompt strategy chat
  = generateScheduleFromStrategyAndChat host key schedulePrompt strategy chat'
  /\ generateScheduleFromStrategyAndChat host key schedulePrompt strategy chat
     = generateScheduleFromStrategyAndChat host key schedulePrompt strategy
         (List.filter (fun msg => bool_decide (role msg = js "assistant")) chat).
Proof.
  assert (forall a b, take 1000 (customerInsights a) = take 1000 (customerInsights b) ->
            generateScheduleFromStrategyAndChat host key schedulePrompt strategy a
            = generateScheduleFromStrategyAndChat host key schedulePrompt strategy b) as Hwin.
  { intros a b H. unfold generateScheduleFromStrategyAndChat, schedulePrompt. cbv zeta.
    by rewrite H. }
  intros H. split; [by apply Hwin|]. apply Hwin.
  unfold customerInsights. by rewrite filter_filter.
Qed.

(** X30.  The synchronisation works for strategies of one shape only.  When a
    request is answered with anything but the status 400 or 500, the strategy
    of the request has strategic recommendations that are an array (or falsy),
    a market opportunity and a timeline that are strings (or falsy), and risks
    that are an array without null (or falsy), and the Gemini key is set; any
    other strategy is answered with the status 400 or 500. *)
Theorem syncCalendar_needs_strategy_shape (body : SyncRequest) (w w' : World)
    (r : Response) :
  syncCalendar host google key schedulePrompt body w = (Ok r, w') ->
  match r with BadRequest _ | ServerError _ => False | _ => True end ->
  exists strategy apiKey,
    strategyData body = Some strategy /\ isSet key = Some apiKey
    /\ (forall v, prop (js "strategicRecommendations") strategy = Some v ->
          truthy (Some v) = true -> exists items, v = JArr items)
    /\ (forall v, prop (js "marketOpportunity") strategy = Some v ->
          truthy (Some v) = true -> exists s, v = JStr s)
    /\ (forall v, prop (js "timelineAndMilestones") strategy = Some v ->
          truthy (Some v) = true -> exists s, v = JStr s)
    /\ (forall v, prop (js "risksAndChallenges") strategy = Some v ->
          truthy (Some v) = true -> exists items, v = JArr items /\ JNull ∉ items).
Proof.
  unfold syncCalendar, tryM. intros H Hr.
  destruct (strategyData body) as [strategy|]; [|by injection H as <- _].
  destruct (truthy (Some strategy)); [|by injection H as <- _].
  destruct (customerMessages body) as [[|msg msgs]|]; [by injection H as <- _| |by injection H as <- _].
  unfold mbind at 1, M_bind at 1, liftM at 1 in H.
  destruct (generateScheduleFromStrategyAndChat _ _ _ _ _) as [plan|e] eqn:Eg;
    [|by injection H as <- _].
  apply generate_inv in Eg as (apiKey & prompt & _ & _ & Hk & Hp & _).
  exists strategy, apiKey. split; [done|]. split; [done|].
  by eapply schedulePrompt_shape.
Qed.

End Handler.

Import Samples MoreSamples.

Lemma generate_reads_chat_window_witness :
  generateScheduleFromStrategyAndChat hostEpoch (net := netReplying replyTwoDays)
    (Some (js "AIza_key")) schedulePrompt (JObj []) chatWithManager
  = generateScheduleFromStrategyAndChat hostEpoch (net := netReplying replyTwoDays)
      (Some (js "AIza_key")) schedulePrompt (JObj []) someChat.
Proof.
  apply (proj1 (generate_reads_chat_window hostEpoch (net := netReplying replyTwoDays)
                  (Some (js "AIza_key")) (JObj []) chatWithManager someChat eq_refl)).
Defined.

Lemma syncCalendar_needs_strategy_shape_witness :
  exists strategy apiKey,
    strategyData wellFormedRequest = Some strategy
    /\ isSet (Some (js "AIza_key")) = Some apiKey.
Proof.
  edestruct (syncCalendar_needs_strategy_shape hostEpoch (net := netReplying replyTwoDays)
               googleGranting (Some (js "AIza_key")) wellFormedRequest sampleWorld)
    as (strategy & apiKey & H1 & H2 & _).
  - reflexivity.
  - exact I.
  - exists strategy, apiKey. split; [exact H1|exact H2].
Defined.

End PromptFacts.
